(** * aECG annotation projection and interval derivation

    A shallow embedding of the numeric core of the [aecg] package:
    [aecg.core] (unit conversion, HL7 date parsing, the annotation time
    projector [Aecg.anns_to_ms]) and [aecg.indexing] (the interval
    derivation engine [get_aecg_intervals] and the aggregator
    [get_interval_count_and_avg]).

    Conventions of the embedding.
    - A Python exception is a value of [exn]; fallible code returns
      [result A].
    - A [float] is an exact rational ([Q], kept in lowest terms with
      [Qred]); [nan] is [None] in an [option Q], and arithmetic on
      [option Q] propagates it the way IEEE arithmetic propagates [nan].
      Rounding is not modelled.
    - A pandas data frame is the list of its rows, each row a record.
    - The interpreter's builtins [float(str)] and [x ** y] are parameters
      of the functions that call them. *)

From Stdlib Require Import List String Ascii Bool Arith ZArith QArith Qabs Qround Lia Lqa Sorted.
Import ListNotations.

Local Open Scope string_scope.
Local Open Scope Z_scope.

(** ** Python values and exceptions *)

Module Py.

Inductive exn : Type :=
| ValueError
| IndexError
| KeyError
| AttributeError
| UnknownUnitsError.

Inductive result (A : Type) : Type :=
| Ok (a : A)
| Raise (e : exn).

Arguments Ok {A} a.
Arguments Raise {A} e.

Definition bind {A B : Type} (m : result A) (k : A -> result B) : result B :=
  match m with
  | Ok a => k a
  | Raise e => Raise e
  end.

Definition is_ok {A : Type} (m : result A) : bool :=
  match m with Ok _ => true | Raise _ => false end.

(** [try: m except Exception: h] *)
Definition try_except {A : Type} (m : result A) (h : exn -> result A) : result A :=
  match m with
  | Ok a => Ok a
  | Raise e => h e
  end.

(** Floats as exact rationals in lowest terms. *)
Definition fadd (a b : Q) : Q := Qred (a + b).
Definition fsub (a b : Q) : Q := Qred (a - b).
Definition fmul (a b : Q) : Q := Qred (a * b).
Definition fdiv (a b : Q) : Q := Qred (a / b).
Definition fgt (a b : Q) : bool := match Qcompare a b with Gt => true | _ => false end.
Definition feq (a b : Q) : bool := Qeq_bool a b.

(** The literals [1e-3], [1e3] and [1e-6]. *)
Definition e_3 : Q := 1 # 1000.
Definition e3 : Q := 1000 # 1.
Definition e_6 : Q := 1 # 1000000.

(** The same on values that may be [nan]. *)
Definition nlift2 (f : Q -> Q -> Q) (a b : option Q) : option Q :=
  match a, b with
  | Some x, Some y => Some (f x y)
  | _, _ => None
  end.
Definition nsub := nlift2 fsub.
Definition ndiv := nlift2 fdiv.
Definition isnan (a : option Q) : bool :=
  match a with None => true | Some _ => false end.
(** [a > b]: false as soon as one side is [nan]. *)
Definition ngt (a b : option Q) : bool :=
  match a, b with
  | Some x, Some y => fgt x y
  | _, _ => false
  end.

(** [s[a:b]] for [0 <= a <= b]. *)
Definition slice (s : string) (a b : nat) : string := substring a (b - a) s.

(** [s.split(sep)] for a one-character separator. *)
Fixpoint split_aux (sep : ascii) (cur : string) (s : string) : list string :=
  match s with
  | EmptyString => [cur]
  | String c s' =>
      if Ascii.eqb c sep then cur :: split_aux sep EmptyString s'
      else split_aux sep (cur ++ String c EmptyString) s'
  end.
Definition split (sep : ascii) (s : string) : list string :=
  split_aux sep EmptyString s.

(** [l[i]] for [i >= 0]. *)
Definition index {A : Type} (l : list A) (i : nat) : result A :=
  match nth_error l i with
  | Some a => Ok a
  | None => Raise IndexError
  end.

(** [l[-1]] *)
Definition index_last {A : Type} (l : list A) : result A :=
  match rev l with
  | a :: _ => Ok a
  | [] => Raise IndexError
  end.

(** [s.upper()] on ASCII. *)
Definition upper_ascii (c : ascii) : ascii :=
  let n := nat_of_ascii c in
  if ((97 <=? n) && (n <=? 122))%nat then ascii_of_nat (n - 32) else c.
Fixpoint upper (s : string) : string :=
  match s with
  | EmptyString => EmptyString
  | String c s' => String (upper_ascii c) (upper s')
  end.

Definition is_digit (c : ascii) : bool :=
  let n := nat_of_ascii c in ((48 <=? n) && (n <=? 57))%nat.

(** The value of a non-empty string of decimal digits. *)
Fixpoint digits_acc (acc : Z) (s : string) : option Z :=
  match s with
  | EmptyString => Some acc
  | String c s' =>
      if is_digit c
      then digits_acc (10 * acc + Z.of_nat (nat_of_ascii c - 48)) s'
      else None
  end.
Definition parse_digits (s : string) : option Z :=
  match s with
  | EmptyString => None
  | _ => digits_acc 0 s
  end.

(** [x in l] for strings. *)
Definition mem (x : string) (l : list string) : bool :=
  existsb (String.eqb x) l.

(** [d[k]] on a dictionary given as an association list. *)
Fixpoint dict_get (d : list (string * string)) (k : string) : result string :=
  match d with
  | [] => Raise KeyError
  | (k', v) :: d' => if String.eqb k k' then Ok v else dict_get d' k
  end.

(** A stable sort ([DataFrame.sort_values] on several keys is one):
    [le a b] says that the key of [a] is not above the key of [b]. *)
Fixpoint insert_by {A : Type} (le : A -> A -> bool) (x : A) (l : list A) : list A :=
  match l with
  | [] => [x]
  | y :: l' => if le x y then x :: l else y :: insert_by le x l'
  end.
Definition sort_by {A : Type} (le : A -> A -> bool) (l : list A) : list A :=
  fold_right (insert_by le) [] l.

Definition lex (c1 c2 : comparison) : comparison :=
  match c1 with Eq => c2 | _ => c1 end.
(** Missing values sort last. *)
Definition cmp_opt {A : Type} (cmp : A -> A -> comparison) (a b : option A) : comparison :=
  match a, b with
  | Some x, Some y => cmp x y
  | Some _, None => Lt
  | None, Some _ => Gt
  | None, None => Eq
  end.
Definition not_gt (c : comparison) : bool :=
  match c with Gt => false | _ => true end.

End Py.

Import Py.

Notation "x <- m ;; k" := (bind m (fun x => k))
  (at level 61, m at next level, right associativity).

(** ** [aecg.core]: unit conversion *)

Module Core.

(** [class AecgLead] (the attributes [lead_values_mv] reads). *)
Record AecgLead : Type := mkAecgLead {
  leadname : string;
  origin : Q;
  origin_unit : string;
  scale : Q;
  scale_unit : string;
  digits : list Z
}.

(** Attribute lookup [aecglead.<name>] for the string-valued attributes:
    a name [__init__] never sets raises [AttributeError]. *)
Definition getattr (l : AecgLead) (name : string) : result string :=
  if String.eqb name "leadname" then Ok (leadname l)
  else if String.eqb name "origin_unit" then Ok (origin_unit l)
  else if String.eqb name "scale_unit" then Ok (scale_unit l)
  else Raise AttributeError.

(** The first half of [lead_values_mv]: "Convert origin to mV". *)
Definition origin_mv (l : AecgLead) : result Q :=
  u0 <- getattr l "origin_unit" ;;
  if String.eqb u0 "uV" then Ok (fmul (origin l) e_3)
  else
    u1 <- getattr l "oirigin_unit" ;;
    if String.eqb u1 "V" then Ok (fmul (origin l) e3)
    else
      u2 <- getattr l "oirigin_unit" ;;
      if String.eqb u2 "mV" then Ok (Qred (origin l))
      else
        u3 <- getattr l "oirigin_unit" ;;
        if String.eqb u3 "nV" then Ok (fmul (origin l) e_6)
        else Raise UnknownUnitsError.

(** The second half: "Convert scale to mV". *)
Definition scale_mv (l : AecgLead) : result Q :=
  u0 <- getattr l "scale_unit" ;;
  if String.eqb u0 "uV" then Ok (fmul (scale l) e_3)
  else
    u1 <- getattr l "scale_unit" ;;
    if String.eqb u1 "V" then Ok (fmul (scale l) e3)
    else
      u2 <- getattr l "scale_unit" ;;
      if String.eqb u2 "mV" then Ok (Qred (scale l))
      else
        u3 <- getattr l "scale_unit" ;;
        if String.eqb u3 "nV" then Ok (fmul (scale l) e_6)
        else Raise UnknownUnitsError.

Definition lead_values_mv (l : AecgLead) : result (list Q) :=
  o <- origin_mv l ;;
  s <- scale_mv l ;;
  Ok (map (fun d => fadd (fmul (inject_Z d) s) o) (digits l)).

(** What the conversion is meant to compute: the factor of a unit. *)
Definition mv_factor (u : string) : option Q :=
  if String.eqb u "uV" then Some e_3
  else if String.eqb u "V" then Some e3
  else if String.eqb u "mV" then Some 1%Q
  else if String.eqb u "nV" then Some e_6
  else None.

End Core.


(** ** [datetime]: the part of the interpreter's library the package calls *)

Module Datetime.

Record datetime : Type := mkdatetime {
  year : Z; month : Z; day : Z;
  hour : Z; minute : Z; second : Z; microsecond : Z
}.

Definition is_leap (y : Z) : bool :=
  (y mod 4 =? 0) && (negb (y mod 100 =? 0) || (y mod 400 =? 0)).

Definition days_in_month (y m : Z) : Z :=
  if m =? 2 then (if is_leap y then 29 else 28)
  else if (m =? 4) || (m =? 6) || (m =? 9) || (m =? 11) then 30
  else 31.

Definition days_before_year (y : Z) : Z :=
  let y1 := y - 1 in y1 * 365 + y1 / 4 - y1 / 100 + y1 / 400.

Definition days_before_month (y m : Z) : Z :=
  fold_left (fun acc k => acc + days_in_month y (Z.of_nat k))
            (seq 1 (Z.to_nat (m - 1))) 0.

(** Proleptic Gregorian ordinal, 1 for 0001-01-01. *)
Definition ymd2ord (y m d : Z) : Z :=
  days_before_year y + days_before_month y m + d.

(** The range checks of the [datetime] constructor. *)
Definition valid (d : datetime) : bool :=
  (1 <=? year d) && (year d <=? 9999) &&
  (1 <=? month d) && (month d <=? 12) &&
  (1 <=? day d) && (day d <=? days_in_month (year d) (month d)) &&
  (0 <=? hour d) && (hour d <=? 23) &&
  (0 <=? minute d) && (minute d <=? 59) &&
  (0 <=? second d) && (second d <=? 59) &&
  (0 <=? microsecond d) && (microsecond d <=? 999999).

(** Exactly [n] decimal digits at the head of [s]. *)
Definition ndigits (n : nat) (s : string) : option Z :=
  let t := slice s 0 n in
  if (String.length t =? n)%nat then parse_digits t else None.

Definition drop (n : nat) (s : string) : string :=
  substring n (String.length s - n) s.

(** [YYYY-MM-DD], the first ten characters. *)
Definition parse_isoformat_date (s : string) : option (Z * Z * Z) :=
  match ndigits 4 s, String.get 4 s, ndigits 2 (drop 5 s),
        String.get 7 s, ndigits 2 (drop 8 s) with
  | Some y, Some "-"%char, Some m, Some "-"%char, Some d => Some (y, m, d)
  | _, _, _, _, _ => None
  end.

(** [.fff] or [.ffffff], as microseconds. *)
Definition parse_fraction (f : string) : option Z :=
  if (String.length f =? 3)%nat then option_map (Z.mul 1000) (parse_digits f)
  else if (String.length f =? 6)%nat then parse_digits f
  else None.

(** [HH[:MM[:SS[.fff[fff]]]]]: [i] more components may follow this one. *)
Fixpoint parse_hh_mm_ss_ff (i : nat) (t : string) : option (list Z) :=
  match ndigits 2 t with
  | None => None
  | Some v =>
      match drop 2 t with
      | EmptyString => Some [v]
      | String c rest =>
          match rest with
          | EmptyString => None
          | _ =>
              if Ascii.eqb c ":" then
                match i with
                | O => option_map (fun us => [v; us]) (parse_fraction rest)
                | S i' => option_map (cons v) (parse_hh_mm_ss_ff i' rest)
                end
              else if Ascii.eqb c "." then
                option_map
                  (fun us => v :: repeat 0 i ++ [us]) (parse_fraction rest)
              else None
          end
      end
  end.

Fixpoint has_sign (s : string) : bool :=
  match s with
  | EmptyString => false
  | String c s' => Ascii.eqb c "+" || Ascii.eqb c "-" || has_sign s'
  end.

(** [datetime.fromisoformat] as in the interpreters of the package's
    pinned dependencies (3.7, 3.8): [YYYY-MM-DD], then optionally any one
    separator and [HH[:MM[:SS[.fff[fff]]]]]; reduced-precision dates are
    rejected (by every later interpreter too).  UTC offsets are left out:
    a sign in the time part makes the parse fail here, and no string
    assembled by [parse_hl7_datetime] has an offset the interpreter
    accepts. *)
Definition fromisoformat (s : string) : result datetime :=
  match parse_isoformat_date s with
  | None => Raise ValueError
  | Some (y, m, d) =>
      let tm :=
        if (String.length s <=? 10)%nat then Some []
        else
          let t := drop 11 s in
          if has_sign t then None else parse_hh_mm_ss_ff 2 t in
      match tm with
      | None => Raise ValueError
      | Some comps =>
          let dt := mkdatetime y m d (nth 0 comps 0) (nth 1 comps 0)
                               (nth 2 comps 0) (nth 3 comps 0) in
          if valid dt then Ok dt else Raise ValueError
      end
  end.

(** Microseconds since 0001-01-01 00:00:00. *)
Definition to_us (d : datetime) : Z :=
  (((ymd2ord (year d) (month d) (day d) - 1) * 24 + hour d) * 60
    + minute d) * 60 * 1000000
  + second d * 1000000 + microsecond d.

(** [(a - b).total_seconds() * 1e3] *)
Definition diff_ms (a b : datetime) : Q :=
  Qred ((to_us a - to_us b) # 1000).

End Datetime.

Import Datetime.

(** ** [aecg.core]: HL7 time stamps *)

Module Hl7.

Definition parse_hl7_datetime (hl7time : string) : result datetime :=
  let splitted_datetime := split "." hl7time in
  datatime_str <- index splitted_datetime 0 ;;
  mstz_str <-
    (if (1 <? List.length splitted_datetime)%nat
     then index splitted_datetime 1 else Ok "") ;;
  let len := String.length datatime_str in
  let year := slice datatime_str 0 4 in
  let isodatetime_str :=
    if (4 <? len)%nat then
      let s1 := year ++ "-" ++ slice datatime_str 4 6 in
      if (6 <? len)%nat then
        let s2 := s1 ++ "-" ++ slice datatime_str 6 8 in
        if (8 <? len)%nat then
          let s3 := s2 ++ " " ++ slice datatime_str 8 10 in
          if (10 <? len)%nat then
            let s4 := s3 ++ ":" ++ slice datatime_str 10 12 in
            if (12 <? len)%nat then
              let s5 := s4 ++ ":" ++ slice datatime_str 12 14 in
              if (0 <? String.length mstz_str)%nat
              then s5 ++ "." ++ slice mstz_str 0 3
              else s5
            else s4
          else s3
        else s2
      else s1
    else year in
  fromisoformat isodatetime_str.

End Hl7.

Import Hl7.


(** ** [aecg.core]: the annotation time projector, [Aecg.anns_to_ms] *)

Module Projector.

Definition STD_LEADS : list string :=
  ["MDC_ECG_LEAD_I"; "MDC_ECG_LEAD_II"; "MDC_ECG_LEAD_III";
   "MDC_ECG_LEAD_AVR"; "MDC_ECG_LEAD_AVL"; "MDC_ECG_LEAD_AVF";
   "MDC_ECG_LEAD_V1"; "MDC_ECG_LEAD_V2"; "MDC_ECG_LEAD_V3";
   "MDC_ECG_LEAD_V4"; "MDC_ECG_LEAD_V5"; "MDC_ECG_LEAD_V6";
   "MDC_ECG_LEAD_X"; "MDC_ECG_LEAD_Y"; "MDC_ECG_LEAD_Z";
   "MDC_ECG_LEAD_AVRneg"; "MDC_ECG_LEAD_AVRNEG";
   "MDC_ECG_LEAD_aVR"; "MDC_ECG_LEAD_aVL"; "MDC_ECG_LEAD_aVF"].

Definition STD_LEADS_DISPLAYNAMES : list (string * string) :=
  [("MDC_ECG_LEAD_I", "I"); ("MDC_ECG_LEAD_II", "II");
   ("MDC_ECG_LEAD_III", "III"); ("MDC_ECG_LEAD_AVR", "aVR");
   ("MDC_ECG_LEAD_AVL", "aVL"); ("MDC_ECG_LEAD_AVF", "aVF");
   ("MDC_ECG_LEAD_AVRneg", "-aVR"); ("MDC_ECG_LEAD_AVRNEG", "-aVR");
   ("MDC_ECG_LEAD_V1", "V1"); ("MDC_ECG_LEAD_V2", "V2");
   ("MDC_ECG_LEAD_V3", "V3"); ("MDC_ECG_LEAD_V4", "V4");
   ("MDC_ECG_LEAD_V5", "V5"); ("MDC_ECG_LEAD_V6", "V6");
   ("MORTARA_ECG_LEAD_TEA", "Mortara TEA");
   ("FDA_ECG_LEAD_VCGMAG", "VCGMAG");
   ("MDC_ECG_LEAD_aVR", "aVR"); ("MDC_ECG_LEAD_aVL", "aVL");
   ("MDC_ECG_LEAD_aVF", "aVF")].

(** One annotation as [aecg.io] builds it (a dictionary with these keys);
    [beatnum] is an integer or the empty string. *)
Record annotation : Type := mkannotation {
  anngrpid : Z;
  beatnum : option Z;
  code : string;
  codetype : string;
  wavecomponent : string;
  wavecomponent2 : string;
  timecode : string;
  value : string; value_unit : string;
  low : string; low_unit : string;
  high : string; high_unit : string;
  lead : string
}.

(** The boundary slot: ["value"], ["low"] or ["high"]. *)
Inductive param : Type := Pvalue | Plow | Phigh.

Definition is_value (p : param) : bool :=
  match p with Pvalue => true | _ => false end.
Definition is_low (p : param) : bool :=
  match p with Plow => true | _ => false end.
Definition is_high (p : param) : bool :=
  match p with Phigh => true | _ => false end.

(** [ann[param]] and [ann[param + "_unit"]] *)
Definition slot (ann : annotation) (p : param) : string :=
  match p with Pvalue => value ann | Plow => low ann | Phigh => high ann end.
Definition slot_unit (ann : annotation) (p : param) : string :=
  match p with
  | Pvalue => value_unit ann | Plow => low_unit ann | Phigh => high_unit ann
  end.

Definition ecglib_suffix (p : param) : string :=
  match p with Pvalue => "PEAK" | Plow => "ON" | Phigh => "OFF" end.

(** One row of the frame [anns_to_ms] returns; [TIME] is [None] while it
    still holds the empty placeholder. *)
Record lead_ann : Type := mklead_ann {
  ANNGRPID : Z;
  BEATNUM : option Z;
  LEADNAM : string;
  ECGLIBANNTYPE : string;
  ANNTYPE : string;
  TIME : option Q;
  HL7LEADNAM : string
}.

(** One row of [leads_start_times]. *)
Record lead_start : Type := mklead_start {
  ls_leadname : string;
  ls_code : string;
  ls_time : string
}.

Definition annsufix (ann : annotation) (p : param) : string :=
  if String.eqb (wavecomponent2 ann) "MDC_ECG_WAVC_PEAK" then "PEAK"
  else ecglib_suffix p.

(** Some field is the code [c]. *)
Definition any_field (ann : annotation) (c : string) : bool :=
  String.eqb (codetype ann) c || String.eqb (wavecomponent ann) c
  || String.eqb (wavecomponent2 ann) c.

(** [codetype] is [t] and one of the two components is [c]. *)
Definition typed_component (ann : annotation) (t c : string) : bool :=
  String.eqb (codetype ann) t
  && (String.eqb (wavecomponent ann) c || String.eqb (wavecomponent2 ann) c).

Definition same_qrst (ann : annotation) : bool :=
  String.eqb (codetype ann) "MDC_ECG_WAVC_QRSTWAVE"
  && String.eqb (wavecomponent ann) "MDC_ECG_WAVC_QRSTWAVE"
  && String.eqb (wavecomponent2 ann) "".

Definition generic (c : string) : bool :=
  String.eqb c "MDC_ECG_WAVC_TYPE" || String.eqb c "MDC_ECG_WAVC".

(** The final [else] of the cascade. *)
Definition fallback_code (ann : annotation) : string :=
  if negb (generic (wavecomponent ann)) then wavecomponent ann
  else if negb (generic (wavecomponent2 ann)) then wavecomponent2 ann
  else codetype ann.

Definition fallback_label (ann : annotation) (p : param) : result string :=
  tok <- index (split "_" (fallback_code ann)) 3 ;;
  Ok (tok ++ annsufix ann p).

(** The value assigned to [ECGLIBANNTYPE]; it starts as the empty string
    and stays so in the branches that assign nothing. *)
Definition ecglibanntype (ann : annotation) (p : param) : result string :=
  let sfx := annsufix ann p in
  if any_field ann "MDC_ECG_WAVC_PWAVE" then Ok ("P" ++ sfx)
  else if any_field ann "MDC_ECG_WAVC_QRSWAVE" then
    if negb (is_value p) then Ok ("Q" ++ sfx) else Ok ("R" ++ sfx)
  else if any_field ann "MDC_ECG_WAVC_RWAVE" then Ok ("R" ++ sfx)
  else if any_field ann "MDC_ECG_WAVC_TWAVE" then Ok ("T" ++ sfx)
  else if typed_component ann "MDC_ECG_WAVC_TYPE" "MDC_ECG_WAVC_PRSEG" then
    if is_low p then Ok ("P" ++ sfx)
    else if is_high p then Ok "QON"
    else Ok ""
  else if typed_component ann "MDC_ECG_WAVC_TYPE" "MDC_ECG_WAVC_QRSTWAVE" then
    if is_low p then Ok ("Q" ++ sfx) else Ok ("T" ++ sfx)
  else if same_qrst ann then
    if is_low p then Ok ("Q" ++ sfx)
    else if is_high p then Ok ("T" ++ sfx)
    else Ok ""
  else if typed_component ann "MDC_ECG_WAVC_QWAVE" "MDC_ECG_WAVC_QWAVE" then
    if is_low p then Ok ("Q" ++ sfx) else Ok ("Q" ++ sfx)
  else if typed_component ann "MDC_ECG_WAVC_TYPE" "MDC_ECG_WAVC_QSWAVE" then
    if is_low p then Ok ("Q" ++ sfx) else Ok ("Q" ++ sfx)
  else if typed_component ann "MDC_ECG_WAVC_SWAVE" "MDC_ECG_WAVC_PEAK" then
    Ok ("S" ++ sfx)
  else if typed_component ann "MDC_ECG_WAVC_STJ" "MDC_ECG_WAVC_PEAK" then
    Ok "QOFF"
  else fallback_label ann p.

(** No branch before the final [else] is taken. *)
Definition falls_through (ann : annotation) : bool :=
  negb (any_field ann "MDC_ECG_WAVC_PWAVE"
        || any_field ann "MDC_ECG_WAVC_QRSWAVE"
        || any_field ann "MDC_ECG_WAVC_RWAVE"
        || any_field ann "MDC_ECG_WAVC_TWAVE"
        || typed_component ann "MDC_ECG_WAVC_TYPE" "MDC_ECG_WAVC_PRSEG"
        || typed_component ann "MDC_ECG_WAVC_TYPE" "MDC_ECG_WAVC_QRSTWAVE"
        || same_qrst ann
        || typed_component ann "MDC_ECG_WAVC_QWAVE" "MDC_ECG_WAVC_QWAVE"
        || typed_component ann "MDC_ECG_WAVC_TYPE" "MDC_ECG_WAVC_QSWAVE"
        || typed_component ann "MDC_ECG_WAVC_SWAVE" "MDC_ECG_WAVC_PEAK"
        || typed_component ann "MDC_ECG_WAVC_STJ" "MDC_ECG_WAVC_PEAK").

Definition anntype (ann : annotation) : string :=
  if negb (String.eqb (wavecomponent ann) "MDC_ECG_WAVC_TYPE")
  then wavecomponent ann else codetype ann.

Definition leadnam_of (ann : annotation) : result string :=
  if negb (String.eqb (lead ann) "") then
    if mem (lead ann) STD_LEADS
    then dict_get STD_LEADS_DISPLAYNAMES (upper (lead ann))
    else Ok (lead ann)
  else Ok "GLOBAL".

(** [lead_st]: the rows of [leads_start_times] for the lead of [ann];
    when there is one, its time overwrites the local [start_time]. *)
Definition lead_st (leads_start_times : list lead_start) (ann : annotation)
    : list lead_start :=
  filter (fun r => String.eqb (ls_leadname r) (lead ann)) leads_start_times.

Definition next_start_time (leads_start_times : list lead_start)
    (start_time : string) (ann : annotation) : string :=
  match lead_st leads_start_times ann with
  | r :: _ => ls_time r
  | [] => start_time
  end.

Definition key_le (a b : lead_ann) : bool :=
  not_gt (lex (Z.compare (ANNGRPID a) (ANNGRPID b))
         (lex (cmp_opt Z.compare (BEATNUM a) (BEATNUM b))
         (lex (String.compare (LEADNAM a) (LEADNAM b))
              (cmp_opt Qcompare (TIME a) (TIME b))))).

Definition has_time (r : lead_ann) : bool := negb (isnan (TIME r)).

Section WithFloat.

(** [float(s)]; [None] when it raises [ValueError]. *)
Variable pyfloat : string -> option Q.

Definition float (s : string) : result Q :=
  match pyfloat s with
  | Some x => Ok x
  | None => Raise ValueError
  end.

(** The value read as a time relative to the start, by its unit; an
    unknown unit assigns nothing. *)
Definition relative_time (ann : annotation) (p : param) : result (option Q) :=
  let param_u := slot_unit ann p in
  if String.eqb param_u "ms" then
    x <- float (slot ann p) ;; Ok (Some (Qred x))
  else if String.eqb param_u "us" then
    x <- float (slot ann p) ;; Ok (Some (fmul x e_3))
  else if String.eqb param_u "s" then
    x <- float (slot ann p) ;; Ok (Some (fmul x e3))
  else Ok None.

Definition absolute_time (start_time : string) (ann : annotation) (p : param)
    : result (option Q) :=
  t <- parse_hl7_datetime (slot ann p) ;;
  t0 <- parse_hl7_datetime start_time ;;
  Ok (Some (diff_ms t t0)).

Definition project_time (start_time : string) (ann : annotation) (p : param)
    : result (option Q) :=
  if String.eqb (timecode ann) "TIME_ABSOLUTE" then
    try_except (absolute_time start_time ann p)
               (fun _ => relative_time ann p)
  else if String.eqb (timecode ann) "TIME_RELATIVE" then
    relative_time ann p
  else absolute_time start_time ann p.

(** The one-row frame built for a non-empty slot. *)
Definition make_lead_ann (start_time leadnam : string) (ann : annotation)
    (p : param) : result lead_ann :=
  lab <- ecglibanntype ann p ;;
  t <- project_time start_time ann p ;;
  Ok (mklead_ann (anngrpid ann) (beatnum ann) leadnam lab (anntype ann)
                 t (lead ann)).

(** The body of [for param in ["value", "low", "high"]]. *)
Definition param_step (start_time leadnam : string) (ann : annotation)
    (res : list lead_ann) (p : param) : result (list lead_ann) :=
  if negb (String.eqb (slot ann p) "") then
    row <- make_lead_ann start_time leadnam ann p ;;
    Ok (sort_by key_le (res ++ [row]))
  else Ok res.

(** The body of [for idx, ann in ecganns.iterrows()]: the state is the
    local [start_time] and the frame [res]. *)
Definition ann_step (leads_start_times : list lead_start)
    (st : string * list lead_ann) (ann : annotation)
    : result (string * list lead_ann) :=
  let (start_time, res) := st in
  leadnam <- leadnam_of ann ;;
  let start_time := next_start_time leads_start_times start_time ann in
  res <- param_step start_time leadnam ann res Pvalue ;;
  res <- param_step start_time leadnam ann res Plow ;;
  res <- param_step start_time leadnam ann res Phigh ;;
  Ok (start_time, res).

Fixpoint ann_loop (leads_start_times : list lead_start)
    (st : string * list lead_ann) (ecganns : list annotation)
    : result (string * list lead_ann) :=
  match ecganns with
  | [] => Ok st
  | ann :: rest =>
      st' <- ann_step leads_start_times st ann ;;
      ann_loop leads_start_times st' rest
  end.

Definition anns_to_ms (start_time : string)
    (leads_start_times : list lead_start) (ecganns : list annotation)
    : result (list lead_ann) :=
  st <- ann_loop leads_start_times (start_time, []) ecganns ;;
  Ok (filter has_time (snd st)).

End WithFloat.

(** A reading of [float(s)] on plain decimal literals,
    [[+-]digits[.digits]]; it is used to run the projector on examples. *)
Definition decimal_float (s : string) : option Q :=
  let (neg, body) :=
    match s with
    | String "-" r => (true, r)
    | String "+" r => (false, r)
    | _ => (false, s)
    end in
  let sgn (q : Q) := if neg then Qred (- q) else Qred q in
  match split "." body with
  | [i] => option_map (fun n => sgn (inject_Z n)) (parse_digits i)
  | [i; f] =>
      match parse_digits i, parse_digits f with
      | Some n, Some m =>
          Some (sgn (Qplus (inject_Z n)
                       (Qmake m (Pos.of_nat (10 ^ String.length f)))))
      | _, _ => None
      end
  | _ => None
  end.

End Projector.


(** ** [aecg.indexing]: interval derivation and aggregation *)

Module Indexing.

(** One row of [anns_df_in_ms], with the columns the engine reads; every
    row has a time ([anns_to_ms] removes the rows that have none).  Rows
    are told apart by their position: the index labels of the frame are
    taken to be distinct, as those of the frames [anns_to_ms] returns. *)
Record ann_ms : Type := mkann_ms {
  ANNGRPID : Z;
  LEADNAM : string;
  HL7LEADNAM : string;
  ECGLIBANNTYPE : string;
  TIME : Q
}.

(** One row of the working copy [tmp]: the lead columns, which the scan
    may rewrite, the time and the six interval columns. *)
Record trow : Type := mktrow {
  t_LEADNAM : string;
  t_HL7LEADNAM : string;
  t_TIME : Q;
  RR : option Q;
  PR : option Q;
  QRS : option Q;
  QT : option Q;
  QTRR : option Q;
  QTCF : option Q
}.

(** One row of the long table: a derived interval ([DTYPE] empty) or a
    summary row ([DTYPE] ["COUNT"] or ["AVERAGE"], no time). *)
Record interval : Type := mkinterval {
  i_LEADNAM : string;
  i_HL7LEADNAM : string;
  i_TIME : option Q;
  PARAMCD : string;
  AVAL : option Q;
  DTYPE : string
}.

(** The local variables of the scan. *)
Record state : Type := mkstate {
  current_lead : string;
  preceeding_R : option Q;
  current_R : option Q;
  last_rr : option Q;
  last_pon : option Q;
  last_qon : option Q;
  last_qoff : option Q;
  last_toff : option Q;
  last_qt : option Q
}.

Definition initial_state : state :=
  mkstate "" None None None None None None None None.

Definition init_row (a : ann_ms) : trow :=
  mktrow (LEADNAM a) (HL7LEADNAM a) (TIME a) None None None None None None.

Definition is_type (a : ann_ms) (t : string) : bool :=
  String.eqb (ECGLIBANNTYPE a) t.

(** "Reset last observed annotations when starting new lead" *)
Definition reset_lead (a : ann_ms) (s : state) : state :=
  if String.eqb (current_lead s) "" || negb (String.eqb (current_lead s) (LEADNAM a))
  then mkstate (LEADNAM a) None None None None None None None None
  else s.

Definition on_rpeak (a : ann_ms) (sr : state * trow) : state * trow :=
  let (s, r) := sr in
  if is_type a "RPEAK" then
    let potential_R := Some (TIME a) in
    if isnan (current_R s) || ngt potential_R (current_R s) then
      let preceeding_R' := current_R s in
      let current_R' := potential_R in
      let last_rr' := nsub current_R' preceeding_R' in
      (mkstate (current_lead s) preceeding_R' current_R' last_rr'
               (last_pon s) (last_qon s) (last_qoff s) (last_toff s) (last_qt s),
       mktrow (t_LEADNAM r) (t_HL7LEADNAM r) (t_TIME r)
              last_rr' (PR r) (QRS r) (QT r) (QTRR r) (QTCF r))
    else sr
  else sr.

Definition on_pon (a : ann_ms) (sr : state * trow) : state * trow :=
  let (s, r) := sr in
  if is_type a "PON" then
    (mkstate (current_lead s) (preceeding_R s) (current_R s) (last_rr s)
             (Some (TIME a)) (last_qon s) (last_qoff s) (last_toff s) (last_qt s),
     r)
  else sr.

Definition on_qon (a : ann_ms) (sr : state * trow) : state * trow :=
  let (s, r) := sr in
  if is_type a "QON"
     || (is_type a "RON"
         && (isnan (last_qon s)
             || ngt (nsub (Some (TIME a)) (last_qon s)) (Some (400 # 1)))) then
    let last_qon' := Some (TIME a) in
    (mkstate (current_lead s) (preceeding_R s) (current_R s) (last_rr s)
             None last_qon' None None None,
     mktrow (t_LEADNAM r) (t_HL7LEADNAM r) (t_TIME r)
            (RR r) (nsub last_qon' (last_pon s)) (QRS r) (QT r) (QTRR r) (QTCF r))
  else sr.

Definition on_qoff (a : ann_ms) (sr : state * trow) : state * trow :=
  let (s, r) := sr in
  if is_type a "QOFF" || is_type a "STJPEAK" then
    let last_qoff' := Some (TIME a) in
    (mkstate (current_lead s) (preceeding_R s) (current_R s) (last_rr s)
             (last_pon s) (last_qon s) last_qoff' (last_toff s) (last_qt s),
     mktrow (t_LEADNAM r) (t_HL7LEADNAM r) (t_TIME r)
            (RR r) (PR r) (nsub last_qoff' (last_qon s)) (QT r) (QTRR r) (QTCF r))
  else sr.

(** The times of the [QON] rows of the GLOBAL lead, in table order. *)
Definition global_qons (df : list ann_ms) : list Q :=
  map TIME (filter (fun x => String.eqb (LEADNAM x) "GLOBAL"
                             && String.eqb (ECGLIBANNTYPE x) "QON") df).

(** [potential_qts[potential_qts > 0]] *)
Definition potential_qts (last_toff : Q) (qons : list Q) : list Q :=
  filter (fun d => fgt d 0) (map (fun q => fsub last_toff q) qons).

(** The [QON] rows of an annotation group. *)
Definition group_qon_rows (df : list ann_ms) (g : Z) : list ann_ms :=
  filter (fun x => Z.eqb (ANNGRPID x) g && String.eqb (ECGLIBANNTYPE x) "QON") df.

(** "T offset annotated in global lead with no global QRS": the onset of
    the only [QON] of the group, whose lead the row then takes. *)
Definition group_fallback (df : list ann_ms) (a : ann_ms) (s : state) (r : trow)
    : result (option Q * trow) :=
  let local_qons := map TIME (group_qon_rows df (ANNGRPID a)) in
  if (List.length local_qons =? 1)%nat then
    q0 <- index local_qons 0 ;;
    let potential_qt := fsub (TIME a) q0 in
    if fgt potential_qt 0 then
      src <- index (filter (fun x => feq (TIME x) q0)
                           (group_qon_rows df (ANNGRPID a))) 0 ;;
      Ok (Some potential_qt,
          mktrow (LEADNAM src) (HL7LEADNAM src) (t_TIME r)
                 (RR r) (PR r) (QRS r) (QT r) (QTRR r) (QTCF r))
    else Ok (last_qt s, r)
  else Ok (last_qt s, r).

(** The new [last_qt] at a [TOFF]. *)
Definition qt_at_toff (df : list ann_ms) (a : ann_ms) (s : state) (r : trow)
    : result (option Q * trow) :=
  if negb (isnan (last_qon s)) then
    Ok (nsub (Some (TIME a)) (last_qon s), r)
  else
    if (0 <? List.length (global_qons df))%nat then
      q <- index_last (potential_qts (TIME a) (global_qons df)) ;;
      Ok (Some q, r)
    else
      if String.eqb (LEADNAM a) "GLOBAL" then group_fallback df a s r
      else Ok (last_qt s, r).

Section WithPow.

(** [x ** y] on floats. *)
Variable pypow : Q -> Q -> Q.

(** [last_qt/(((last_rr)/1000.0)**(1/3))]; the divisor is a power of a
    positive number ([last_rr], when it is there, is positive), so a
    division by zero is not provided for. *)
Definition fridericia (qt rr : option Q) : option Q :=
  ndiv qt (option_map (fun x => pypow x (fdiv 1 3)) (ndiv rr (Some (1000 # 1)))).

Definition on_toff (df : list ann_ms) (a : ann_ms) (sr : state * trow)
    : result (state * trow) :=
  let (s, r) := sr in
  if is_type a "TOFF" then
    qr <- qt_at_toff df a s r ;;
    let (last_qt', r') := qr in
    Ok (mkstate (current_lead s) (preceeding_R s) (current_R s) (last_rr s)
                None None None None last_qt',
        mktrow (t_LEADNAM r') (t_HL7LEADNAM r') (t_TIME r')
               (RR r') (PR r') (QRS r') last_qt' (last_rr s)
               (fridericia last_qt' (last_rr s)))
  else Ok sr.

(** The body of [for idx, ann in tmp.iterrows()]. *)
Definition step (df : list ann_ms) (s : state) (a : ann_ms)
    : result (state * trow) :=
  on_toff df a
    (on_qoff a (on_qon a (on_pon a (on_rpeak a (reset_lead a s, init_row a))))).

Fixpoint scan (df : list ann_ms) (s : state) (rows : list ann_ms)
    : result (list trow) :=
  match rows with
  | [] => Ok []
  | a :: rest =>
      sr <- step df s a ;;
      rs <- scan df (fst sr) rest ;;
      Ok (snd sr :: rs)
  end.

(** [sort_values(by=["LEADNAM", "HL7LEADNAM", "TIME"])] *)
Definition ann_le (a b : ann_ms) : bool :=
  not_gt (lex (String.compare (LEADNAM a) (LEADNAM b))
         (lex (String.compare (HL7LEADNAM a) (HL7LEADNAM b))
              (Qcompare (TIME a) (TIME b)))).

(** The working table after the scan. *)
Definition interval_table (anns_df_in_ms : list ann_ms) : result (list trow) :=
  if (0 <? List.length anns_df_in_ms)%nat
  then scan anns_df_in_ms initial_state (sort_by ann_le anns_df_in_ms)
  else Ok [].

Definition value_vars : list (string * (trow -> option Q)) :=
  [("RR", RR); ("PR", PR); ("QRS", QRS); ("QT", QT); ("QTRR", QTRR);
   ("QTCF", QTCF)].

(** [melt]: one block of rows per interval column. *)
Definition melt (rows : list trow) : list interval :=
  flat_map
    (fun v : string * (trow -> option Q) =>
       map (fun r => mkinterval (t_LEADNAM r) (t_HL7LEADNAM r)
                                (Some (t_TIME r)) (fst v) (snd v r) "")
           rows)
    value_vars.

Definition notna (i : interval) : bool := negb (isnan (AVAL i)).

(** [sort_values(by=["LEADNAM", "TIME"])] *)
Definition interval_le (a b : interval) : bool :=
  not_gt (lex (String.compare (i_LEADNAM a) (i_LEADNAM b))
              (cmp_opt Qcompare (i_TIME a) (i_TIME b))).

(** The derived intervals: [melt(...).dropna().sort_values(...)]. *)
Definition derived_intervals (rows : list trow) : list interval :=
  sort_by interval_le (filter notna (melt rows)).

End WithPow.

(** *** The aggregator *)

Definition group_key : Type := (string * string * string)%type.

Definition key_of (i : interval) : group_key :=
  (i_LEADNAM i, i_HL7LEADNAM i, PARAMCD i).

Definition key_compare (a b : group_key) : comparison :=
  lex (String.compare (fst (fst a)) (fst (fst b)))
      (lex (String.compare (snd (fst a)) (snd (fst b)))
           (String.compare (snd a) (snd b))).

Definition key_eqb (a b : group_key) : bool :=
  String.eqb (fst (fst a)) (fst (fst b))
  && String.eqb (snd (fst a)) (snd (fst b))
  && String.eqb (snd a) (snd b).

(** The group keys of [groupby]: each once, in ascending order. *)
Fixpoint insert_key (k : group_key) (ks : list group_key) : list group_key :=
  match ks with
  | [] => [k]
  | k' :: ks' =>
      match key_compare k k' with
      | Lt => k :: ks
      | Eq => ks
      | Gt => k' :: insert_key k ks'
      end
  end.
Definition group_keys (rows : list interval) : list group_key :=
  fold_right (fun i ks => insert_key (key_of i) ks) [] rows.

Definition group (rows : list interval) (k : group_key) : list interval :=
  filter (fun i => key_eqb (key_of i) k) rows.

Definition values (rows : list interval) : list Q :=
  flat_map (fun i => match AVAL i with Some v => [v] | None => [] end) rows.

Definition count (rows : list interval) : Q :=
  inject_Z (Z.of_nat (List.length (values rows))).

Definition mean (rows : list interval) : Q :=
  fdiv (fold_left fadd (values rows) 0%Q) (count rows).

Definition summary_row (dtype : string) (stat : list interval -> Q)
    (rows : list interval) (k : group_key) : interval :=
  mkinterval (fst (fst k)) (snd (fst k)) None (snd k)
             (Some (stat (group rows k))) dtype.

Definition get_interval_count_and_avg (anns_df : list interval)
    (include_all_found_intervals : bool) : list interval :=
  if (0 <? List.length anns_df)%nat then
    let valid := filter notna anns_df in
    let qt_count := map (summary_row "COUNT" count valid) (group_keys valid) in
    let qt_avg := map (summary_row "AVERAGE" mean valid) (group_keys valid) in
    let res := (qt_count ++ qt_avg)%list in
    if include_all_found_intervals then (anns_df ++ res)%list else res
  else [].

(** The frame handed to the engine: [pd.DataFrame()] has no column at
    all; any other frame has the annotation columns and its rows. *)
Inductive frame : Type :=
| NoColumns
| Columns (rows : list ann_ms).

Definition frame_rows (f : frame) : list ann_ms :=
  match f with
  | NoColumns => []
  | Columns rows => rows
  end.

(** [tmp[["LEADNAM", "HL7LEADNAM", "TIME", "RR", ...]]]: the lead and time
    columns come from the input frame. *)
Definition select_columns (f : frame) (tmp : list trow) : result (list trow) :=
  match f with
  | NoColumns => Raise KeyError
  | Columns _ => Ok tmp
  end.

Definition get_aecg_intervals (pypow : Q -> Q -> Q)
    (anns_df_in_ms : frame) (include_all_found_intervals : bool)
    : result (list interval) :=
  tmp <- interval_table pypow (frame_rows anns_df_in_ms) ;;
  tmp <- select_columns anns_df_in_ms tmp ;;
  Ok (get_interval_count_and_avg (derived_intervals tmp)
                                 include_all_found_intervals).

(** A cube root good to nine decimals at the arguments met in the
    examples, by Newton's iteration in fixed precision; it stands for
    [x ** (1/3)] where a run needs a concrete power. *)
Definition round9 (q : Q) : Q :=
  Qred (Qmake (Qfloor (q * (1000000000 # 1))) 1000000000).
Fixpoint newton_cbrt (n : nat) (x y : Q) : Q :=
  match n with
  | O => y
  | S n' => newton_cbrt n' x (round9 (((2 # 1) * y + x / (y * y)) / (3 # 1)))
  end.
Definition cbrt_pow (x e : Q) : Q := newton_cbrt 40 x 1%Q.

End Indexing.

(** ** Inputs of the examples and predicates of the statements *)

Module Samples.

Import Core Projector.

(** A QRS annotation whose secondary component is the PEAK code. *)
Definition qrs_peak_ann : annotation :=
  mkannotation 3 (Some 1) "MDC_ECG_WAVC" "MDC_ECG_WAVC_TYPE"
               "MDC_ECG_WAVC_QRSWAVE" "MDC_ECG_WAVC_PEAK" "TIME_RELATIVE"
               "" "" "140" "ms" "180" "ms" "MDC_ECG_LEAD_II".

(** A P-wave annotation that also names the QRS wave. *)
Definition p_wave_ann : annotation :=
  mkannotation 3 (Some 1) "MDC_ECG_WAVC" "MDC_ECG_WAVC_TYPE"
               "MDC_ECG_WAVC_PWAVE" "MDC_ECG_WAVC_QRSWAVE" "TIME_RELATIVE"
               "" "" "100" "ms" "130" "ms" "MDC_ECG_LEAD_II".

(** A component code of five tokens that no rule knows. *)
Definition five_token_ann : annotation :=
  mkannotation 0 None "MDC_ECG_WAVC" "MDC_ECG_WAVC_TYPE"
               "MDC_ECG_WAVC_FOO_BAR" "" "TIME_RELATIVE"
               "120" "ms" "" "" "" "" "MDC_ECG_LEAD_II".

(** A U-wave annotation: four tokens, no rule of its own. *)
Definition u_wave_ann : annotation :=
  mkannotation 0 None "MDC_ECG_WAVC" "MDC_ECG_WAVC_TYPE"
               "MDC_ECG_WAVC_UWAVE" "" "TIME_RELATIVE"
               "" "" "500" "ms" "" "" "MDC_ECG_LEAD_II".

(** Lead II starts one second after the waveform. *)
Definition lead_II_start : lead_start :=
  mklead_start "MDC_ECG_LEAD_II" "TIME_ABSOLUTE" "20021122091001".

(** A P onset in lead II and a T offset in no lead, both absolute. *)
Definition lead_II_pwave : annotation :=
  mkannotation 0 (Some 0) "MDC_ECG_WAVC" "MDC_ECG_WAVC_PWAVE"
               "MDC_ECG_WAVC_TYPE" "" "TIME_ABSOLUTE"
               "" "" "20021122091001.500" "" "" "" "MDC_ECG_LEAD_II".

Definition global_twave : annotation :=
  mkannotation 1 (Some 0) "MDC_ECG_WAVC" "MDC_ECG_WAVC_TWAVE"
               "MDC_ECG_WAVC_TYPE" "" "TIME_ABSOLUTE"
               "" "" "" "" "20021122091002" "" "".

(** The units [anns_to_ms] converts. *)
Definition time_units : list string := ["ms"; "us"; "s"].

(** Relative values tagged [TIME_ABSOLUTE]: with an unknown unit, with a
    known unit, and with a value that is no number. *)
Definition mislabelled_furlongs : annotation :=
  mkannotation 0 (Some 0) "MDC_ECG_WAVC" "MDC_ECG_WAVC_PWAVE"
               "MDC_ECG_WAVC_TYPE" "" "TIME_ABSOLUTE"
               "" "" "120" "furlongs" "" "" "MDC_ECG_LEAD_II".

Definition mislabelled_ms : annotation :=
  mkannotation 0 (Some 0) "MDC_ECG_WAVC" "MDC_ECG_WAVC_PWAVE"
               "MDC_ECG_WAVC_TYPE" "" "TIME_ABSOLUTE"
               "" "" "120" "ms" "" "" "MDC_ECG_LEAD_II".

Definition mislabelled_text : annotation :=
  mkannotation 0 (Some 0) "MDC_ECG_WAVC" "MDC_ECG_WAVC_PWAVE"
               "MDC_ECG_WAVC_TYPE" "" "TIME_ABSOLUTE"
               "" "" "abc" "ms" "" "" "MDC_ECG_LEAD_II".

(** A well-formed relative QRS annotation. *)
Definition relative_qrs : annotation :=
  mkannotation 1 (Some 0) "MDC_ECG_WAVC" "MDC_ECG_WAVC_QRSWAVE"
               "MDC_ECG_WAVC_TYPE" "" "TIME_RELATIVE"
               "" "" "140" "ms" "180" "ms" "MDC_ECG_LEAD_II".

Import Indexing.

(** A projected annotation of lead II. *)
Definition lead_II (t : string) (time : Q) : ann_ms :=
  mkann_ms 0 "II" "MDC_ECG_LEAD_II" t time.

(** One beat: PON 100, QON 140, QOFF 180, TOFF 380. *)
Definition single_beat : list ann_ms :=
  [lead_II "PON" (100 # 1); lead_II "QON" (140 # 1);
   lead_II "QOFF" (180 # 1); lead_II "TOFF" (380 # 1)].

(** The same beat after two R peaks 800 ms apart. *)
Definition beat_after_rr : list ann_ms :=
  lead_II "RPEAK" (-640 # 1) :: lead_II "RPEAK" (160 # 1) :: single_beat.

(** A derived interval of lead II. *)
Definition II_interval (time : Q) (paramcd : string) (aval : Q) : interval :=
  mkinterval "II" "MDC_ECG_LEAD_II" (Some time) paramcd (Some aval) "".

(** An interval row without a value. *)
Definition undefined_qtcf : interval :=
  mkinterval "II" "MDC_ECG_LEAD_II" (Some (380 # 1)%Q) "QTCF" None "".

(** The last observed RR interval, when there is one, is positive. *)
Definition rr_positive (s : state) : Prop :=
  forall rr, last_rr s = Some rr -> (0 < rr)%Q.

(** The relation between an annotation and its row of the table. *)
Definition row_ok (pypow : Q -> Q -> Q) (a : ann_ms) (r : trow) : Prop :=
  t_TIME r = TIME a
  /\ QTCF r = fridericia pypow (QT r) (QTRR r)
  /\ (is_type a "TOFF" = false ->
      QT r = None /\ QTRR r = None /\ QTCF r = None)
  /\ (forall rr, QTRR r = Some rr -> (0 < rr)%Q).

End Samples.

(** ** [aecg.core]: waveform samples, [lead_mv_per_ms] *)

Module Waveform.

Import Core Projector.

(** An [AecgLead] with its [LEADTIME] dictionary; [increment] has been
    read (it is a float). *)
Record ecg_lead : Type := mkecg_lead {
  base : AecgLead;
  LEADTIME_code : string;
  LEADTIME_head : string;
  LEADTIME_increment : Q;
  LEADTIME_unit : string
}.

(** [AecgLead.display_name] *)
Definition display_name (l : AecgLead) : result string :=
  if mem (leadname l) STD_LEADS
  then dict_get STD_LEADS_DISPLAYNAMES (upper (leadname l))
  else Ok (leadname l).

(** One row of the frame [lead_mv_per_ms] returns. *)
Record sample : Type := mksample {
  VALUE : Q;
  s_LEADNAM : string;
  s_TIME : Q
}.

(** The unit test of [lead_mv_per_ms]. *)
Definition timefactor (u : string) : result Q :=
  if String.eqb u "us" then Ok e_3
  else if String.eqb u "s" then Ok e3
  else if String.eqb u "ms" then Ok 1%Q
  else Raise UnknownUnitsError.

(** [ecg_data.index * increment + offset], zipped with the values. *)
Fixpoint samples_from (k : Z) (name : string) (increment offset : Q)
    (values : list Q) : list sample :=
  match values with
  | [] => []
  | v :: rest =>
      mksample v name (fadd (fmul (inject_Z k) increment) offset)
      :: samples_from (k + 1) name increment offset rest
  end.

Section WithFloat.

Variable pyfloat : string -> option Q.

(** The offset of the first sample: the head as an absolute time, and for
    a code other than [TIME_ABSOLUTE], when that raises [ValueError], the
    head as a number. *)
Definition head_offset (start_time : datetime) (l : ecg_lead) (tf : Q)
    : result Q :=
  let absolute :=
    t <- parse_hl7_datetime (LEADTIME_head l) ;; Ok (diff_ms t start_time) in
  if String.eqb (LEADTIME_code l) "TIME_ABSOLUTE" then absolute
  else
    try_except absolute
      (fun e => match e with
                | ValueError =>
                    x <- float pyfloat (LEADTIME_head l) ;; Ok (fmul x tf)
                | _ => Raise e
                end).

(** [lead_mv_per_ms(start_time, ecg_lead)], with [new_fs] left to its
    default [None] (no resampling). *)
Definition lead_mv_per_ms (start_time : datetime) (l : ecg_lead)
    : result (list sample) :=
  values <- lead_values_mv (base l) ;;
  name <- display_name (base l) ;;
  tf <- timefactor (LEADTIME_unit l) ;;
  let increment := fmul (LEADTIME_increment l) tf in
  offset <- head_offset start_time l tf ;;
  Ok (samples_from 0 name increment offset values).

End WithFloat.

End Waveform.

(** ** [aecg.core]: [Aecg.subject_age_in_years] *)

Module Subject.

(** The attributes [subject_age_in_years] reads: the [EGDTC] dictionary,
    whose keys are [low], [center], [high] in this order, and
    [BIRTHTIME]. *)
Record subject : Type := mksubject {
  EGDTC_low : string;
  EGDTC_center : string;
  EGDTC_high : string;
  BIRTHTIME : string
}.

(** The loop over [self.EGDTC]: the first value that is not empty. *)
Definition first_egdtc (a : subject) : string :=
  if negb (String.eqb (EGDTC_low a) "") then EGDTC_low a
  else if negb (String.eqb (EGDTC_center a) "") then EGDTC_center a
  else if negb (String.eqb (EGDTC_high a) "") then EGDTC_high a
  else "".

(** [datetime.datetime(year, month, day)] *)
Definition mkdate (y m d : Z) : result datetime :=
  let dt := mkdatetime y m d 0 0 0 0 in
  if valid dt then Ok dt else Raise ValueError.

(** [a < b] on naive datetimes. *)
Definition dt_ltb (a b : datetime) : bool := to_us a <? to_us b.

(** The body of the [try]. *)
Definition age_body (a : subject) : result Z :=
  let egdtc := first_egdtc a in
  if negb (String.eqb egdtc "") && negb (String.eqb (BIRTHTIME a) "") then
    bd <- parse_hl7_datetime (BIRTHTIME a) ;;
    ecgd <- parse_hl7_datetime egdtc ;;
    anniversary <- mkdate (year ecgd) (month bd) (day bd) ;;
    let age := year ecgd - year bd in
    Ok (if dt_ltb ecgd anniversary then age - 1 else age)
  else Ok (-1).

Definition subject_age_in_years (a : subject) : Z :=
  match age_body a with
  | Ok age => age
  | Raise _ => -1
  end.

End Subject.

(** ** [aecg.core]: [Aecg.rhythm_anns_in_ms], [Aecg.derived_anns_in_ms] *)

Module AnnotationSets.

Import Projector.

(** [pat in s] for a pattern without regular-expression operators. *)
Fixpoint contains (pat s : string) : bool :=
  String.prefix pat s
  || match s with
     | EmptyString => false
     | String _ s' => contains pat s'
     end.

(** The attributes the two methods read, for the rhythm or for the
    derived waveform: the [low] of the [EGDTC] dictionary, the name and
    the [LEADTIME] code and head of every lead, and the annotation sets
    (each a list of annotations). *)
Record waveform_anns : Type := mkwaveform_anns {
  EGDTC_low : string;
  LEADS : list (string * string * string);
  ANNS : list (list annotation)
}.

Definition leads_start_times (w : waveform_anns) : list lead_start :=
  map (fun l => mklead_start (fst (fst l)) (snd (fst l)) (snd l)) (LEADS w).

Section WithFloat.

Variable pyfloat : string -> option Q.

(** [rhythm_anns_in_ms] and [derived_anns_in_ms] are this function on the
    rhythm and on the derived attributes.  [pd.DataFrame([])] has no
    column, so that selecting ["wavecomponent"] raises [KeyError]. *)
Definition anns_in_ms (w : waveform_anns) : result (list lead_ann) :=
  match ANNS w with
  | [] => Ok []
  | anns :: _ =>
      match anns with
      | [] => Raise KeyError
      | _ =>
          let ecganns :=
            filter (fun a => contains "MDC_ECG_WAVC" (wavecomponent a)) anns in
          anns_to_ms pyfloat (EGDTC_low w) (leads_start_times w) ecganns
      end
  end.

End WithFloat.

End AnnotationSets.

(** ** [aecg.core]: [new_validation_row], [validate_xpath] *)

Module Validation.

(** An element the XPath query returns: its text and its attributes. *)
Record node : Type := mknode {
  text : option string;
  attrib : list (string * string)
}.

(** [valnode.get(attr)] *)
Fixpoint node_get (d : list (string * string)) (k : string) : option string :=
  match d with
  | [] => None
  | (k', v) :: d' => if String.eqb k k' then Some v else node_get d' k
  end.

Record validation_row : Type := mkvalidation_row {
  EGXFN : string;
  XPATH : string;
  VALIGRP : string;
  PARAM : string;
  VALUE : string;
  VALIOUT : string;
  VALIMSG : string
}.

Definition new_validation_row (egxfile valgroup param : string)
    : validation_row :=
  mkvalidation_row egxfile "" valgroup param "" "" "".

(** [xpath.replace("/", "/ns:")] *)
Fixpoint add_ns (xpath : string) : string :=
  match xpath with
  | EmptyString => EmptyString
  | String c rest =>
      if Ascii.eqb c "/" then "/ns:" ++ add_ns rest
      else String c (add_ns rest)
  end.

(** [validate_xpath]; [xmlnode ns q] stands for the elements
    [xmlnode.xpath(q, namespaces={"ns": ns})] returns (without a namespace
    map when [ns] is empty). *)
Definition validate_xpath (xmlnode : string -> string -> list node)
    (xpath ns attr : string) (valrow : validation_row) (failcat : string)
    : validation_row :=
  let valnodes :=
    if negb (String.eqb ns "") then xmlnode ns (add_ns xpath)
    else xmlnode "" xpath in
  let row (value valiout valimsg : string) :=
    mkvalidation_row (EGXFN valrow) xpath (VALIGRP valrow) (PARAM valrow)
                     value valiout valimsg in
  match valnodes with
  | [valnode] =>
      if String.eqb attr "" then
        match text valnode with
        | None =>
            row "" failcat "Node found but value is missing or empty string"
        | Some txt => row txt "PASSED" ""
        end
      else
        match node_get (attrib valnode) attr with
        | None => row "" failcat "Node found but attribute is missing"
        | Some txt => row txt "PASSED" ""
        end
  | _ :: _ :: _ => row (VALUE valrow) failcat "Multiple nodes in XML"
  | [] => row (VALUE valrow) failcat "Node not found"
  end.

End Validation.

(** ** [aecg.utils]: [ratio_of_missing_samples] *)

Module Utils.

(** A waveform frame as [rhythm_as_df] returns it: [pd.DataFrame()]
    without columns, or a [TIME] column and one column per lead, a missing
    sample being [None]. *)
Inductive waveform_data : Type :=
| NoWaveform
| WaveformFrame (TIME : list Q) (leads : list (string * list (option Q))).

(** [Series.count]: the cells of a column that hold a value. *)
Definition column_count (col : list (option Q)) : Z :=
  Z.of_nat (List.length (filter (fun c => negb (isnan c)) col)).

(** The ratio, [nan] ([None]) when there is no sample at all. *)
Definition ratio_of_missing_samples (w : waveform_data) : result (option Q) :=
  match w with
  | NoWaveform => Raise KeyError
  | WaveformFrame time leads =>
      let total_samples :=
        (Z.of_nat (1 + List.length leads) - 1) * Z.of_nat (List.length time) in
      let not_nans :=
        fold_left Z.add (map (fun c => column_count (snd c)) leads) 0 in
      let num_nans := total_samples - not_nans in
      if total_samples =? 0 then Ok None
      else Ok (Some (fdiv (inject_Z num_nans) (inject_Z total_samples)))
  end.

End Utils.

(** ** The calendar in closed form, for the statements about dates *)

Module Calendar.

(** The days before a month in a common year, and the day a leap year
    adds after February. *)
Definition cumulative_days (m : Z) : Z :=
  nth (Z.to_nat (m - 1)) [0; 31; 59; 90; 120; 151; 181; 212; 243; 273; 304; 334] 0.

Definition leap_add (y m : Z) : Z :=
  if (2 <? m) && is_leap y then 1 else 0.

End Calendar.

(** ** Predicates of the further statements *)

Module Statements.

Import Projector.

(** The boundary slots of an annotation that are not empty. *)
Definition nonempty_slots (ann : annotation) : list param :=
  filter (fun p => negb (String.eqb (slot ann p) "")) [Pvalue; Plow; Phigh].

Definition boundaries (anns : list annotation) : nat :=
  fold_right (fun ann n => (List.length (nonempty_slots ann) + n)%nat) 0%nat anns.

(** [r] is the row built for a non-empty slot of an annotation of
    [anns]. *)
Definition row_of (pyfloat : string -> option Q) (anns : list annotation)
    (r : lead_ann) : Prop :=
  exists ann p start_time leadnam,
    In ann anns /\ In p (nonempty_slots ann)
    /\ leadnam_of ann = Ok leadnam
    /\ make_lead_ann pyfloat start_time leadnam ann p = Ok r.

(** The exceptions of the projector. *)
Definition projector_exn (e : exn) : Prop :=
  e = ValueError \/ e = IndexError \/ e = KeyError.

(** Each interval column of a row is filled only on a row of its own
    annotation type, and an RR interval is positive. *)
Definition own_cells (a : Indexing.ann_ms) (r : Indexing.trow) : Prop :=
  (Indexing.RR r <> None -> Indexing.ECGLIBANNTYPE a = "RPEAK")
  /\ (Indexing.PR r <> None ->
      Indexing.ECGLIBANNTYPE a = "QON" \/ Indexing.ECGLIBANNTYPE a = "RON")
  /\ (Indexing.QRS r <> None ->
      Indexing.ECGLIBANNTYPE a = "QOFF"
      \/ Indexing.ECGLIBANNTYPE a = "STJPEAK")
  /\ (Indexing.QT r <> None \/ Indexing.QTRR r <> None
      \/ Indexing.QTCF r <> None ->
      Indexing.ECGLIBANNTYPE a = "TOFF")
  /\ (forall rr, Indexing.RR r = Some rr -> (0 < rr)%Q)
  /\ (forall rr, Indexing.QTRR r = Some rr -> (0 < rr)%Q).

(** The RR column expected of a run of R peaks, after a peak at [prev]. *)
Fixpoint expected_rr (prev : option Q) (rows : list Indexing.ann_ms)
    : list (option Q) :=
  match rows with
  | [] => []
  | a :: rest =>
      nsub (Some (Indexing.TIME a)) prev
      :: expected_rr (Some (Indexing.TIME a)) rest
  end.

(** R peaks of one lead at strictly increasing times, all after [prev]. *)
Fixpoint r_peaks_after (l : string) (prev : option Q)
    (rows : list Indexing.ann_ms) : Prop :=
  match rows with
  | [] => True
  | a :: rest =>
      Indexing.ECGLIBANNTYPE a = "RPEAK" /\ Indexing.LEADNAM a = l
      /\ match prev with
         | Some t => (t < Indexing.TIME a)%Q
         | None => True
         end
      /\ r_peaks_after l (Some (Indexing.TIME a)) rest
  end.

(** The sum of the values of a list of rows, and the [COUNT] rows of a
    summary. *)
Definition sum_avals (rows : list Indexing.interval) : Q :=
  fold_right (fun i acc => match Indexing.AVAL i with
                           | Some v => (v + acc)%Q
                           | None => acc
                           end) 0%Q rows.

Definition rows_of_dtype (dtype : string) (rows : list Indexing.interval)
    : list Indexing.interval :=
  filter (fun i => String.eqb (Indexing.DTYPE i) dtype) rows.

(** Group keys in strictly ascending order. *)
Definition key_lt (a b : Indexing.group_key) : Prop :=
  Indexing.key_compare a b = Lt.

(** The part of an HL7 time stamp before its first dot. *)
Definition datatime_part (hl7time : string) : string :=
  nth 0 (split "." hl7time) "".

(** The elements the query of [validate_xpath] returns. *)
Definition queried (xmlnode : string -> string -> list Validation.node)
    (xpath ns : string) : list Validation.node :=
  if String.eqb ns "" then xmlnode "" xpath
  else xmlnode ns (Validation.add_ns xpath).

(** The value [validate_xpath] looks for in an element. *)
Definition node_value (attr : string) (n : Validation.node) : option string :=
  if String.eqb attr "" then Validation.text n
  else Validation.node_get (Validation.attrib n) attr.


End Statements.

(** ** Further inputs of examples *)

Module MoreSamples.

Import Core Projector Waveform.

(** Lead II in microvolts, 2.5 uV per digit. *)
Definition lead_II_uV : AecgLead :=
  mkAecgLead "MDC_ECG_LEAD_II" 0 "uV" (5 # 2) "uV" [100; -40; 8].

(** The same with the origin in volts, and with a scale in furlongs. *)
Definition lead_II_V : AecgLead :=
  mkAecgLead "MDC_ECG_LEAD_II" 0 "V" (5 # 2) "uV" [100; -40; 8].
Definition lead_II_furlongs : AecgLead :=
  mkAecgLead "MDC_ECG_LEAD_II" 0 "uV" (5 # 2) "furlongs" [100; -40; 8].


(** Lead II sampled every 2000 us, with an absolute head, with a relative
    numeric head and with a head that is no number. *)
Definition timed_II_absolute : ecg_lead :=
  mkecg_lead lead_II_uV "TIME_ABSOLUTE" "20021122091001" (2000 # 1) "us".
Definition timed_II_relative : ecg_lead :=
  mkecg_lead lead_II_uV "TIME_RELATIVE" "0.5" (2000 # 1) "us".
Definition timed_II_text : ecg_lead :=
  mkecg_lead lead_II_uV "TIME_RELATIVE" "abc" (2000 # 1) "us".

Definition start_091000 : datetime := mkdatetime 2002 11 22 9 10 0 0.

(** Subjects: born on 1960-03-15 with an ECG on 2002-11-22; the same born
    on a leap day; and one without a birth time. *)
Definition subject_march : Subject.subject :=
  Subject.mksubject "20021122091000" "" "" "19600315".
Definition subject_leap_day : Subject.subject :=
  Subject.mksubject "" "20021122091000" "" "19600229".
Definition subject_no_birthtime : Subject.subject :=
  Subject.mksubject "20021122091000" "" "" "".

(** An annotation set with a T-wave annotation, one whose component is not
    a wave component code, and a U-wave annotation with a generic
    component and no secondary component. *)
Definition offtopic_ann : annotation :=
  mkannotation 2 (Some 0) "MDC_ECG_BEAT" "MDC_ECG_BEAT" "MDC_ECG_BEAT_NORMAL"
               "" "TIME_RELATIVE" "10" "ms" "" "" "" "" "".
Definition generic_u_wave : annotation :=
  mkannotation 0 None "MDC_ECG_WAVC" "MDC_ECG_WAVC_UWAVE"
               "MDC_ECG_WAVC_TYPE" "" "TIME_RELATIVE"
               "" "" "500" "ms" "" "" "MDC_ECG_LEAD_II".
Definition lead_X_pwave : annotation :=
  mkannotation 0 (Some 0) "MDC_ECG_WAVC" "MDC_ECG_WAVC_PWAVE"
               "MDC_ECG_WAVC_TYPE" "" "TIME_RELATIVE"
               "" "" "100" "ms" "" "" "MDC_ECG_LEAD_X".
Definition rhythm_anns : AnnotationSets.waveform_anns :=
  AnnotationSets.mkwaveform_anns "20021122091000"
    [("MDC_ECG_LEAD_II", "TIME_ABSOLUTE", "20021122091000")]
    [[Samples.relative_qrs; offtopic_ann]; [Samples.p_wave_ann]].
Definition rhythm_empty_set : AnnotationSets.waveform_anns :=
  AnnotationSets.mkwaveform_anns "20021122091000" [] [[]; [Samples.p_wave_ann]].

(** Annotations of lead V5 and of the GLOBAL lead for the engine. *)
Definition V5 (g : Z) (t : string) (time : Q) : Indexing.ann_ms :=
  Indexing.mkann_ms g "V5" "MDC_ECG_LEAD_V5" t time.
Definition GLOBAL (g : Z) (t : string) (time : Q) : Indexing.ann_ms :=
  Indexing.mkann_ms g "GLOBAL" "" t time.

(** The state in lead V5 after a beat whose QT was 240, and the state in
    the GLOBAL lead before an onset has been seen. *)
Definition state_V5_after_beat : Indexing.state :=
  Indexing.mkstate "V5" None None None None None None None (Some (240 # 1)%Q).
Definition state_GLOBAL_fresh : Indexing.state :=
  Indexing.mkstate "GLOBAL" None None None None None None None None.

(** A document with one [id] element, and a waveform frame of two leads
    and three samples with one sample missing. *)
Definition one_id_element (ns q : string) : list Validation.node :=
  if String.eqb q "/ns:AnnotatedECG/ns:id"
  then [Validation.mknode None [("root", "61d1a24f")]] else [].
Definition frame_with_gap : Utils.waveform_data :=
  Utils.WaveformFrame [0; 2; 4]%Q
    [("I", [Some (1 # 10); None; Some (3 # 10)]%Q);
     ("II", [Some (1 # 5); Some (1 # 5); Some (2 # 5)]%Q)].

End MoreSamples.

(** * Properties *)

Import Core Projector Samples.

(** ** Generic facts *)

Section SortFacts.

Context {A : Type} (le : A -> A -> bool).

Lemma insert_by_In (x y : A) (l : list A) :
  In y (insert_by le x l) <-> y = x \/ In y l.
Proof.
  induction l as [|z l IH]; simpl.
  - intuition.
  - destruct (le x z); simpl; rewrite ?IH; intuition.
Qed.

Lemma sort_by_In (y : A) (l : list A) :
  In y (sort_by le l) <-> In y l.
Proof.
  induction l as [|z l IH]; simpl; [tauto|].
  unfold sort_by in IH |- *; simpl.
  rewrite insert_by_In, IH. intuition.
Qed.

Lemma insert_by_length (x : A) (l : list A) :
  List.length (insert_by le x l) = S (List.length l).
Proof.
  induction l as [|z l IH]; simpl; [reflexivity|].
  destruct (le x z); simpl; congruence.
Qed.

Lemma sort_by_length (l : list A) :
  List.length (sort_by le l) = List.length l.
Proof.
  induction l as [|z l IH]; simpl; [reflexivity|].
  unfold sort_by in IH |- *; simpl.
  rewrite insert_by_length; congruence.
Qed.

End SortFacts.

Lemma bind_Ok {A B : Type} (m : result A) (k : A -> result B) (b : B) :
  bind m k = Ok b -> exists a, m = Ok a /\ k a = Ok b.
Proof. destruct m; simpl; intros H; [eauto | discriminate]. Qed.

Lemma bind_Raise {A B : Type} (m : result A) (k : A -> result B) (e : exn) :
  m = Raise e -> bind m k = Raise e.
Proof. intros ->; reflexivity. Qed.

(** ** Unit conversion ([lead_values_mv]) *)

(** With the origin in microvolts the conversion is the documented one
    for every recognised unit of the scale. *)
Lemma lead_values_mv_origin_uV (l : AecgLead) (f : Q) :
  origin_unit l = "uV" ->
  mv_factor (scale_unit l) = Some f ->
  lead_values_mv l =
  Ok (map (fun d => fadd (fmul (inject_Z d) (Qred (scale l * f)))
                         (Qred (origin l * e_3)))
          (digits l)).
Proof.
  intros Ho Hs.
  assert (Eo : origin_mv l = Ok (Qred (origin l * e_3))).
  { unfold origin_mv, getattr; cbn [String.eqb Ascii.eqb Bool.eqb bind].
    rewrite Ho. reflexivity. }
  assert (Es : scale_mv l = Ok (Qred (scale l * f))).
  { unfold scale_mv, getattr; cbn [String.eqb Ascii.eqb Bool.eqb bind].
    unfold mv_factor in Hs.
    destruct (String.eqb (scale_unit l) "uV"); [inversion Hs; reflexivity|].
    destruct (String.eqb (scale_unit l) "V"); [inversion Hs; reflexivity|].
    destruct (String.eqb (scale_unit l) "mV").
    { inversion Hs; subst. f_equal. apply Qred_complete. ring. }
    destruct (String.eqb (scale_unit l) "nV"); [inversion Hs; reflexivity|].
    discriminate. }
  unfold lead_values_mv. rewrite Eo, Es. reflexivity.
Qed.

(** Any other origin unit, recognised or not, reaches the misspelt
    attribute [oirigin_unit]. *)
Lemma lead_values_mv_origin_not_uV (l : AecgLead) :
  origin_unit l <> "uV" -> lead_values_mv l = Raise AttributeError.
Proof.
  intros Ho. unfold lead_values_mv, origin_mv, getattr. simpl.
  destruct (String.eqb_spec (origin_unit l) "uV"); [contradiction|].
  reflexivity.
Qed.

(** An unrecognised scale unit, after a microvolt origin, is reported as
    [UnknownUnitsError]. *)
Lemma lead_values_mv_unknown_scale (l : AecgLead) :
  origin_unit l = "uV" ->
  mv_factor (scale_unit l) = None ->
  lead_values_mv l = Raise UnknownUnitsError.
Proof.
  intros Ho Hs. unfold lead_values_mv, origin_mv, scale_mv, getattr. simpl.
  rewrite Ho. simpl. unfold mv_factor in Hs.
  destruct (String.eqb (scale_unit l) "uV"); [discriminate|].
  destruct (String.eqb (scale_unit l) "V"); [discriminate|].
  destruct (String.eqb (scale_unit l) "mV"); [discriminate|].
  destruct (String.eqb (scale_unit l) "nV"); [discriminate|].
  reflexivity.
Qed.

(** C4: the conversion is to return [digit * scale_in_mV + origin_in_mV]
    for all four recognised units in the origin position.  For a lead
    whose origin is given in millivolts (origin 0.5 mV, scale 2 mV, digits
    1 and 3, so 2.5 and 6.5 are expected) [lead_values_mv] returns no
    values: it raises [AttributeError]. *)
Theorem lead_values_mv_origin_mV_raises :
  mv_factor "mV" = Some 1%Q /\
  lead_values_mv
    (mkAecgLead "MDC_ECG_LEAD_II" (1 # 2) "mV" (2 # 1) "mV" [1; 3])
  = Raise AttributeError.
Proof. split; reflexivity. Qed.

(** C5: an origin unit outside the recognised set is to be reported as
    [UnknownUnitsError] and as nothing else.  With origin unit
    ["furlongs"] and scale unit ["mV"] the error raised is
    [AttributeError]. *)
Theorem lead_values_mv_furlongs_raises :
  mv_factor "furlongs" = None /\
  lead_values_mv
    (mkAecgLead "MDC_ECG_LEAD_II" 0 "furlongs" 1 "mV" [1])
  = Raise AttributeError /\
  lead_values_mv
    (mkAecgLead "MDC_ECG_LEAD_II" 0 "furlongs" 1 "mV" [1])
  <> Raise UnknownUnitsError.
Proof. repeat split; try reflexivity. discriminate. Qed.

(** ** HL7 time stamps ([parse_hl7_datetime]) *)

Example parse_hl7_datetime_seconds :
  parse_hl7_datetime "20021122091005"
  = Ok (mkdatetime 2002 11 22 9 10 5 0).
Proof. reflexivity. Qed.

Example parse_hl7_datetime_millis :
  parse_hl7_datetime "20021122091005.123-0500"
  = Ok (mkdatetime 2002 11 22 9 10 5 123000).
Proof. reflexivity. Qed.

Example parse_hl7_datetime_day :
  parse_hl7_datetime "20021122" = Ok (mkdatetime 2002 11 22 0 0 0 0).
Proof. reflexivity. Qed.

Example parse_hl7_datetime_month_out_of_range :
  parse_hl7_datetime "20021322" = Raise ValueError.
Proof. reflexivity. Qed.

Example parse_hl7_datetime_year_month :
  parse_hl7_datetime "200211" = Raise ValueError.
Proof. reflexivity. Qed.

Example ymd2ord_2002_11_22 : ymd2ord 2002 11 22 = 731176.
Proof. reflexivity. Qed.

(** A string of at most four characters is handed to [fromisoformat] as it
    is, and no string that short is an ISO date. *)
Lemma fromisoformat_short (s : string) :
  (String.length s <= 4)%nat -> fromisoformat s = Raise ValueError.
Proof.
  intros H. unfold fromisoformat, parse_isoformat_date.
  destruct (ndigits 4 s); [|reflexivity].
  replace (String.get 4 s) with (@None ascii); [reflexivity|].
  destruct s as [|a [|b [|c [|d [|e s]]]]]; simpl in *; try reflexivity; lia.
Qed.

(** C7: a twelve-character stamp parses with seconds 0, as claimed; the
    year-only stamp ["2002"], which is to yield January 1 of 2002, does
    not parse: [parse_hl7_datetime] raises [ValueError], although its four
    leading characters are digits and no component is out of range. *)
Theorem parse_hl7_datetime_year_only_raises :
  parse_hl7_datetime "200211220910" = Ok (mkdatetime 2002 11 22 9 10 0 0)
  /\ parse_digits (slice "2002" 0 4) = Some 2002
  /\ parse_hl7_datetime "2002" = Raise ValueError.
Proof. repeat split; reflexivity. Qed.

(** ** Clinical labels ([ECGLIBANNTYPE]) *)

Lemma any_field_true (ann : annotation) (c : string) :
  any_field ann c = true <->
  codetype ann = c \/ wavecomponent ann = c \/ wavecomponent2 ann = c.
Proof.
  unfold any_field. rewrite !orb_true_iff, !String.eqb_eq. tauto.
Qed.

Lemma any_field_false (ann : annotation) (c : string) :
  any_field ann c = false <->
  ~ (codetype ann = c \/ wavecomponent ann = c \/ wavecomponent2 ann = c).
Proof.
  rewrite <- any_field_true. destruct (any_field ann c); intuition congruence.
Qed.

(** C8: rules 1 and 2 of the classification.  If one of the three code
    fields is the P-wave code the label is ["P"] followed by the suffix;
    otherwise, if one of them is the QRS-wave code, the label is ["R"]
    and the suffix for the value slot and ["Q"] and the suffix for the
    low and high slots.  The suffix is [PEAK] when the secondary component
    is the PEAK code, else [PEAK], [ON], [OFF] for value, low, high. *)
Theorem label_pwave_qrswave (ann : annotation) (p : param) :
  let suffix :=
    if String.eqb (wavecomponent2 ann) "MDC_ECG_WAVC_PEAK" then "PEAK"
    else match p with Pvalue => "PEAK" | Plow => "ON" | Phigh => "OFF" end in
  ((codetype ann = "MDC_ECG_WAVC_PWAVE"
    \/ wavecomponent ann = "MDC_ECG_WAVC_PWAVE"
    \/ wavecomponent2 ann = "MDC_ECG_WAVC_PWAVE") ->
   ecglibanntype ann p = Ok ("P" ++ suffix))
  /\
  (~ (codetype ann = "MDC_ECG_WAVC_PWAVE"
      \/ wavecomponent ann = "MDC_ECG_WAVC_PWAVE"
      \/ wavecomponent2 ann = "MDC_ECG_WAVC_PWAVE") ->
   (codetype ann = "MDC_ECG_WAVC_QRSWAVE"
    \/ wavecomponent ann = "MDC_ECG_WAVC_QRSWAVE"
    \/ wavecomponent2 ann = "MDC_ECG_WAVC_QRSWAVE") ->
   ecglibanntype ann p =
   Ok (match p with Pvalue => "R" | Plow => "Q" | Phigh => "Q" end ++ suffix)).
Proof.
  intros suffix. split.
  - intros H. apply any_field_true in H.
    unfold ecglibanntype. rewrite H. reflexivity.
  - intros HP HQ. apply any_field_false in HP. apply any_field_true in HQ.
    unfold ecglibanntype. rewrite HP, HQ. destruct p; reflexivity.
Qed.

Lemma label_pwave_qrswave_witness :
  ecglibanntype p_wave_ann Plow = Ok "PON"
  /\ ecglibanntype qrs_peak_ann Phigh = Ok "QPEAK".
Proof.
  split.
  - apply (proj1 (label_pwave_qrswave p_wave_ann Plow)).
    right; left; reflexivity.
  - apply (proj2 (label_pwave_qrswave qrs_peak_ann Phigh)).
    + intros [H|[H|H]]; discriminate H.
    + right; left; reflexivity.
Defined.

(** The fallback is reached exactly when no earlier branch is taken. *)
Lemma ecglibanntype_falls_through (ann : annotation) (p : param) :
  falls_through ann = true -> ecglibanntype ann p = fallback_label ann p.
Proof.
  unfold falls_through. rewrite negb_true_iff, !orb_false_iff.
  intros [[[[[[[[[[H1 H2] H3] H4] H5] H6] H7] H8] H9] H10] H11].
  unfold ecglibanntype.
  rewrite H1, H2, H3, H4, H5, H6, H7, H8, H9, H10, H11. reflexivity.
Qed.

(** C9, as stated, fails: for the five-token component
    [MDC_ECG_WAVC_FOO_BAR] no earlier rule matches, the final token is
    [BAR], and the label is [FOOPEAK], not [BARPEAK]. *)
Lemma fallback_label_not_last_token :
  falls_through five_token_ann = true
  /\ fallback_code five_token_ann = "MDC_ECG_WAVC_FOO_BAR"
  /\ index_last (split "_" (fallback_code five_token_ann)) = Ok "BAR"
  /\ ecglibanntype five_token_ann Pvalue = Ok "FOOPEAK"
  /\ ecglibanntype five_token_ann Pvalue <> Ok ("BAR" ++ "PEAK").
Proof. repeat split; try reflexivity. discriminate. Qed.

(** C9, amended: when no earlier rule matches, the chosen code is the
    primary component unless it is a generic placeholder, else the
    secondary component unless it is one, else the code type.  Whenever
    that code has at least four underscore-delimited tokens, the label is
    its fourth token (index 3) followed by the suffix; when the code has
    exactly four tokens that token is its final one, and the tokens after
    the fourth are never read: two codes with the same fourth token give
    the same label. *)
Theorem fallback_label_fourth_token (ann : annotation) (p : param) :
  falls_through ann = true ->
  (4 <= List.length (split "_" (fallback_code ann)))%nat ->
  fallback_code ann =
    (if negb (String.eqb (wavecomponent ann) "MDC_ECG_WAVC_TYPE"
              || String.eqb (wavecomponent ann) "MDC_ECG_WAVC")
     then wavecomponent ann
     else if negb (String.eqb (wavecomponent2 ann) "MDC_ECG_WAVC_TYPE"
                   || String.eqb (wavecomponent2 ann) "MDC_ECG_WAVC")
     then wavecomponent2 ann
     else codetype ann)
  /\ exists tok,
       nth_error (split "_" (fallback_code ann)) 3 = Some tok
       /\ ecglibanntype ann p = Ok (tok ++ annsufix ann p)
       /\ (List.length (split "_" (fallback_code ann)) = 4%nat ->
           index_last (split "_" (fallback_code ann)) = Ok tok)
       /\ (forall ann' : annotation,
             falls_through ann' = true ->
             nth_error (split "_" (fallback_code ann')) 3 = Some tok ->
             annsufix ann' p = annsufix ann p ->
             ecglibanntype ann' p = ecglibanntype ann p).
Proof.
  intros Hf Hlen. split; [reflexivity|].
  assert (L : forall (x : annotation) (t : string),
            falls_through x = true ->
            nth_error (split "_" (fallback_code x)) 3 = Some t ->
            ecglibanntype x p = Ok (t ++ annsufix x p)).
  { intros x t Hx Ht. rewrite (ecglibanntype_falls_through x p Hx).
    unfold fallback_label, index. rewrite Ht. reflexivity. }
  destruct (nth_error (split "_" (fallback_code ann)) 3) as [tok|] eqn:Htok.
  - exists tok. split; [reflexivity|]. split; [exact (L ann tok Hf Htok)|].
    split.
    + intros H4. unfold index_last.
      destruct (split "_" (fallback_code ann)) as [|a [|b [|c [|d [|e l]]]]];
        simpl in *; try discriminate.
      inversion Htok; reflexivity.
    + intros ann' Hf' Htok' Hs.
      rewrite (L ann' tok Hf' Htok'), (L ann tok Hf Htok), Hs. reflexivity.
  - apply nth_error_None in Htok. lia.
Qed.

Lemma fallback_label_fourth_token_witness :
  exists tok,
    nth_error (split "_" (fallback_code u_wave_ann)) 3 = Some tok
    /\ ecglibanntype u_wave_ann Plow = Ok (tok ++ annsufix u_wave_ann Plow)
    /\ index_last (split "_" (fallback_code u_wave_ann)) = Ok tok.
Proof.
  assert (H4 : (4 <= List.length (split "_" (fallback_code u_wave_ann)))%nat)
    by (vm_compute; lia).
  destruct (fallback_label_fourth_token u_wave_ann Plow eq_refl H4)
    as (_ & tok & Htok & Hlab & Hlast & _).
  exists tok. split; [exact Htok|]. split; [exact Hlab|].
  apply Hlast. reflexivity.
Defined.

(** ** The time projector ([anns_to_ms]) *)

Section ProjectorFacts.

Variable pyfloat : string -> option Q.

Lemma ann_step_start (lst : list lead_start) (s : string)
    (res : list lead_ann) (ann : annotation) (st : string * list lead_ann) :
  ann_step pyfloat lst (s, res) ann = Ok st ->
  fst st = next_start_time lst s ann.
Proof.
  unfold ann_step. intros H.
  apply bind_Ok in H as (ln & _ & H).
  apply bind_Ok in H as (r1 & _ & H).
  apply bind_Ok in H as (r2 & _ & H).
  apply bind_Ok in H as (r3 & _ & H).
  inversion H; reflexivity.
Qed.

(** The loop threads [start_time] through every annotation. *)
Lemma ann_loop_start (lst : list lead_start) (anns : list annotation) :
  forall (s : string) (res : list lead_ann) (st : string * list lead_ann),
  ann_loop pyfloat lst (s, res) anns = Ok st ->
  fst st = fold_left (next_start_time lst) anns s.
Proof.
  induction anns as [|a anns IH]; simpl; intros s res st H.
  - inversion H; reflexivity.
  - apply bind_Ok in H as ([s1 res1] & Hstep & H).
    apply ann_step_start in Hstep. simpl in Hstep. subst s1.
    exact (IH _ _ _ H).
Qed.

Lemma ann_loop_app (lst : list lead_start) (pre post : list annotation) :
  forall st : string * list lead_ann,
  ann_loop pyfloat lst st (pre ++ post)%list =
  (st' <- ann_loop pyfloat lst st pre ;; ann_loop pyfloat lst st' post).
Proof.
  induction pre as [|a pre IH]; simpl; intros st; [reflexivity|].
  destruct (ann_step pyfloat lst st a) as [st1|e]; simpl; [apply IH|reflexivity].
Qed.

Lemma fold_next_start_time_none (lst : list lead_start) (mid : list annotation) :
  forall s : string,
  (forall x, In x mid -> lead_st lst x = []) ->
  fold_left (next_start_time lst) mid s = s.
Proof.
  induction mid as [|x mid IH]; simpl; intros s H; [reflexivity|].
  unfold next_start_time at 2. rewrite (H x (or_introl eq_refl)).
  apply IH. intros y Hy. apply H. right; exact Hy.
Qed.

(** What a step adds, and that no step removes a row. *)
Lemma param_step_keeps (s ln : string) (ann : annotation)
    (res res' : list lead_ann) (p : param) (x : lead_ann) :
  param_step pyfloat s ln ann res p = Ok res' -> In x res -> In x res'.
Proof.
  unfold param_step. destruct (negb (String.eqb (slot ann p) "")).
  - intros H Hx. apply bind_Ok in H as (row & _ & H). inversion H.
    apply sort_by_In. apply in_or_app. left; exact Hx.
  - intros H Hx. inversion H; subst; exact Hx.
Qed.

Lemma param_step_adds (s ln : string) (ann : annotation)
    (res res' : list lead_ann) (p : param) :
  slot ann p <> "" ->
  param_step pyfloat s ln ann res p = Ok res' ->
  exists row, make_lead_ann pyfloat s ln ann p = Ok row /\ In row res'.
Proof.
  unfold param_step. intros Hs.
  destruct (String.eqb_spec (slot ann p) "") as [E|_]; [contradiction|].
  simpl. intros H. apply bind_Ok in H as (row & Hrow & H). inversion H.
  exists row. split; [exact Hrow|].
  apply sort_by_In. apply in_or_app. right; left; reflexivity.
Qed.

Lemma ann_step_adds (lst : list lead_start) (s : string)
    (res : list lead_ann) (ann : annotation) (st : string * list lead_ann)
    (p : param) :
  slot ann p <> "" ->
  ann_step pyfloat lst (s, res) ann = Ok st ->
  exists ln row,
    leadnam_of ann = Ok ln
    /\ make_lead_ann pyfloat (next_start_time lst s ann) ln ann p = Ok row
    /\ In row (snd st).
Proof.
  unfold ann_step. intros Hs H.
  apply bind_Ok in H as (ln & Hln & H).
  apply bind_Ok in H as (r1 & H1 & H).
  apply bind_Ok in H as (r2 & H2 & H).
  apply bind_Ok in H as (r3 & H3 & H).
  inversion H; subst st; clear H. simpl.
  exists ln. destruct p.
  - destruct (param_step_adds _ _ _ _ _ _ Hs H1) as (row & Hrow & Hin).
    exists row. split; [exact Hln|]. split; [exact Hrow|].
    apply (param_step_keeps _ _ _ _ _ _ _ H3).
    apply (param_step_keeps _ _ _ _ _ _ _ H2). exact Hin.
  - destruct (param_step_adds _ _ _ _ _ _ Hs H2) as (row & Hrow & Hin).
    exists row. split; [exact Hln|]. split; [exact Hrow|].
    apply (param_step_keeps _ _ _ _ _ _ _ H3). exact Hin.
  - destruct (param_step_adds _ _ _ _ _ _ Hs H3) as (row & Hrow & Hin).
    exists row. split; [exact Hln|]. split; [exact Hrow|exact Hin].
Qed.

Lemma ann_loop_keeps (lst : list lead_start) (anns : list annotation)
    (x : lead_ann) :
  forall st st' : string * list lead_ann,
  ann_loop pyfloat lst st anns = Ok st' -> In x (snd st) -> In x (snd st').
Proof.
  induction anns as [|ann anns IH]; simpl; intros st st' H Hx.
  - inversion H; subst; exact Hx.
  - apply bind_Ok in H as (st1 & Hstep & H).
    apply (IH _ _ H). destruct st as [s res]. unfold ann_step in Hstep.
    apply bind_Ok in Hstep as (ln & _ & Hstep).
    apply bind_Ok in Hstep as (r1 & H1 & Hstep).
    apply bind_Ok in Hstep as (r2 & H2 & Hstep).
    apply bind_Ok in Hstep as (r3 & H3 & Hstep).
    inversion Hstep; subst st1; clear Hstep. simpl.
    apply (param_step_keeps _ _ _ _ _ _ _ H3).
    apply (param_step_keeps _ _ _ _ _ _ _ H2).
    apply (param_step_keeps _ _ _ _ _ _ _ H1). exact Hx.
Qed.

Lemma diff_ms_anchor (t t0 ts : datetime) :
  to_us ts <> to_us t0 -> diff_ms t t0 <> diff_ms t ts.
Proof.
  unfold diff_ms. intros Hne E.
  assert (Q : ((to_us t - to_us t0) # 1000 == (to_us t - to_us ts) # 1000)%Q).
  { rewrite <- (Qred_correct ((to_us t - to_us t0) # 1000)),
            <- (Qred_correct ((to_us t - to_us ts) # 1000)), E.
    reflexivity. }
  unfold Qeq in Q. simpl in Q. lia.
Qed.

(** C10: the anchor of an absolute time is the local [start_time], which
    a lead with a row in [leads_start_times] overwrites for good.  Take an
    annotation [a] whose lead has the start time [ls_time r], then any
    annotations [mid] whose leads have none, then an annotation [b] tagged
    [TIME_ABSOLUTE] whose lead has none either (a GLOBAL one, say).  The
    frame [anns_to_ms] returns holds, for every non-empty boundary of
    [b], the row of [b] whose time is measured from [ls_time r], whatever
    the [start_time] argument is; that time is not the one measured from
    the argument when the two are different instants. *)
Theorem start_time_overwritten
    (lst : list lead_start) (start_time : string)
    (pre mid post : list annotation) (a b : annotation)
    (r : lead_start) (rest : list lead_start)
    (p : param) (t t0 : datetime) (rows : list lead_ann) :
  lead_st lst a = r :: rest ->
  (forall x, In x mid -> lead_st lst x = []) ->
  lead_st lst b = [] ->
  timecode b = "TIME_ABSOLUTE" ->
  slot b p <> "" ->
  parse_hl7_datetime (slot b p) = Ok t ->
  parse_hl7_datetime (ls_time r) = Ok t0 ->
  anns_to_ms pyfloat start_time lst (pre ++ a :: mid ++ b :: post)%list
  = Ok rows ->
  exists leadnam lab,
    leadnam_of b = Ok leadnam
    /\ ecglibanntype b p = Ok lab
    /\ In (mklead_ann (anngrpid b) (beatnum b) leadnam lab (anntype b)
                      (Some (diff_ms t t0)) (lead b)) rows
    /\ forall ts, parse_hl7_datetime start_time = Ok ts ->
                  to_us ts <> to_us t0 ->
                  diff_ms t t0 <> diff_ms t ts.
Proof.
  intros Ha Hmid Hb Htc Hs Ht Ht0 H.
  unfold anns_to_ms in H.
  apply bind_Ok in H as (stf & Hloop & H). inversion H; subst rows; clear H.
  replace (pre ++ a :: mid ++ b :: post)%list
    with ((pre ++ a :: mid) ++ b :: post)%list in Hloop
    by (rewrite <- app_assoc; reflexivity).
  rewrite ann_loop_app in Hloop.
  apply bind_Ok in Hloop as (st1 & Hpre & Hloop).
  assert (Hst : fst st1 = ls_time r).
  { rewrite (ann_loop_start _ _ _ _ _ Hpre).
    rewrite fold_left_app. simpl.
    rewrite (fold_next_start_time_none lst mid _ Hmid).
    unfold next_start_time. rewrite Ha. reflexivity. }
  simpl in Hloop.
  apply bind_Ok in Hloop as (st2 & Hstep & Hpost).
  destruct st1 as [s1 res1]. simpl in Hst. subst s1.
  destruct (ann_step_adds _ _ _ _ _ p Hs Hstep) as (ln & row & Hln & Hrow & Hin).
  unfold next_start_time in Hrow. rewrite Hb in Hrow.
  unfold make_lead_ann in Hrow.
  apply bind_Ok in Hrow as (lab & Hlab & Hrow).
  assert (Hpt : project_time pyfloat (ls_time r) b p = Ok (Some (diff_ms t t0))).
  { unfold project_time. rewrite Htc. simpl.
    unfold absolute_time. rewrite Ht, Ht0. reflexivity. }
  rewrite Hpt in Hrow. simpl in Hrow. inversion Hrow; subst row; clear Hrow.
  exists ln, lab. split; [exact Hln|]. split; [exact Hlab|]. split.
  - apply filter_In. split; [|reflexivity].
    exact (ann_loop_keeps _ _ _ _ _ Hpost Hin).
  - intros ts _ Hne. exact (diff_ms_anchor t t0 ts Hne).
Qed.

End ProjectorFacts.

(** The waveform starts at 09:10:00, lead II at 09:10:01: the GLOBAL
    [TOFF] at 09:10:02 comes out at 1000 ms, not at 2000 ms. *)
Example anns_to_ms_global_after_lead :
  anns_to_ms decimal_float "20021122091000" [lead_II_start]
             [lead_II_pwave; global_twave]
  = Ok [mklead_ann 0 (Some 0) "II" "PON" "MDC_ECG_WAVC_PWAVE"
                   (Some (500 # 1)%Q) "MDC_ECG_LEAD_II";
        mklead_ann 1 (Some 0) "GLOBAL" "TOFF" "MDC_ECG_WAVC_TWAVE"
                   (Some (1000 # 1)%Q) ""].
Proof. vm_compute. reflexivity. Qed.

Example anns_to_ms_global_before_lead :
  anns_to_ms decimal_float "20021122091000" [lead_II_start]
             [global_twave; lead_II_pwave]
  = Ok [mklead_ann 0 (Some 0) "II" "PON" "MDC_ECG_WAVC_PWAVE"
                   (Some (500 # 1)%Q) "MDC_ECG_LEAD_II";
        mklead_ann 1 (Some 0) "GLOBAL" "TOFF" "MDC_ECG_WAVC_TWAVE"
                   (Some (2000 # 1)%Q) ""].
Proof. vm_compute. reflexivity. Qed.

Lemma start_time_overwritten_witness :
  exists leadnam lab,
    leadnam_of global_twave = Ok leadnam
    /\ ecglibanntype global_twave Phigh = Ok lab
    /\ In (mklead_ann 1 (Some 0) leadnam lab "MDC_ECG_WAVC_TWAVE"
                      (Some (1000 # 1)%Q) "")
          [mklead_ann 0 (Some 0) "II" "PON" "MDC_ECG_WAVC_PWAVE"
                      (Some (500 # 1)%Q) "MDC_ECG_LEAD_II";
           mklead_ann 1 (Some 0) "GLOBAL" "TOFF" "MDC_ECG_WAVC_TWAVE"
                      (Some (1000 # 1)%Q) ""]
    /\ forall ts, parse_hl7_datetime "20021122091000" = Ok ts ->
                  to_us ts <> to_us (mkdatetime 2002 11 22 9 10 1 0) ->
                  diff_ms (mkdatetime 2002 11 22 9 10 2 0)
                          (mkdatetime 2002 11 22 9 10 1 0)
                  <> diff_ms (mkdatetime 2002 11 22 9 10 2 0) ts.
Proof.
  exact (start_time_overwritten decimal_float [lead_II_start]
           "20021122091000" [] [] [] lead_II_pwave global_twave
           lead_II_start [] Phigh
           (mkdatetime 2002 11 22 9 10 2 0) (mkdatetime 2002 11 22 9 10 1 0)
           _ eq_refl (fun x (F : In x []) => False_ind _ F) eq_refl eq_refl
           (fun F => ltac:(discriminate F)) eq_refl eq_refl eq_refl).
Defined.

(** *** Absolute times that do not parse *)

Section FallbackFacts.

Variable pyfloat : string -> option Q.

Lemma relative_time_unknown_unit (ann : annotation) (p : param) :
  mem (slot_unit ann p) time_units = false ->
  relative_time pyfloat ann p = Ok None.
Proof.
  unfold mem, time_units; simpl. rewrite !orb_false_iff.
  intros (H1 & H2 & H3 & _). unfold relative_time.
  rewrite H1, H2, H3. reflexivity.
Qed.

Lemma relative_time_not_numeric (ann : annotation) (p : param) :
  mem (slot_unit ann p) time_units = true ->
  pyfloat (slot ann p) = None ->
  relative_time pyfloat ann p = Raise ValueError.
Proof.
  unfold mem, time_units; simpl. intros Hu Hf.
  unfold relative_time, float. rewrite Hf.
  destruct (String.eqb (slot_unit ann p) "ms"); [reflexivity|].
  destruct (String.eqb (slot_unit ann p) "us"); [reflexivity|].
  destruct (String.eqb (slot_unit ann p) "s"); [reflexivity|].
  discriminate Hu.
Qed.

Lemma relative_time_numeric (ann : annotation) (p : param) (x : Q) :
  mem (slot_unit ann p) time_units = true ->
  pyfloat (slot ann p) = Some x ->
  relative_time pyfloat ann p =
  Ok (Some (if String.eqb (slot_unit ann p) "ms" then Qred x
            else if String.eqb (slot_unit ann p) "us" then fmul x e_3
            else fmul x e3)).
Proof.
  unfold mem, time_units; simpl. intros Hu Hf.
  unfold relative_time, float. rewrite Hf.
  destruct (String.eqb (slot_unit ann p) "ms"); [reflexivity|].
  destruct (String.eqb (slot_unit ann p) "us"); [reflexivity|].
  destruct (String.eqb (slot_unit ann p) "s"); [reflexivity|].
  discriminate Hu.
Qed.

(** An exception in the projection of one boundary ends the loop body. *)
Lemma param_step_raises (start_time leadnam : string) (ann : annotation)
    (res : list lead_ann) (p : param) (e : exn) :
  slot ann p <> "" ->
  project_time pyfloat start_time ann p = Raise e ->
  is_ok (param_step pyfloat start_time leadnam ann res p) = false.
Proof.
  intros Hs Ht. unfold param_step, make_lead_ann.
  destruct (String.eqb_spec (slot ann p) ""); [contradiction|]. simpl.
  destruct (ecglibanntype ann p); simpl; [rewrite Ht|]; reflexivity.
Qed.

Lemma ann_step_raises (lst : list lead_start) (st : string * list lead_ann)
    (ann : annotation) (p : param) (e : exn) :
  slot ann p <> "" ->
  project_time pyfloat (next_start_time lst (fst st) ann) ann p = Raise e ->
  is_ok (ann_step pyfloat lst st ann) = false.
Proof.
  intros Hs Ht. destruct st as [s res]. simpl in Ht. unfold ann_step.
  destruct (leadnam_of ann) as [ln|]; simpl; [|reflexivity].
  pose proof (fun r => param_step_raises _ ln ann r p e Hs Ht) as Hp.
  destruct (param_step pyfloat _ ln ann res Pvalue) as [r1|] eqn:E1;
    simpl; [|reflexivity].
  destruct (param_step pyfloat _ ln ann r1 Plow) as [r2|] eqn:E2;
    simpl; [|reflexivity].
  destruct (param_step pyfloat _ ln ann r2 Phigh) as [r3|] eqn:E3;
    simpl; [|reflexivity].
  destruct p.
  - specialize (Hp res). rewrite E1 in Hp. discriminate Hp.
  - specialize (Hp r1). rewrite E2 in Hp. discriminate Hp.
  - specialize (Hp r2). rewrite E3 in Hp. discriminate Hp.
Qed.

Lemma anns_to_ms_raises (s0 : string) (lst : list lead_start)
    (pre post : list annotation) (ann : annotation)
    (st : string * list lead_ann) :
  ann_loop pyfloat lst (s0, []) pre = Ok st ->
  is_ok (ann_step pyfloat lst st ann) = false ->
  is_ok (anns_to_ms pyfloat s0 lst (pre ++ ann :: post)%list) = false.
Proof.
  intros Hpre Hstep. unfold anns_to_ms.
  rewrite ann_loop_app, Hpre. simpl.
  destruct (ann_step pyfloat lst st ann); [discriminate Hstep|reflexivity].
Qed.

Lemma anns_to_ms_timed (s0 : string) (lst : list lead_start)
    (anns : list annotation) (rows : list lead_ann) :
  anns_to_ms pyfloat s0 lst anns = Ok rows ->
  forall r, In r rows -> has_time r = true.
Proof.
  unfold anns_to_ms. intros H r Hr.
  apply bind_Ok in H as (st & _ & H). inversion H; subst rows.
  apply filter_In in Hr. tauto.
Qed.

(** C6, amended: for a boundary of an annotation tagged [TIME_ABSOLUTE]
    whose absolute projection raises, the value is read again as a
    relative time in its declared unit.  If the unit is none of [ms],
    [us], [s], no time is assigned: the row is built with an empty time,
    and rows without a time never reach the output.  If the unit is one of
    the three and the value is not numeric, [float] raises [ValueError]
    inside the handler; nothing catches it and the projection of the
    whole annotation list fails. *)
Theorem absolute_fallback
    (start_time : string) (ann : annotation) (p : param) (e : exn) :
  timecode ann = "TIME_ABSOLUTE" ->
  absolute_time start_time ann p = Raise e ->
  project_time pyfloat start_time ann p = relative_time pyfloat ann p
  /\ (mem (slot_unit ann p) time_units = false ->
      project_time pyfloat start_time ann p = Ok None
      /\ forall (leadnam lab : string) (res : list lead_ann),
           ecglibanntype ann p = Ok lab ->
           slot ann p <> "" ->
           exists row,
             param_step pyfloat start_time leadnam ann res p
             = Ok (sort_by key_le (res ++ [row]))
             /\ has_time row = false)
  /\ (mem (slot_unit ann p) time_units = true ->
      pyfloat (slot ann p) = None ->
      project_time pyfloat start_time ann p = Raise ValueError
      /\ forall (s0 : string) (lst : list lead_start)
                (pre post : list annotation) (st : string * list lead_ann),
           ann_loop pyfloat lst (s0, []) pre = Ok st ->
           next_start_time lst (fst st) ann = start_time ->
           slot ann p <> "" ->
           is_ok (anns_to_ms pyfloat s0 lst (pre ++ ann :: post)%list) = false)
  /\ (forall (s0 : string) (lst : list lead_start)
             (anns : list annotation) (rows : list lead_ann),
        anns_to_ms pyfloat s0 lst anns = Ok rows ->
        forall r, In r rows -> has_time r = true).
Proof.
  intros Htc Habs.
  assert (Hp : project_time pyfloat start_time ann p
               = relative_time pyfloat ann p).
  { unfold project_time. rewrite Htc. simpl. rewrite Habs. reflexivity. }
  split; [exact Hp|split; [|split]].
  - intros Hu. rewrite Hp, (relative_time_unknown_unit ann p Hu).
    split; [reflexivity|].
    intros leadnam lab res Hlab Hs.
    exists (mklead_ann (anngrpid ann) (beatnum ann) leadnam lab
                       (anntype ann) None (lead ann)).
    split; [|reflexivity].
    unfold param_step, make_lead_ann.
    destruct (String.eqb_spec (slot ann p) ""); [contradiction|]. simpl.
    rewrite Hlab. simpl.
    rewrite Hp, (relative_time_unknown_unit ann p Hu). reflexivity.
  - intros Hu Hf.
    assert (Hr : project_time pyfloat start_time ann p = Raise ValueError).
    { rewrite Hp. apply relative_time_not_numeric; assumption. }
    split; [exact Hr|].
    intros s0 lst pre post st Hpre Hst Hs.
    apply (anns_to_ms_raises s0 lst pre post ann st Hpre).
    apply (ann_step_raises lst st ann p ValueError Hs).
    rewrite Hst. exact Hr.
  - apply anns_to_ms_timed.
Qed.

End FallbackFacts.

(** The retry succeeds on a numeric value with a known unit. *)
Example anns_to_ms_mislabelled_ms :
  anns_to_ms decimal_float "20021122091000" [] [mislabelled_ms; relative_qrs]
  = Ok [mklead_ann 0 (Some 0) "II" "PON" "MDC_ECG_WAVC_PWAVE"
                   (Some (120 # 1)%Q) "MDC_ECG_LEAD_II";
        mklead_ann 1 (Some 0) "II" "QON" "MDC_ECG_WAVC_QRSWAVE"
                   (Some (140 # 1)%Q) "MDC_ECG_LEAD_II";
        mklead_ann 1 (Some 0) "II" "QOFF" "MDC_ECG_WAVC_QRSWAVE"
                   (Some (180 # 1)%Q) "MDC_ECG_LEAD_II"].
Proof. vm_compute. reflexivity. Qed.

(** With an unknown unit the boundary is dropped and the rest is kept. *)
Example anns_to_ms_mislabelled_furlongs :
  anns_to_ms decimal_float "20021122091000" []
             [mislabelled_furlongs; relative_qrs]
  = Ok [mklead_ann 1 (Some 0) "II" "QON" "MDC_ECG_WAVC_QRSWAVE"
                   (Some (140 # 1)%Q) "MDC_ECG_LEAD_II";
        mklead_ann 1 (Some 0) "II" "QOFF" "MDC_ECG_WAVC_QRSWAVE"
                   (Some (180 # 1)%Q) "MDC_ECG_LEAD_II"].
Proof. vm_compute. reflexivity. Qed.

(** C6, as stated, fails: a [TIME_ABSOLUTE] boundary whose value ["abc"]
    is neither an HL7 time stamp nor numeric, with unit [ms], is not
    dropped; the projection of the whole list raises [ValueError] and the
    well-formed annotation after it is lost with it. *)
Lemma absolute_fallback_not_numeric_is_fatal :
  parse_hl7_datetime (slot mislabelled_text Plow) = Raise ValueError
  /\ decimal_float (slot mislabelled_text Plow) = None
  /\ anns_to_ms decimal_float "20021122091000" []
                [mislabelled_text; relative_qrs]
     = Raise ValueError.
Proof. repeat split; vm_compute; reflexivity. Qed.

Lemma absolute_fallback_witness :
  project_time decimal_float "20021122091000" mislabelled_furlongs Plow
  = Ok None
  /\ project_time decimal_float "20021122091000" mislabelled_text Plow
     = Raise ValueError.
Proof.
  split.
  - exact (proj1 (proj1 (proj2
      (absolute_fallback decimal_float "20021122091000"
         mislabelled_furlongs Plow ValueError eq_refl eq_refl)) eq_refl)).
  - exact (proj1 (proj1 (proj2 (proj2
      (absolute_fallback decimal_float "20021122091000"
         mislabelled_text Plow ValueError eq_refl eq_refl))) eq_refl eq_refl)).
Defined.

(** ** The interval derivation engine ([get_aecg_intervals]) *)

Import Indexing.

Lemma fgt_fsub_0 (t q : Q) : fgt (fsub t q) 0 = true <-> (q < t)%Q.
Proof.
  unfold fgt, fsub.
  assert (E : (Qred (t - q) ?= 0)%Q = (t - q ?= 0)%Q).
  { apply Qcompare_comp; [apply Qred_correct|reflexivity]. }
  rewrite E. destruct (t - q ?= 0)%Q eqn:C.
  - apply Qeq_alt in C. split; [discriminate|]. intros H. lra.
  - apply Qlt_alt in C. split; [discriminate|]. intros H. lra.
  - apply Qgt_alt in C. split; [intros _; lra|reflexivity].
Qed.

Lemma index_last_app {A : Type} (l : list A) (x : A) :
  index_last (l ++ [x]) = Ok x.
Proof. unfold index_last. rewrite rev_app_distr. reflexivity. Qed.

Lemma potential_qts_app (t : Q) (l1 l2 : list Q) :
  potential_qts t (l1 ++ l2) = (potential_qts t l1 ++ potential_qts t l2)%list.
Proof. unfold potential_qts. rewrite map_app, filter_app. reflexivity. Qed.

Lemma potential_qts_none (t : Q) (qs : list Q) :
  (forall q, In q qs -> (t <= q)%Q) -> potential_qts t qs = [].
Proof.
  induction qs as [|q qs IH]; intros H; [reflexivity|].
  unfold potential_qts in *. simpl.
  destruct (fgt (fsub t q) 0) eqn:E.
  - apply fgt_fsub_0 in E. specialize (H q (or_introl eq_refl)). lra.
  - apply IH. intros q' Hq'. apply H. right; exact Hq'.
Qed.

(** X20: without a local onset, and with [QON] rows in the GLOBAL lead,
    the onset used at a [TOFF] is the last one in table order that
    precedes the offset. *)
Lemma qt_at_toff_global_last (df : list ann_ms) (a : ann_ms) (s : state)
    (r : trow) (l1 l2 : list Q) (q : Q) :
  last_qon s = None ->
  global_qons df = (l1 ++ q :: l2)%list ->
  (q < TIME a)%Q ->
  (forall q', In q' l2 -> (TIME a <= q')%Q) ->
  qt_at_toff df a s r = Ok (Some (fsub (TIME a) q), r).
Proof.
  intros Hs Hg Hq Hl2. unfold qt_at_toff. rewrite Hs, Hg. simpl.
  rewrite length_app. simpl.
  replace (0 <? List.length l1 + S (List.length l2))%nat with true
    by (symmetry; apply Nat.ltb_lt; lia).
  change (q :: l2) with ([q] ++ l2)%list.
  rewrite !potential_qts_app, (potential_qts_none _ l2 Hl2), app_nil_r.
  unfold potential_qts at 2. simpl.
  rewrite (proj2 (fgt_fsub_0 (TIME a) q) Hq).
  rewrite index_last_app. reflexivity.
Qed.

(** X21: without a local onset, when there are GLOBAL onsets and every
    one of them is at or after the offset, the indexing of the empty
    selection raises [IndexError]. *)
Lemma qt_at_toff_global_raises (df : list ann_ms) (a : ann_ms) (s : state)
    (r : trow) :
  last_qon s = None ->
  global_qons df <> [] ->
  (forall q, In q (global_qons df) -> (TIME a <= q)%Q) ->
  qt_at_toff df a s r = Raise IndexError.
Proof.
  intros Hs Hg Hall. unfold qt_at_toff. rewrite Hs. simpl.
  destruct (global_qons df) as [|q0 qs] eqn:E; [contradiction|].
  simpl. rewrite (potential_qts_none _ _ Hall). reflexivity.
Qed.

(** The cross-lead example: a [TOFF] at 370 in V5 and a GLOBAL [QON] at
    130 give a QT of 240. *)
Example get_aecg_intervals_global_qon (pypow : Q -> Q -> Q) :
  get_aecg_intervals pypow
    (Columns [mkann_ms 0 "GLOBAL" "" "QON" (130 # 1);
              mkann_ms 1 "V5" "MDC_ECG_LEAD_V5" "TOFF" (370 # 1)]) true
  = Ok [mkinterval "V5" "MDC_ECG_LEAD_V5" (Some (370 # 1)%Q) "QT"
                   (Some (240 # 1)%Q) "";
        mkinterval "V5" "MDC_ECG_LEAD_V5" None "QT" (Some (1 # 1)%Q) "COUNT";
        mkinterval "V5" "MDC_ECG_LEAD_V5" None "QT" (Some (240 # 1)%Q)
                   "AVERAGE"].
Proof. vm_compute. reflexivity. Qed.

(** GLOBAL onsets are taken in table order: with the onsets 500 and 100
    listed in that order and a [TOFF] at 600, the QT is 500, measured from
    the onset at 100. *)
Example get_aecg_intervals_global_qon_order (pypow : Q -> Q -> Q) :
  get_aecg_intervals pypow
    (Columns [mkann_ms 1 "GLOBAL" "" "QON" (500 # 1);
              mkann_ms 2 "GLOBAL" "" "QON" (100 # 1);
              mkann_ms 3 "V5" "MDC_ECG_LEAD_V5" "TOFF" (600 # 1)]) false
  = Ok [mkinterval "V5" "MDC_ECG_LEAD_V5" None "QT" (Some (1 # 1)%Q) "COUNT";
        mkinterval "V5" "MDC_ECG_LEAD_V5" None "QT" (Some (500 # 1)%Q)
                   "AVERAGE"].
Proof. vm_compute. reflexivity. Qed.

(** C1: a [TOFF] with no local onset, when every GLOBAL [QON] is at or
    after it, is to leave QT undefined without an exception.  For a
    [TOFF] at 100 in V5 and a GLOBAL [QON] at 130 the engine raises
    [IndexError]. *)
Theorem toff_before_global_qon_raises (pypow : Q -> Q -> Q) (keep : bool) :
  get_aecg_intervals pypow
    (Columns [mkann_ms 0 "V5" "MDC_ECG_LEAD_V5" "TOFF" (100 # 1);
              mkann_ms 1 "GLOBAL" "" "QON" (130 # 1)]) keep
  = Raise IndexError.
Proof. reflexivity. Qed.

(** *** PR, QRS, QT and the Fridericia correction *)

Arguments fsub : simpl never.
Arguments fdiv : simpl never.
Arguments fgt : simpl never.

Lemma fgt_spec (a b : Q) : fgt a b = true <-> (b < a)%Q.
Proof.
  unfold fgt. destruct (a ?= b)%Q eqn:C.
  - apply Qeq_alt in C. split; [discriminate|]. intros H. lra.
  - apply Qlt_alt in C. split; [discriminate|]. intros H. lra.
  - apply Qgt_alt in C. split; [intros _; exact C|reflexivity].
Qed.

Lemma Forall2_In_r {A B : Type} (P : A -> B -> Prop) (l : list A) (l' : list B) :
  Forall2 P l l' -> forall b, In b l' -> exists a, In a l /\ P a b.
Proof.
  induction 1 as [|a b l l' Hab _ IH]; intros b0 Hb; [contradiction|].
  destruct Hb as [<-|Hb].
  - exists a. split; [left; reflexivity|exact Hab].
  - destruct (IH b0 Hb) as (a0 & Ha0 & HP). exists a0. split; [right|]; assumption.
Qed.

Ltac case_if :=
  match goal with
  | |- context [if ?c then _ else _] => destruct c eqn:?
  end.

Section IntervalFacts.

Variable pypow : Q -> Q -> Q.

Lemma fridericia_defined (qt rr : option Q) :
  fridericia pypow qt rr <> None -> qt <> None /\ rr <> None.
Proof. destruct qt, rr; simpl; intros H; split; congruence. Qed.

(** What a row looks like before the [TOFF] test, and what the state
    keeps. *)
Lemma before_toff (a : ann_ms) (s : state) :
  rr_positive s ->
  forall s1 r1,
  on_qoff a (on_qon a (on_pon a (on_rpeak a (reset_lead a s, init_row a))))
  = (s1, r1) ->
  QT r1 = None /\ QTRR r1 = None /\ QTCF r1 = None
  /\ t_TIME r1 = TIME a /\ rr_positive s1.
Proof.
  intros Hrr s1 r1.
  assert (Hrr0 : rr_positive (reset_lead a s)).
  { unfold reset_lead. case_if; [intros rr H; discriminate H|exact Hrr]. }
  generalize dependent (reset_lead a s). clear s Hrr. intros s Hrr.
  unfold on_rpeak. destruct (is_type a "RPEAK").
  - destruct (isnan (current_R s) || ngt (Some (TIME a)) (current_R s)) eqn:C.
    + unfold on_pon, on_qon, on_qoff, init_row.
      repeat case_if; cbn; intros H; inversion H; subst; cbn;
        (repeat split; try reflexivity);
        intros rr Hr; cbn in Hr;
        destruct (current_R s) as [c|]; cbn in Hr, C; try discriminate Hr;
        inversion Hr; subst; apply fgt_spec in C;
        unfold fsub; rewrite Qred_correct; lra.
    + unfold on_pon, on_qon, on_qoff, init_row.
      repeat case_if; cbn; intros H; inversion H; subst; cbn;
        (repeat split; try reflexivity); exact Hrr.
  - unfold on_pon, on_qon, on_qoff, init_row.
    repeat case_if; cbn; intros H; inversion H; subst; cbn;
      (repeat split; try reflexivity); exact Hrr.
Qed.

Lemma qt_at_toff_time (df : list ann_ms) (a : ann_ms) (s : state) (r r' : trow)
    (q : option Q) :
  qt_at_toff df a s r = Ok (q, r') -> t_TIME r' = t_TIME r.
Proof.
  unfold qt_at_toff, group_fallback.
  repeat (first [case_if
                |match goal with
                 | |- context [bind ?m _] => destruct m; cbn [bind]
                 end]);
    intros H; try discriminate H; inversion H; subst; reflexivity.
Qed.

Lemma step_row_ok (df : list ann_ms) (s s' : state) (a : ann_ms) (r : trow) :
  rr_positive s ->
  step pypow df s a = Ok (s', r) ->
  row_ok pypow a r /\ rr_positive s'.
Proof.
  intros Hrr. unfold step.
  destruct (on_qoff a (on_qon a (on_pon a (on_rpeak a (reset_lead a s, init_row a)))))
    as [s1 r1] eqn:E.
  destruct (before_toff a s Hrr s1 r1 E) as (H1 & H2 & H3 & H4 & H5).
  unfold on_toff. destruct (is_type a "TOFF") eqn:T.
  - destruct (qt_at_toff df a s1 r1) as [[q r2]|] eqn:Q; cbn [bind];
      [|discriminate].
    intros H; inversion H; subst; clear H.
    pose proof (qt_at_toff_time _ _ _ _ _ _ Q) as Ht.
    split; [unfold row_ok; cbn; split; [|split; [|split]]|].
    + congruence.
    + reflexivity.
    + intros F. rewrite T in F. discriminate F.
    + exact H5.
    + intros rr Hr; exact (H5 rr Hr).
  - intros H; inversion H; subst; clear H.
    split; [unfold row_ok; split; [|split; [|split]]|exact H5].
    + exact H4.
    + rewrite H1, H2, H3. reflexivity.
    + intros _. auto.
    + intros rr Hr. rewrite H2 in Hr. discriminate Hr.
Qed.

Lemma scan_rows_ok (df : list ann_ms) (rows : list ann_ms) :
  forall (s : state) (tbl : list trow),
  rr_positive s ->
  scan pypow df s rows = Ok tbl ->
  Forall2 (row_ok pypow) rows tbl.
Proof.
  induction rows as [|a rows IH]; intros s tbl Hrr H; simpl in H.
  - inversion H. constructor.
  - apply bind_Ok in H as ([s1 r1] & Hstep & H).
    apply bind_Ok in H as (rs & Hscan & H). inversion H; subst.
    destruct (step_row_ok _ _ _ _ _ Hrr Hstep) as [Hrow Hrr1].
    constructor; [exact Hrow|]. exact (IH _ _ Hrr1 Hscan).
Qed.

Lemma interval_table_rows_ok (anns : list ann_ms) (tbl : list trow) :
  interval_table pypow anns = Ok tbl ->
  forall r, In r tbl -> exists a, In a anns /\ row_ok pypow a r.
Proof.
  unfold interval_table. intros H r Hr.
  destruct (0 <? List.length anns)%nat.
  - assert (Hi : rr_positive initial_state) by (intros rr F; discriminate F).
    pose proof (scan_rows_ok _ _ _ _ Hi H) as HF.
    destruct (Forall2_In_r _ _ _ HF r Hr) as (a & Ha & Hok).
    exists a. split; [|exact Hok]. apply (sort_by_In ann_le). exact Ha.
  - inversion H; subst. contradiction.
Qed.

End IntervalFacts.

Lemma melt_In (rows : list trow) (i : interval) :
  In i (melt rows) <->
  exists r v, In r rows /\ In v value_vars
    /\ i = mkinterval (t_LEADNAM r) (t_HL7LEADNAM r) (Some (t_TIME r))
                      (fst v) (snd v r) "".
Proof.
  unfold melt. rewrite in_flat_map. split.
  - intros (v & Hv & Hi). apply in_map_iff in Hi as (r & <- & Hr).
    exists r, v. auto.
  - intros (r & v & Hr & Hv & ->). exists v. split; [exact Hv|].
    apply in_map_iff. exists r. auto.
Qed.

Lemma derived_intervals_In (rows : list trow) (i : interval) :
  In i (derived_intervals rows) <-> In i (melt rows) /\ AVAL i <> None.
Proof.
  unfold derived_intervals. rewrite sort_by_In, filter_In.
  unfold notna. destruct (AVAL i); simpl; intuition congruence.
Qed.

Lemma derived_qtcf (rows : list trow) (i : interval) :
  In i (derived_intervals rows) -> PARAMCD i = "QTCF" ->
  exists r, In r rows /\ AVAL i = QTCF r /\ QTCF r <> None
            /\ i_TIME i = Some (t_TIME r).
Proof.
  intros Hi Hp. apply derived_intervals_In in Hi as [Hm Hv].
  apply melt_In in Hm as (r & v & Hr & Hvv & ->). simpl in *.
  exists r. unfold value_vars in Hvv. simpl in Hvv.
  destruct Hvv as [<-|[<-|[<-|[<-|[<-|[<-|[]]]]]]]; simpl in *;
    try discriminate Hp.
  auto.
Qed.

(** A cube root of 0.8 good to four decimals puts 240 over it within 0.1
    of 258.5. *)
Lemma fridericia_240_800 (c : Q) :
  (0 < c)%Q ->
  (Qabs (c * c * c - (4 # 5)) <= 1 # 10000)%Q ->
  (Qabs (fdiv (240 # 1) c - (517 # 2)) <= 1 # 10)%Q.
Proof.
  intros Hc Habs. apply Qabs_Qle_condition in Habs as [Hlo Hhi].
  assert (L : (9281 # 10000 <= c)%Q).
  { destruct (Qlt_le_dec c (9281 # 10000)) as [Hlt|]; [|assumption].
    exfalso.
    assert (H2 : (c * c <= (9281 # 10000) * (9281 # 10000))%Q) by nra.
    assert (H3 : (c * c * c <= (9281 # 10000) * (9281 # 10000) * (9281 # 10000))%Q)
      by nra.
    lra. }
  assert (U : (c <= 9287 # 10000)%Q).
  { destruct (Qlt_le_dec (9287 # 10000) c) as [Hlt|]; [|assumption].
    exfalso.
    assert (H2 : ((9287 # 10000) * (9287 # 10000) <= c * c)%Q) by nra.
    assert (H3 : ((9287 # 10000) * (9287 # 10000) * (9287 # 10000) <= c * c * c)%Q)
      by nra.
    lra. }
  unfold fdiv. rewrite Qred_correct.
  apply Qabs_Qle_condition. split.
  - apply Qle_minus_iff.
    setoid_replace ((240 # 1) / c - (517 # 2) + - - (1 # 10))%Q
      with (((240 # 1) - (2584 # 10) * c) / c)%Q by (field; lra).
    apply Qle_shift_div_l; [exact Hc|]. lra.
  - apply Qle_minus_iff.
    setoid_replace ((1 # 10) + - ((240 # 1) / c - (517 # 2)))%Q
      with (((2586 # 10) * c - (240 # 1)) / c)%Q by (field; lra).
    apply Qle_shift_div_l; [exact Hc|]. lra.
Qed.

(** C2, as stated, fails in its numeric example: for the beat above after
    an RR of 800 ms, and a power accurate to eight decimals, the QTCF the
    engine emits is 258.5..., more than 9 away from 268.0. *)
Lemma qtcf_example_is_not_268 :
  (Qabs (cbrt_pow (4 # 5) (1 # 3) * cbrt_pow (4 # 5) (1 # 3)
         * cbrt_pow (4 # 5) (1 # 3) - (4 # 5)) <= 1 # 100000000)%Q
  /\ exists tbl v,
       interval_table cbrt_pow beat_after_rr = Ok tbl
       /\ In (II_interval (380 # 1) "QTRR" (800 # 1)) (derived_intervals tbl)
       /\ In (II_interval (380 # 1) "QT" (240 # 1)) (derived_intervals tbl)
       /\ In (II_interval (380 # 1) "QTCF" v) (derived_intervals tbl)
       /\ (v < 259 # 1)%Q
       /\ ~ (Qabs (v - (268 # 1)) <= 9 # 1)%Q.
Proof.
  split.
  - apply Qle_bool_iff. vm_compute. reflexivity.
  - eexists. exists (120000000000 # 464158883)%Q.
    split; [vm_compute; reflexivity|].
    split; [vm_compute; tauto|].
    split; [vm_compute; tauto|].
    split; [vm_compute; tauto|].
    split; [reflexivity|].
    intros H. apply Qle_bool_iff in H. vm_compute in H. discriminate H.
Qed.

(** C2, amended: the single beat PON 100, QON 140, QOFF 180, TOFF 380
    gives PR = 40, QRS = 40 and QT = 240.  In every table the engine
    builds, a row on which QT and QTRR are both defined has
    QTCF = QT / (QTRR/1000) ** (1/3), with QTRR positive; a QTCF interval
    is emitted only at the time of a [TOFF] annotation whose row has both
    operands.  For QT = 240 after an RR of 800 ms the value is
    240 / 0.8 ** (1/3), which is 258.5 to within 0.1 (not 268.0) for any
    power that is accurate to four decimals at 0.8. *)
Theorem intervals_and_fridericia (pypow : Q -> Q -> Q) :
  (exists tbl,
     interval_table pypow single_beat = Ok tbl
     /\ derived_intervals tbl =
        [II_interval (140 # 1) "PR" (40 # 1);
         II_interval (180 # 1) "QRS" (40 # 1);
         II_interval (380 # 1) "QT" (240 # 1)])
  /\ (forall anns tbl r qt rr,
        interval_table pypow anns = Ok tbl -> In r tbl ->
        QT r = Some qt -> QTRR r = Some rr ->
        QTCF r = Some (fdiv qt (pypow (fdiv rr (1000 # 1)) (fdiv 1 3)))
        /\ (0 < rr)%Q)
  /\ (forall anns tbl i,
        interval_table pypow anns = Ok tbl ->
        In i (derived_intervals tbl) -> PARAMCD i = "QTCF" ->
        exists a r qt rr,
          In a anns /\ ECGLIBANNTYPE a = "TOFF"
          /\ i_TIME i = Some (TIME a)
          /\ In r tbl /\ QT r = Some qt /\ QTRR r = Some rr
          /\ AVAL i = Some (fdiv qt (pypow (fdiv rr (1000 # 1)) (fdiv 1 3))))
  /\ ((0 < pypow (4 # 5) (1 # 3))%Q ->
      (Qabs (pypow (4 # 5) (1 # 3) * pypow (4 # 5) (1 # 3)
             * pypow (4 # 5) (1 # 3) - (4 # 5)) <= 1 # 10000)%Q ->
      exists tbl v,
        interval_table pypow beat_after_rr = Ok tbl
        /\ In (II_interval (380 # 1) "QTRR" (800 # 1)) (derived_intervals tbl)
        /\ In (II_interval (380 # 1) "QTCF" v) (derived_intervals tbl)
        /\ v = fdiv (240 # 1) (pypow (4 # 5) (1 # 3))
        /\ (Qabs (v - (517 # 2)) <= 1 # 10)%Q).
Proof.
  split; [|split; [|split]].
  - eexists. split; vm_compute; reflexivity.
  - intros anns tbl r qt rr Htbl Hr Hqt Hrr.
    destruct (interval_table_rows_ok pypow anns tbl Htbl r Hr)
      as (a & _ & _ & Hf & _ & Hpos).
    split; [|exact (Hpos rr Hrr)].
    rewrite Hf, Hqt, Hrr. reflexivity.
  - intros anns tbl i Htbl Hi Hp.
    destruct (derived_qtcf tbl i Hi Hp) as (r & Hr & Hv & Hdef & Ht).
    destruct (interval_table_rows_ok pypow anns tbl Htbl r Hr)
      as (a & Ha & Htime & Hf & Hnt & _).
    assert (Htoff : is_type a "TOFF" = true).
    { destruct (is_type a "TOFF") eqn:T; [reflexivity|].
      destruct (Hnt eq_refl) as (_ & _ & F). contradiction. }
    rewrite Hf in Hdef. apply fridericia_defined in Hdef as [Hq Hrr].
    destruct (QT r) as [qt|] eqn:Eq; [|congruence].
    destruct (QTRR r) as [rr|] eqn:Er; [|congruence].
    exists a, r, qt, rr. repeat split; try assumption; try reflexivity.
    + apply String.eqb_eq. exact Htoff.
    + rewrite Ht, Htime. reflexivity.
    + rewrite Hv, Hf. reflexivity.
  - intros Hc Habs.
    exists [mktrow "II" "MDC_ECG_LEAD_II" (-640 # 1) None None None None None None;
            mktrow "II" "MDC_ECG_LEAD_II" (100 # 1) None None None None None None;
            mktrow "II" "MDC_ECG_LEAD_II" (140 # 1) None (Some (40 # 1)%Q) None None None None;
            mktrow "II" "MDC_ECG_LEAD_II" (160 # 1) (Some (800 # 1)%Q) None None None None None;
            mktrow "II" "MDC_ECG_LEAD_II" (180 # 1) None None (Some (40 # 1)%Q) None None None;
            mktrow "II" "MDC_ECG_LEAD_II" (380 # 1) None None None
                   (Some (240 # 1)%Q) (Some (800 # 1)%Q)
                   (Some (fdiv (240 # 1) (pypow (4 # 5) (1 # 3))))].
    exists (fdiv (240 # 1) (pypow (4 # 5) (1 # 3))).
    split; [vm_compute; reflexivity|].
    split; [apply derived_intervals_In; split; [|simpl; discriminate];
            apply melt_In; eexists; exists ("QTRR", QTRR);
            split; [do 5 right; left; reflexivity|];
            split; [simpl; tauto|reflexivity]|].
    split; [apply derived_intervals_In; split; [|simpl; discriminate];
            apply melt_In; eexists; exists ("QTCF", QTCF);
            split; [do 5 right; left; reflexivity|];
            split; [simpl; tauto|reflexivity]|].
    split; [reflexivity|].
    apply fridericia_240_800; assumption.
Qed.

Lemma intervals_and_fridericia_witness :
  exists tbl v,
    interval_table cbrt_pow beat_after_rr = Ok tbl
    /\ In (II_interval (380 # 1) "QTRR" (800 # 1)) (derived_intervals tbl)
    /\ In (II_interval (380 # 1) "QTCF" v) (derived_intervals tbl)
    /\ v = fdiv (240 # 1) (cbrt_pow (4 # 5) (1 # 3))
    /\ (Qabs (v - (517 # 2)) <= 1 # 10)%Q.
Proof.
  apply (proj2 (proj2 (proj2 (intervals_and_fridericia cbrt_pow)))).
  - reflexivity.
  - apply Qle_bool_iff. vm_compute. reflexivity.
Defined.

(** ** The aggregator ([get_interval_count_and_avg]) *)

Lemma key_compare_eq (a b : group_key) : key_compare a b = Eq -> a = b.
Proof.
  destruct a as [[a1 a2] a3], b as [[b1 b2] b3]. unfold key_compare, lex. simpl.
  destruct (String.compare a1 b1) eqn:E1; try discriminate.
  destruct (String.compare a2 b2) eqn:E2; try discriminate.
  intros E3.
  apply String.compare_eq_iff in E1, E2, E3. congruence.
Qed.

Lemma key_eqb_eq (a b : group_key) : key_eqb a b = true <-> a = b.
Proof.
  destruct a as [[a1 a2] a3], b as [[b1 b2] b3]. unfold key_eqb. simpl.
  rewrite !andb_true_iff, !String.eqb_eq. split.
  - intros [[-> ->] ->]. reflexivity.
  - intros H. inversion H. auto.
Qed.

Lemma insert_key_In (k k' : group_key) (ks : list group_key) :
  In k' (insert_key k ks) <-> k' = k \/ In k' ks.
Proof.
  induction ks as [|k0 ks IH]; simpl; [intuition|].
  destruct (key_compare k k0) eqn:C; simpl.
  - apply key_compare_eq in C. subst k0. intuition.
  - intuition.
  - rewrite IH. intuition.
Qed.

Lemma group_keys_In (rows : list interval) (k : group_key) :
  In k (group_keys rows) <-> exists i, In i rows /\ key_of i = k.
Proof.
  induction rows as [|i rows IH]; simpl.
  - split; [contradiction|]. intros (i & [] & _).
  - unfold group_keys in IH |- *. simpl. rewrite insert_key_In, IH. split.
    + intros [->|(j & Hj & Hk)]; [exists i; auto|exists j; auto].
    + intros (j & [<-|Hj] & Hk); [left; auto|right; exists j; auto].
Qed.

Lemma key_of_summary_row (dtype : string) (stat : list interval -> Q)
    (rows : list interval) (k : group_key) :
  key_of (summary_row dtype stat rows k) = k.
Proof. destruct k as [[k1 k2] k3]. reflexivity. Qed.

(** The rows of the summary are those of the groups that have a value. *)
Lemma summary_In (anns_df : list interval) (row : interval) :
  In row (get_interval_count_and_avg anns_df false) ->
  exists i, In i anns_df /\ AVAL i <> None /\ key_of i = key_of row.
Proof.
  unfold get_interval_count_and_avg.
  destruct (0 <? List.length anns_df)%nat; [|contradiction].
  intros H. apply in_app_or in H.
  assert (G : exists k, In k (group_keys (filter notna anns_df))
                        /\ key_of row = k).
  { destruct H as [H|H]; apply in_map_iff in H as (k & <- & Hk);
      exists k; rewrite key_of_summary_row; auto. }
  destruct G as (k & Hk & Hrow).
  apply group_keys_In in Hk as (i & Hi & Hik).
  apply filter_In in Hi as [Hi Hn].
  exists i. split; [exact Hi|]. split; [|congruence].
  unfold notna in Hn. destruct (AVAL i); [discriminate|discriminate Hn].
Qed.

Lemma values_nonempty (rows : list interval) (i : interval) :
  In i rows -> AVAL i <> None -> (1 <= List.length (values rows))%nat.
Proof.
  induction rows as [|j rows IH]; [contradiction|].
  intros [->|Hi] Hv; unfold values in *; simpl.
  - destruct (AVAL i); [simpl; lia|contradiction].
  - rewrite length_app. specialize (IH Hi Hv). lia.
Qed.

(** The frame without columns that [anns_to_ms] returns when it has
    projected nothing is not a valid input: the column selection fails. *)
Example get_aecg_intervals_no_columns (pypow : Q -> Q -> Q) (keep : bool) :
  get_aecg_intervals pypow NoColumns keep = Raise KeyError.
Proof. reflexivity. Qed.

(** C3, as stated, fails: a group whose only value is undefined gets no
    COUNT row and no AVERAGE row; the single beat, which has no RR, gets
    rows for PR, QRS and QT only; and an empty annotation list gives an
    empty table, with no COUNT row for any parameter. *)
Lemma undefined_group_is_omitted :
  get_interval_count_and_avg [undefined_qtcf] false = []
  /\ (exists rows,
        get_aecg_intervals cbrt_pow (Columns single_beat) false = Ok rows
        /\ map PARAMCD rows = ["PR"; "QRS"; "QT"; "PR"; "QRS"; "QT"])
  /\ get_aecg_intervals cbrt_pow (Columns []) false = Ok [].
Proof.
  split; [reflexivity|split; [|reflexivity]].
  eexists. split; vm_compute; reflexivity.
Qed.

(** C3, amended: the aggregator emits one COUNT row and one AVERAGE row
    for each (lead, HL7 lead, parameter) group that has at least one
    defined value, the count being the number of defined values (at least
    1); a group whose values are all undefined is omitted; with
    [include_all_found_intervals] the input rows come first.  For an empty
    annotation list (a frame with the annotation columns and no row) the
    engine raises nothing and returns the empty table: no interval row
    and no summary row. *)
Theorem summary_rows_of_defined_groups (anns_df : list interval) (k : group_key) :
  ((forall i, In i anns_df -> key_of i = k -> AVAL i = None) ->
   forall row, In row (get_interval_count_and_avg anns_df false) ->
               key_of row <> k)
  /\ ((exists i, In i anns_df /\ key_of i = k /\ AVAL i <> None) ->
      In (mkinterval (fst (fst k)) (snd (fst k)) None (snd k)
            (Some (count (group (filter notna anns_df) k))) "COUNT")
         (get_interval_count_and_avg anns_df false)
      /\ In (mkinterval (fst (fst k)) (snd (fst k)) None (snd k)
            (Some (mean (group (filter notna anns_df) k))) "AVERAGE")
         (get_interval_count_and_avg anns_df false)
      /\ (1 <= count (group (filter notna anns_df) k))%Q)
  /\ get_interval_count_and_avg anns_df true
     = (anns_df ++ get_interval_count_and_avg anns_df false)%list
  /\ (forall (pypow : Q -> Q -> Q) (keep : bool),
        get_aecg_intervals pypow (Columns []) keep = Ok []).
Proof.
  split; [|split; [|split]].
  - intros Hall row Hrow Hk.
    destruct (summary_In anns_df row Hrow) as (i & Hi & Hv & Hik).
    apply Hv. apply (Hall i Hi). congruence.
  - intros (i & Hi & Hk & Hv).
    assert (Hne : (0 <? List.length anns_df)%nat = true).
    { apply Nat.ltb_lt. destruct anns_df; [contradiction|simpl; lia]. }
    assert (Hvalid : In i (filter notna anns_df)).
    { apply filter_In. split; [exact Hi|].
      unfold notna. destruct (AVAL i); [reflexivity|contradiction]. }
    assert (Hkey : In k (group_keys (filter notna anns_df))).
    { apply group_keys_In. exists i. auto. }
    unfold get_interval_count_and_avg. rewrite Hne.
    split; [|split].
    + apply in_or_app. left. apply in_map_iff. exists k. auto.
    + apply in_or_app. right. apply in_map_iff. exists k. auto.
    + assert (Hg : In i (group (filter notna anns_df) k)).
      { apply filter_In. split; [exact Hvalid|]. apply key_eqb_eq. exact Hk. }
      pose proof (values_nonempty _ i Hg Hv) as Hlen.
      unfold count, Qle. simpl. lia.
  - unfold get_interval_count_and_avg.
    destruct anns_df; reflexivity.
  - intros pypow keep. reflexivity.
Qed.

Lemma summary_rows_of_defined_groups_witness :
  (forall row, In row (get_interval_count_and_avg [undefined_qtcf] false) ->
               key_of row <> ("II", "MDC_ECG_LEAD_II", "QTCF"))
  /\ In (mkinterval "II" "MDC_ECG_LEAD_II" None "QT"
           (Some (count (group (filter notna [II_interval (380 # 1) "QT" (240 # 1)])
                               ("II", "MDC_ECG_LEAD_II", "QT")))) "COUNT")
        (get_interval_count_and_avg [II_interval (380 # 1) "QT" (240 # 1)] false).
Proof.
  split.
  - apply (proj1 (summary_rows_of_defined_groups
                    [undefined_qtcf] ("II", "MDC_ECG_LEAD_II", "QTCF"))).
    intros i [<-|[]] _. reflexivity.
  - apply (proj1 (proj2 (summary_rows_of_defined_groups
                    [II_interval (380 # 1) "QT" (240 # 1)]
                    ("II", "MDC_ECG_LEAD_II", "QT")))).
    exists (II_interval (380 # 1) "QT" (240 # 1)).
    split; [left; reflexivity|]. split; [reflexivity|discriminate].
Defined.

(** * Further properties *)

Import Waveform MoreSamples.

(** ** Unit conversion and waveform samples *)

Lemma lead_values_mv_origin_uV_witness :
  lead_values_mv lead_II_uV = Ok [1 # 4; (-1) # 10; 1 # 50]%Q.
Proof.
  exact (lead_values_mv_origin_uV lead_II_uV e_3 eq_refl eq_refl).
Defined.

(** X2: [lead_values_mv] returns values exactly when the origin unit is
    ["uV"] and the scale unit is one of the four it knows; any other
    origin unit gives [AttributeError], whatever the scale unit, and an
    unknown scale unit after a ["uV"] origin gives [UnknownUnitsError]. *)
Theorem lead_values_mv_outcome (l : AecgLead) :
  (is_ok (lead_values_mv l) = true <->
   origin_unit l = "uV" /\ mv_factor (scale_unit l) <> None)
  /\ (origin_unit l <> "uV" -> lead_values_mv l = Raise AttributeError)
  /\ (origin_unit l = "uV" -> mv_factor (scale_unit l) = None ->
      lead_values_mv l = Raise UnknownUnitsError).
Proof.
  split; [|split].
  - destruct (String.eqb_spec (origin_unit l) "uV") as [Ho|Ho].
    + destruct (mv_factor (scale_unit l)) as [f|] eqn:Hf.
      * rewrite (lead_values_mv_origin_uV l f Ho Hf). simpl.
        split; [intros _; split; [exact Ho|discriminate]|reflexivity].
      * rewrite (lead_values_mv_unknown_scale l Ho Hf). simpl.
        split; [discriminate|intros [_ H]; contradiction].
    + rewrite (lead_values_mv_origin_not_uV l Ho). simpl.
      split; [discriminate|intros [H _]; contradiction].
  - apply lead_values_mv_origin_not_uV.
  - apply lead_values_mv_unknown_scale.
Qed.

Lemma lead_values_mv_outcome_witness :
  is_ok (lead_values_mv lead_II_uV) = true
  /\ lead_values_mv lead_II_V = Raise AttributeError
  /\ lead_values_mv lead_II_furlongs = Raise UnknownUnitsError.
Proof.
  split; [|split].
  - apply (proj2 (proj1 (lead_values_mv_outcome lead_II_uV))).
    split; [reflexivity|discriminate].
  - apply (proj1 (proj2 (lead_values_mv_outcome lead_II_V))). discriminate.
  - apply (proj2 (proj2 (lead_values_mv_outcome lead_II_furlongs)));
      reflexivity.
Defined.



Lemma samples_from_nth (name : string) (increment offset : Q) (values : list Q) :
  forall (k0 : Z) (k : nat),
  nth_error (samples_from k0 name increment offset values) k
  = option_map
      (fun v => mksample v name
                  (fadd (fmul (inject_Z (k0 + Z.of_nat k)) increment) offset))
      (nth_error values k).
Proof.
  induction values as [|v values IH]; intros k0 k.
  - destruct k; reflexivity.
  - destruct k as [|k]; simpl.
    + rewrite Z.add_0_r. reflexivity.
    + rewrite IH. replace (k0 + 1 + Z.of_nat k) with (k0 + Z.pos (Pos.of_succ_nat k))
        by lia. reflexivity.
Qed.

Lemma samples_from_time (name : string) (increment offset : Q)
    (values : list Q) (k : nat) (r : sample) :
  nth_error (samples_from 0 name increment offset values) k = Some r ->
  (s_TIME r == inject_Z (Z.of_nat k) * increment + offset)%Q.
Proof.
  rewrite samples_from_nth. destruct (nth_error values k); [|discriminate].
  intros H. injection H as <-. cbn [s_TIME].
  unfold fadd, fmul. rewrite !Qred_correct, ?Z.add_0_l. reflexivity.
Qed.

Lemma samples_from_length (name : string) (increment offset : Q) (values : list Q) :
  forall k0 : Z,
  List.length (samples_from k0 name increment offset values)
  = List.length values.
Proof.
  induction values as [|v values IH]; intros k0; simpl; [reflexivity|].
  rewrite IH. reflexivity.
Qed.

Lemma lead_values_mv_length (l : AecgLead) (values : list Q) :
  lead_values_mv l = Ok values ->
  List.length values = List.length (digits l).
Proof.
  unfold lead_values_mv. intros H.
  apply bind_Ok in H as (o & _ & H). apply bind_Ok in H as (sc & _ & H).
  inversion H. apply length_map.
Qed.

Lemma fromisoformat_raises (s : string) (e : exn) :
  fromisoformat s = Raise e -> e = ValueError.
Proof.
  unfold fromisoformat.
  destruct (parse_isoformat_date s) as [[[y m] d]|]; [|congruence].
  match goal with
  | |- context [match ?x with Some _ => _ | None => _ end] => destruct x
  end; [|congruence].
  match goal with
  | |- context [if ?c then _ else _] => destruct c
  end; congruence.
Qed.

(** [parse_hl7_datetime] raises nothing but [ValueError]. *)
Lemma parse_hl7_datetime_raises (s : string) (e : exn) :
  parse_hl7_datetime s = Raise e -> e = ValueError.
Proof.
  unfold parse_hl7_datetime, split.
  assert (N : forall cur t, split_aux "." cur t <> []).
  { intros cur t. revert cur. induction t as [|c t IH]; intros cur; simpl.
    - discriminate.
    - destruct (Ascii.eqb c "."); [discriminate|apply IH]. }
  destruct (split_aux "." "" s) as [|a [|b rest]] eqn:E;
    [exfalso; exact (N _ _ E)| |]; cbn [index nth_error bind List.length Nat.ltb Nat.leb];
    apply fromisoformat_raises.
Qed.

Section WaveformFacts.

Variable pyfloat : string -> option Q.

(** X4: when [lead_mv_per_ms] returns, there is one sample per digit, all
    under the display name of the lead, and consecutive samples are one
    increment apart, the increment being converted to milliseconds by
    its unit (a thousandth for [us], a thousand for [s], one for [ms]). *)
Theorem lead_mv_per_ms_spacing (start_time : datetime) (l : ecg_lead)
    (rows : list sample) :
  lead_mv_per_ms pyfloat start_time l = Ok rows ->
  List.length rows = List.length (digits (base l))
  /\ (forall r, In r rows -> display_name (base l) = Ok (s_LEADNAM r))
  /\ exists tf,
       timefactor (LEADTIME_unit l) = Ok tf
       /\ forall k r1 r2,
            nth_error rows k = Some r1 -> nth_error rows (S k) = Some r2 ->
            (s_TIME r2 - s_TIME r1 == LEADTIME_increment l * tf)%Q.
Proof.
  unfold lead_mv_per_ms. intros H.
  apply bind_Ok in H as (values & Hv & H).
  apply bind_Ok in H as (name & Hn & H).
  apply bind_Ok in H as (tf & Htf & H).
  apply bind_Ok in H as (offset & Ho & H).
  inversion H; subst rows; clear H.
  split; [|split].
  - rewrite samples_from_length. apply lead_values_mv_length. exact Hv.
  - intros r Hr. apply In_nth_error in Hr as (k & Hk).
    rewrite samples_from_nth in Hk.
    destruct (nth_error values k); [|discriminate Hk].
    inversion Hk. exact Hn.
  - exists tf. split; [exact Htf|].
    intros k r1 r2 H1 H2.
    apply samples_from_time in H1, H2. rewrite H1, H2.
    unfold fmul. rewrite !Qred_correct.
    rewrite Nat2Z.inj_succ. unfold Z.succ. rewrite inject_Z_plus.
    change (inject_Z 1) with 1%Q. ring.
Qed.

(** X5: for a time code other than [TIME_ABSOLUTE], a head that is no
    HL7 time stamp is read as a number in the unit of the lead: sample
    [k] is at [k * increment * factor + head * factor] milliseconds.  A
    head that is no number either raises [ValueError]; so does, without
    the second reading, a head that does not parse under
    [TIME_ABSOLUTE]. *)
Theorem lead_mv_per_ms_head (start_time : datetime) (l : ecg_lead)
    (values : list Q) (name : string) (tf : Q) (e : exn) :
  lead_values_mv (base l) = Ok values ->
  display_name (base l) = Ok name ->
  timefactor (LEADTIME_unit l) = Ok tf ->
  parse_hl7_datetime (LEADTIME_head l) = Raise e ->
  (LEADTIME_code l = "TIME_ABSOLUTE" ->
   lead_mv_per_ms pyfloat start_time l = Raise ValueError)
  /\ (LEADTIME_code l <> "TIME_ABSOLUTE" ->
      match pyfloat (LEADTIME_head l) with
      | Some x =>
          lead_mv_per_ms pyfloat start_time l
          = Ok (samples_from 0 name (fmul (LEADTIME_increment l) tf)
                             (fmul x tf) values)
      | None => lead_mv_per_ms pyfloat start_time l = Raise ValueError
      end).
Proof.
  intros Hv Hn Htf Hp.
  assert (He : e = ValueError) by exact (parse_hl7_datetime_raises _ _ Hp).
  subst e. unfold lead_mv_per_ms. rewrite Hv, Hn, Htf. simpl.
  unfold head_offset. rewrite Hp. simpl. split.
  - intros Hc. rewrite Hc. reflexivity.
  - intros Hc. destruct (String.eqb_spec (LEADTIME_code l) "TIME_ABSOLUTE");
      [contradiction|]. simpl. unfold float.
    destruct (pyfloat (LEADTIME_head l)); reflexivity.
Qed.

End WaveformFacts.

Lemma lead_mv_per_ms_spacing_witness :
  exists rows r1 r2,
    lead_mv_per_ms decimal_float start_091000 timed_II_absolute = Ok rows
    /\ nth_error rows 1 = Some r1 /\ nth_error rows 2 = Some r2
    /\ (s_TIME r2 - s_TIME r1 == (2000 # 1) * e_3)%Q.
Proof.
  destruct (lead_mv_per_ms decimal_float start_091000 timed_II_absolute)
    as [rows|] eqn:E; [|vm_compute in E; discriminate E].
  destruct (lead_mv_per_ms_spacing decimal_float _ _ rows E)
    as (_ & _ & tf & Htf & Hk).
  assert (Hrows : rows = samples_from 0 "II" (2 # 1) (1000 # 1)
                                      [1 # 4; (-1) # 10; 1 # 50]%Q).
  { vm_compute in E. inversion E. reflexivity. }
  exists rows, (mksample ((-1) # 10) "II" (1002 # 1)),
         (mksample (1 # 50) "II" (1004 # 1)).
  split; [reflexivity|].
  assert (H1 : nth_error rows 1 = Some (mksample ((-1) # 10) "II" (1002 # 1)))
    by (rewrite Hrows; reflexivity).
  assert (H2 : nth_error rows 2 = Some (mksample (1 # 50) "II" (1004 # 1)))
    by (rewrite Hrows; reflexivity).
  split; [exact H1|split; [exact H2|]].
  inversion Htf; subst tf. exact (Hk 1%nat _ _ H1 H2).
Defined.

Lemma lead_mv_per_ms_head_witness :
  lead_mv_per_ms decimal_float start_091000 timed_II_relative
  = Ok (samples_from 0 "II" (fmul (2000 # 1) e_3) (fmul (1 # 2) e_3)
                     [1 # 4; (-1) # 10; 1 # 50]%Q)
  /\ lead_mv_per_ms decimal_float start_091000 timed_II_text
     = Raise ValueError.
Proof.
  split.
  - exact (proj2 (lead_mv_per_ms_head decimal_float start_091000
             timed_II_relative _ "II" e_3 ValueError
             eq_refl eq_refl eq_refl eq_refl)
           ltac:(discriminate)).
  - exact (proj2 (lead_mv_per_ms_head decimal_float start_091000
             timed_II_text [1 # 4; (-1) # 10; 1 # 50]%Q "II" e_3 ValueError
             eq_refl eq_refl eq_refl eq_refl)
           ltac:(discriminate)).
Defined.

(** ** The age of the subject *)

Import Subject Calendar.

Lemma fromisoformat_valid (s : string) (d : datetime) :
  fromisoformat s = Ok d -> valid d = true.
Proof.
  unfold fromisoformat.
  destruct (parse_isoformat_date s) as [[[y m] dd]|]; [|discriminate].
  match goal with
  | |- context [match ?x with Some _ => _ | None => _ end] => destruct x
  end; [|discriminate].
  match goal with
  | |- context [if ?c then _ else _] => destruct c eqn:V
  end; [|discriminate].
  intros H. inversion H; subst. exact V.
Qed.

(** A time stamp that parses is a date and a time of the calendar. *)
Lemma parse_hl7_datetime_valid (s : string) (d : datetime) :
  parse_hl7_datetime s = Ok d -> valid d = true.
Proof.
  unfold parse_hl7_datetime. intros H.
  apply bind_Ok in H as (a & _ & H). apply bind_Ok in H as (b & _ & H).
  exact (fromisoformat_valid _ _ H).
Qed.

Lemma valid_bounds (d : datetime) :
  valid d = true ->
  1 <= month d <= 12 /\ 1 <= day d <= days_in_month (year d) (month d)
  /\ 1 <= year d <= 9999
  /\ 0 <= hour d <= 23 /\ 0 <= minute d <= 59 /\ 0 <= second d <= 59
  /\ 0 <= microsecond d <= 999999.
Proof.
  unfold valid. rewrite !andb_true_iff, !Z.leb_le. tauto.
Qed.

Lemma month_cases (m : Z) :
  1 <= m <= 12 ->
  m = 1 \/ m = 2 \/ m = 3 \/ m = 4 \/ m = 5 \/ m = 6 \/ m = 7 \/ m = 8
  \/ m = 9 \/ m = 10 \/ m = 11 \/ m = 12.
Proof. lia. Qed.

Lemma days_before_month_table (y m : Z) :
  1 <= m <= 12 ->
  days_before_month y m = cumulative_days m + leap_add y m.
Proof.
  intros H. apply month_cases in H.
  unfold days_before_month, days_in_month, leap_add, cumulative_days.
  repeat (destruct H as [H|H]; [subst m; simpl; destruct (is_leap y); reflexivity|]).
  subst m; simpl; destruct (is_leap y); reflexivity.
Qed.

Lemma days_in_month_table (y m : Z) :
  1 <= m <= 12 ->
  days_in_month y m
  = nth (Z.to_nat (m - 1)) [31; 28; 31; 30; 31; 30; 31; 31; 30; 31; 30; 31] 0
    + (if (m =? 2) && is_leap y then 1 else 0).
Proof.
  intros H. apply month_cases in H. unfold days_in_month.
  repeat (destruct H as [H|H]; [subst m; simpl; destruct (is_leap y); reflexivity|]).
  subst m; simpl; destruct (is_leap y); reflexivity.
Qed.

(** Within a year, the ordinal orders dates as month and day do. *)
Lemma ymd2ord_lt (y m1 d1 m2 d2 : Z) :
  1 <= m1 <= 12 -> 1 <= d1 <= days_in_month y m1 ->
  1 <= m2 <= 12 -> 1 <= d2 <= days_in_month y m2 ->
  (ymd2ord y m1 d1 < ymd2ord y m2 d2 <->
   m1 < m2 \/ (m1 = m2 /\ d1 < d2)).
Proof.
  intros Hm1 Hd1 Hm2 Hd2. unfold ymd2ord.
  rewrite (days_before_month_table y m1 Hm1), (days_before_month_table y m2 Hm2).
  rewrite (days_in_month_table y m1 Hm1) in Hd1.
  rewrite (days_in_month_table y m2 Hm2) in Hd2.
  unfold leap_add, cumulative_days in *.
  apply month_cases in Hm1, Hm2.
  destruct (is_leap y);
    repeat (destruct Hm1 as [Hm1|Hm1]; [subst m1|]); try subst m1;
    repeat (destruct Hm2 as [Hm2|Hm2]; [subst m2|]); try subst m2;
    simpl in *; lia.
Qed.

Lemma dt_ltb_midnight (e a : datetime) :
  valid e = true -> valid a = true ->
  year a = year e -> hour a = 0 -> minute a = 0 -> second a = 0 ->
  microsecond a = 0 ->
  (dt_ltb e a = true <->
   month e < month a \/ (month e = month a /\ day e < day a)).
Proof.
  intros Ve Va Hy Hh Hmi Hs Hus.
  apply valid_bounds in Ve, Va.
  destruct Ve as (Em & Ed & _ & Eh & Emi & Es & Eus).
  destruct Va as (Am & Ad & _).
  rewrite Hy in Ad.
  rewrite <- (ymd2ord_lt (year e) (month e) (day e) (month a) (day a)
                Em Ed Am Ad).
  unfold dt_ltb, to_us. rewrite Z.ltb_lt, Hy, Hh, Hmi, Hs, Hus.
  generalize (ymd2ord (year e) (month e) (day e)).
  generalize (ymd2ord (year e) (month a) (day a)). intros oa oe. lia.
Qed.

(** X6: without a birth time, without any collection time, or when one of
    the two is no HL7 time stamp, the age is -1. *)
Theorem subject_age_unknown (a : subject) :
  BIRTHTIME a = "" \/ first_egdtc a = ""
  \/ is_ok (parse_hl7_datetime (BIRTHTIME a)) = false
  \/ is_ok (parse_hl7_datetime (first_egdtc a)) = false ->
  subject_age_in_years a = -1.
Proof.
  unfold subject_age_in_years, age_body.
  intros [H|[H|[H|H]]].
  - rewrite H. rewrite andb_false_r. reflexivity.
  - rewrite H. reflexivity.
  - destruct (_ && _); [|reflexivity].
    destruct (parse_hl7_datetime (BIRTHTIME a)); [discriminate H|reflexivity].
  - destruct (_ && _); [|reflexivity].
    destruct (parse_hl7_datetime (BIRTHTIME a)); [|reflexivity]. simpl.
    destruct (parse_hl7_datetime (first_egdtc a)); [discriminate H|reflexivity].
Qed.

Lemma subject_age_unknown_witness :
  subject_age_in_years subject_no_birthtime = -1.
Proof.
  apply subject_age_unknown. left. reflexivity.
Defined.

(** X7: for a subject born on February 29 the anniversary does not exist
    in a year that is no leap year: the age of every ECG collected in
    such a year is -1. *)
Theorem subject_age_leap_day (a : subject) (bd ecgd : datetime) :
  parse_hl7_datetime (BIRTHTIME a) = Ok bd ->
  parse_hl7_datetime (first_egdtc a) = Ok ecgd ->
  month bd = 2 -> day bd = 29 ->
  is_leap (year ecgd) = false ->
  subject_age_in_years a = -1.
Proof.
  intros Hb He Hm Hd Hl. unfold subject_age_in_years, age_body.
  destruct (_ && _); [|reflexivity].
  rewrite Hb, He. simpl. unfold mkdate, valid. simpl.
  rewrite Hm, Hd. unfold days_in_month. simpl. rewrite Hl. simpl.
  rewrite !andb_false_r. reflexivity.
Qed.

Lemma subject_age_leap_day_witness :
  subject_age_in_years subject_leap_day = -1.
Proof.
  apply (subject_age_leap_day subject_leap_day
           (mkdatetime 1960 2 29 0 0 0 0) (mkdatetime 2002 11 22 9 10 0 0));
    reflexivity.
Defined.

(** X8: otherwise the age is the number of birthdays passed, decided by
    the calendar date alone: the difference of the years, less one when
    the month and day of the collection come before those of the birth
    (the time of day of either does not matter). *)
Theorem subject_age_full_years (a : subject) (bd ecgd : datetime) :
  BIRTHTIME a <> "" -> first_egdtc a <> "" ->
  parse_hl7_datetime (BIRTHTIME a) = Ok bd ->
  parse_hl7_datetime (first_egdtc a) = Ok ecgd ->
  (month bd = 2 /\ day bd = 29 -> is_leap (year ecgd) = true) ->
  subject_age_in_years a =
  year ecgd - year bd
  - (if (month ecgd <? month bd)
        || ((month ecgd =? month bd) && (day ecgd <? day bd))
     then 1 else 0).
Proof.
  intros Nb Ne Hb He Hleap.
  pose proof (parse_hl7_datetime_valid _ _ Hb) as Vb.
  pose proof (parse_hl7_datetime_valid _ _ He) as Ve.
  assert (Va : valid (mkdatetime (year ecgd) (month bd) (day bd) 0 0 0 0) = true).
  { pose proof (valid_bounds _ Vb) as (Bm & Bd & _).
    pose proof (valid_bounds _ Ve) as (_ & _ & Ey & _).
    unfold valid. cbn [year month day hour minute second microsecond].
    rewrite !andb_true_iff, !Z.leb_le.
    assert (day bd <= days_in_month (year ecgd) (month bd)).
    { rewrite (days_in_month_table _ _ Bm) in Bd.
      rewrite (days_in_month_table _ _ Bm).
      pose proof (month_cases _ Bm) as C.
      destruct (Z.eq_dec (month bd) 2) as [M2|M2].
      - rewrite M2 in *. simpl in *.
        destruct (Z.eq_dec (day bd) 29) as [D29|D29].
        + rewrite (Hleap (conj eq_refl D29)). lia.
        + destruct (is_leap (year bd)), (is_leap (year ecgd)); lia.
      - replace (month bd =? 2) with false in * by (symmetry; apply Z.eqb_neq; exact M2).
        simpl in *. lia. }
    lia. }
  unfold subject_age_in_years, age_body.
  destruct (String.eqb_spec (first_egdtc a) ""); [contradiction|].
  destruct (String.eqb_spec (BIRTHTIME a) ""); [contradiction|].
  simpl. rewrite Hb, He. simpl. unfold mkdate. rewrite Va. simpl.
  pose proof (dt_ltb_midnight ecgd _ Ve Va eq_refl eq_refl eq_refl eq_refl eq_refl)
    as L.
  cbn [month day] in L.
  destruct (dt_ltb ecgd _) eqn:E.
  - destruct (proj1 L eq_refl) as [H|[H1 H2]].
    + rewrite (proj2 (Z.ltb_lt _ _) H). reflexivity.
    + rewrite (proj2 (Z.eqb_eq _ _) H1), (proj2 (Z.ltb_lt _ _) H2).
      rewrite orb_true_r. reflexivity.
  - destruct (month ecgd <? month bd) eqn:M.
    + apply Z.ltb_lt in M. pose proof (proj2 L (or_introl M)) as F.
      congruence.
    + destruct ((month ecgd =? month bd) && (day ecgd <? day bd)) eqn:D.
      * apply andb_true_iff in D as [D1 D2].
        apply Z.eqb_eq in D1. apply Z.ltb_lt in D2.
        pose proof (proj2 L (or_intror (conj D1 D2))) as F. congruence.
      * simpl. lia.
Qed.

Lemma subject_age_full_years_witness :
  subject_age_in_years subject_march = 42.
Proof.
  apply (subject_age_full_years subject_march
           (mkdatetime 1960 3 15 0 0 0 0) (mkdatetime 2002 11 22 9 10 0 0)).
  - discriminate.
  - discriminate.
  - reflexivity.
  - reflexivity.
  - intros [H _]. discriminate H.
Defined.

(** ** The projector: where rows come from and how it fails *)

Import AnnotationSets Statements.

Section ProjectorRows.

Variable pyfloat : string -> option Q.

Lemma param_step_ok (start_time leadnam : string) (ann : annotation)
    (res res' : list lead_ann) (p : param) :
  param_step pyfloat start_time leadnam ann res p = Ok res' ->
  (slot ann p = "" /\ res' = res)
  \/ (slot ann p <> "" /\ exists row,
        make_lead_ann pyfloat start_time leadnam ann p = Ok row
        /\ res' = sort_by key_le (res ++ [row])).
Proof.
  unfold param_step. destruct (String.eqb_spec (slot ann p) "") as [E|E]; simpl.
  - intros H. inversion H. left. auto.
  - intros H. apply bind_Ok in H as (row & Hrow & H). inversion H.
    right. split; [exact E|]. exists row. auto.
Qed.

Lemma nonempty_slots_length (ann : annotation) :
  List.length (nonempty_slots ann)
  = ((if String.eqb (slot ann Pvalue) "" then 0 else 1)
     + ((if String.eqb (slot ann Plow) "" then 0 else 1)
        + (if String.eqb (slot ann Phigh) "" then 0 else 1)))%nat.
Proof.
  unfold nonempty_slots. simpl.
  destruct (String.eqb (value ann) ""), (String.eqb (low ann) ""),
    (String.eqb (high ann) ""); reflexivity.
Qed.

Lemma nonempty_slots_In (ann : annotation) (p : param) :
  In p (nonempty_slots ann) <-> slot ann p <> "".
Proof.
  unfold nonempty_slots. rewrite filter_In, negb_true_iff.
  split.
  - intros [_ H]. apply String.eqb_neq. exact H.
  - intros H. split; [destruct p; simpl; tauto|apply String.eqb_neq; exact H].
Qed.

(** One step of the loop: the rows it adds are rows of the annotation,
    one for each slot that is not empty. *)
Lemma ann_step_rows (lst : list lead_start) (s s' : string)
    (res res' : list lead_ann) (ann : annotation) :
  ann_step pyfloat lst (s, res) ann = Ok (s', res') ->
  List.length res' = (List.length res + List.length (nonempty_slots ann))%nat
  /\ forall r, In r res' -> In r res \/ row_of pyfloat [ann] r.
Proof.
  unfold ann_step. intros H.
  apply bind_Ok in H as (ln & Hln & H).
  apply bind_Ok in H as (r1 & H1 & H).
  apply bind_Ok in H as (r2 & H2 & H).
  apply bind_Ok in H as (r3 & H3 & H).
  inversion H; subst s' res'; clear H.
  rewrite nonempty_slots_length.
  assert (step : forall p ra rb,
            param_step pyfloat (next_start_time lst s ann) ln ann ra p = Ok rb ->
            List.length rb
            = (List.length ra + (if String.eqb (slot ann p) "" then 0 else 1))%nat
            /\ forall r, In r rb -> In r ra \/ row_of pyfloat [ann] r).
  { intros p ra rb Hp. apply param_step_ok in Hp as [[E ->]|[E (row & Hrow & ->)]].
    - rewrite E. simpl. split; [lia|auto].
    - destruct (String.eqb_spec (slot ann p) ""); [contradiction|].
      rewrite sort_by_length, length_app. simpl. split; [lia|].
      intros r Hr. apply sort_by_In in Hr. apply in_app_or in Hr as [Hr|[<-|[]]].
      + left; exact Hr.
      + right. exists ann, p, (next_start_time lst s ann), ln.
        split; [left; reflexivity|]. split; [apply nonempty_slots_In; exact n|].
        split; assumption. }
  destruct (step _ _ _ H1) as [L1 I1].
  destruct (step _ _ _ H2) as [L2 I2].
  destruct (step _ _ _ H3) as [L3 I3].
  split; [lia|].
  intros r Hr. destruct (I3 r Hr) as [Hr2|?]; [|auto].
  destruct (I2 r Hr2) as [Hr1|?]; [|auto]. exact (I1 r Hr1).
Qed.

Lemma row_of_incl (anns anns' : list annotation) (r : lead_ann) :
  incl anns anns' -> row_of pyfloat anns r -> row_of pyfloat anns' r.
Proof.
  intros Hi (ann & p & st & ln & Ha & Hrest).
  exists ann, p, st, ln. split; [apply Hi; exact Ha|exact Hrest].
Qed.

Lemma ann_loop_rows (lst : list lead_start) (anns : list annotation) :
  forall (s s' : string) (res res' : list lead_ann),
  ann_loop pyfloat lst (s, res) anns = Ok (s', res') ->
  List.length res' = (List.length res + boundaries anns)%nat
  /\ forall r, In r res' -> In r res \/ row_of pyfloat anns r.
Proof.
  induction anns as [|ann anns IH]; intros s s' res res' H; simpl in H.
  - inversion H; subst. simpl. split; [lia|auto].
  - apply bind_Ok in H as ([s1 res1] & Hstep & H).
    destruct (ann_step_rows _ _ _ _ _ _ Hstep) as [L1 I1].
    destruct (IH _ _ _ _ H) as [L2 I2].
    split; [simpl; lia|].
    intros r Hr. destruct (I2 r Hr) as [Hr1|Hr1].
    + destruct (I1 r Hr1) as [?|Hrow]; [auto|].
      right. apply (row_of_incl [ann]); [|exact Hrow].
      intros x [<-|[]]. left; reflexivity.
    + right. apply (row_of_incl anns); [|exact Hr1].
      intros x Hx. right; exact Hx.
Qed.

Lemma anns_to_ms_row_of (start_time : string) (lst : list lead_start)
    (anns : list annotation) (rows : list lead_ann) :
  anns_to_ms pyfloat start_time lst anns = Ok rows ->
  forall r, In r rows -> row_of pyfloat anns r.
Proof.
  unfold anns_to_ms. intros H.
  apply bind_Ok in H as ([s' res'] & Hloop & H). inversion H; subst rows; clear H.
  destruct (ann_loop_rows _ _ _ _ _ _ Hloop) as [L I]. simpl in L |- *.
  intros r Hr. apply filter_In in Hr as [Hr _].
  destruct (I r Hr) as [[]|Hrow]. exact Hrow.
Qed.


Lemma bind_Raise_inv {A B : Type} (m : result A) (k : A -> result B) (e : exn) :
  bind m k = Raise e -> m = Raise e \/ exists a, m = Ok a /\ k a = Raise e.
Proof.
  destruct m; simpl; intros H; [right; eauto|left; congruence].
Qed.

Lemma ecglibanntype_raises (ann : annotation) (p : param) (e : exn) :
  ecglibanntype ann p = Raise e -> e = IndexError.
Proof.
  unfold ecglibanntype, fallback_label, index.
  repeat match goal with
         | |- context [if ?c then _ else _] => destruct c
         end; try discriminate.
  destruct (nth_error _ 3); simpl; congruence.
Qed.

Lemma relative_time_raises (ann : annotation) (p : param) (e : exn) :
  relative_time pyfloat ann p = Raise e -> e = ValueError.
Proof.
  unfold relative_time, float.
  repeat match goal with
         | |- context [if ?c then _ else _] => destruct c
         end; try discriminate;
    destruct (pyfloat (slot ann p)); simpl; congruence.
Qed.

(** Under the two time codes of the standard every failure of the
    absolute reading is caught, so that only the relative reading raises. *)
Lemma project_time_raises (s : string) (ann : annotation) (p : param) (e : exn) :
  timecode ann = "TIME_ABSOLUTE" \/ timecode ann = "TIME_RELATIVE" ->
  project_time pyfloat s ann p = Raise e -> e = ValueError.
Proof.
  unfold project_time. intros [E|E]; rewrite E; simpl.
  - destruct (absolute_time s ann p); simpl; [discriminate|].
    apply relative_time_raises.
  - apply relative_time_raises.
Qed.

Lemma leadnam_of_raises (ann : annotation) (e : exn) :
  leadnam_of ann = Raise e -> e = KeyError.
Proof.
  unfold leadnam_of.
  destruct (negb _); [|discriminate].
  destruct (mem _ _); [|discriminate].
  generalize (upper (lead ann)). intros k.
  induction STD_LEADS_DISPLAYNAMES as [|[k' v] d IH]; simpl.
  - congruence.
  - destruct (String.eqb k k'); [discriminate|exact IH].
Qed.

Lemma param_step_raises_exn (s ln : string) (ann : annotation)
    (res : list lead_ann) (p : param) (e : exn) :
  timecode ann = "TIME_ABSOLUTE" \/ timecode ann = "TIME_RELATIVE" ->
  param_step pyfloat s ln ann res p = Raise e -> projector_exn e.
Proof.
  unfold param_step, make_lead_ann. intros Hc.
  destruct (negb _); [|discriminate]. intros H.
  apply bind_Raise_inv in H as [H|(row & _ & H)]; [|discriminate H].
  apply bind_Raise_inv in H as [H|(lab & _ & H)].
  - right; left. exact (ecglibanntype_raises _ _ _ H).
  - apply bind_Raise_inv in H as [H|(t & _ & H)]; [|discriminate H].
    left. exact (project_time_raises _ _ _ _ Hc H).
Qed.

Lemma ann_step_raises_exn (lst : list lead_start) (st : string * list lead_ann)
    (ann : annotation) (e : exn) :
  timecode ann = "TIME_ABSOLUTE" \/ timecode ann = "TIME_RELATIVE" ->
  ann_step pyfloat lst st ann = Raise e -> projector_exn e.
Proof.
  destruct st as [s res]. unfold ann_step. intros Hc H.
  apply bind_Raise_inv in H as [H|(ln & _ & H)].
  { right; right. exact (leadnam_of_raises _ _ H). }
  apply bind_Raise_inv in H as [H|(r1 & _ & H)];
    [exact (param_step_raises_exn _ _ _ _ _ _ Hc H)|].
  apply bind_Raise_inv in H as [H|(r2 & _ & H)];
    [exact (param_step_raises_exn _ _ _ _ _ _ Hc H)|].
  apply bind_Raise_inv in H as [H|(r3 & _ & H)];
    [exact (param_step_raises_exn _ _ _ _ _ _ Hc H)|discriminate H].
Qed.

(** X10: when every annotation is tagged [TIME_ABSOLUTE] or
    [TIME_RELATIVE], [anns_to_ms] raises nothing but [ValueError] (a
    value that is read as a number and is none), [IndexError] (a code with
    fewer than four tokens in the fallback) and [KeyError] (a standard
    lead without a display name); in particular an unknown time unit is
    never reported as [UnknownUnitsError].  Under these two codes no
    failure of the reading of a time stamp leaves the projector: it is
    caught and the value is read as a number.  The branch of any other
    time code is not guarded and is left out of the statement. *)
Theorem anns_to_ms_exceptions (start_time : string) (lst : list lead_start)
    (anns : list annotation) (e : exn) :
  (forall a, In a anns ->
     timecode a = "TIME_ABSOLUTE" \/ timecode a = "TIME_RELATIVE") ->
  anns_to_ms pyfloat start_time lst anns = Raise e ->
  (e = ValueError \/ e = IndexError \/ e = KeyError)
  /\ e <> UnknownUnitsError /\ e <> AttributeError.
Proof.
  intros Hc H.
  assert (P : projector_exn e).
  { unfold anns_to_ms in H.
    apply bind_Raise_inv in H as [H|(st & _ & H)]; [|discriminate H].
    generalize dependent (start_time, @nil lead_ann).
    induction anns as [|ann anns IH]; intros st H; simpl in H; [discriminate H|].
    apply bind_Raise_inv in H as [H|(st1 & _ & H)].
    - exact (ann_step_raises_exn _ _ _ _ (Hc ann (or_introl eq_refl)) H).
    - exact (IH (fun x Hx => Hc x (or_intror Hx)) _ H). }
  split; [exact P|].
  destruct P as [E|[E|E]]; subst e; split; discriminate.
Qed.

(** X11: an annotation on [MDC_ECG_LEAD_X], [MDC_ECG_LEAD_Y] or
    [MDC_ECG_LEAD_Z] makes the projection of the whole list fail with
    [KeyError], once the annotations before it have been projected. *)
Theorem anns_to_ms_lead_without_display_name (start_time : string)
    (lst : list lead_start) (pre post : list annotation) (ann : annotation)
    (st : string * list lead_ann) :
  ann_loop pyfloat lst (start_time, []) pre = Ok st ->
  In (lead ann) ["MDC_ECG_LEAD_X"; "MDC_ECG_LEAD_Y"; "MDC_ECG_LEAD_Z"] ->
  anns_to_ms pyfloat start_time lst (pre ++ ann :: post)%list = Raise KeyError.
Proof.
  intros Hpre Hl. unfold anns_to_ms. rewrite ann_loop_app, Hpre. simpl.
  assert (E : leadnam_of ann = Raise KeyError).
  { unfold leadnam_of.
    destruct Hl as [<-|[<-|[<-|[]]]]; vm_compute; reflexivity. }
  destruct st as [s res]. unfold ann_step. rewrite E. reflexivity.
Qed.

End ProjectorRows.


Lemma anns_to_ms_exceptions_witness :
  exists e,
    anns_to_ms decimal_float "20021122091000" []
               [mislabelled_text; relative_qrs] = Raise e
    /\ (e = ValueError \/ e = IndexError \/ e = KeyError)
    /\ e <> UnknownUnitsError.
Proof.
  exists ValueError. split; [reflexivity|].
  destruct (anns_to_ms_exceptions decimal_float "20021122091000" []
              [mislabelled_text; relative_qrs] ValueError) as (P & N & _).
  - intros a [<-|[<-|[]]]; [left|right]; reflexivity.
  - reflexivity.
  - split; [exact P|exact N].
Defined.

Lemma anns_to_ms_lead_without_display_name_witness :
  anns_to_ms decimal_float "20021122091000" []
             [relative_qrs; lead_X_pwave; p_wave_ann] = Raise KeyError.
Proof.
  apply (anns_to_ms_lead_without_display_name decimal_float "20021122091000"
           [] [relative_qrs] [p_wave_ann] lead_X_pwave
           ("20021122091000",
            [mklead_ann 1 (Some 0) "II" "QON" "MDC_ECG_WAVC_QRSWAVE"
                        (Some (140 # 1)%Q) "MDC_ECG_LEAD_II";
             mklead_ann 1 (Some 0) "II" "QOFF" "MDC_ECG_WAVC_QRSWAVE"
                        (Some (180 # 1)%Q) "MDC_ECG_LEAD_II"])).
  - reflexivity.
  - left. reflexivity.
Defined.

Section AnnotationSetFacts.

Variable pyfloat : string -> option Q.

(** X12: [rhythm_anns_in_ms] and [derived_anns_in_ms] return nothing
    when there is no annotation set, raise [KeyError] when the first set
    has no annotation, and otherwise return only rows of annotations of
    the first set whose wave component contains [MDC_ECG_WAVC]; later
    sets are never read. *)
Theorem anns_in_ms_first_set (w : waveform_anns) :
  (ANNS w = [] -> anns_in_ms pyfloat w = Ok [])
  /\ (forall rest, ANNS w = [] :: rest -> anns_in_ms pyfloat w = Raise KeyError)
  /\ (forall first rest rows,
        ANNS w = first :: rest ->
        anns_in_ms pyfloat w = Ok rows ->
        forall r, In r rows ->
          exists ann,
            In ann first
            /\ contains "MDC_ECG_WAVC" (wavecomponent ann) = true
            /\ row_of pyfloat [ann] r).
Proof.
  unfold anns_in_ms. split; [|split].
  - intros ->. reflexivity.
  - intros rest ->. reflexivity.
  - intros first rest rows -> H r Hr.
    destruct first as [|a first]; [discriminate H|].
    destruct (anns_to_ms_row_of pyfloat _ _ _ _ H r Hr)
      as (ann & p & st & ln & Hin & Hrest).
    apply filter_In in Hin as [Hin Hc].
    exists ann. split; [exact Hin|]. split; [exact Hc|].
    exists ann, p, st, ln. split; [left; reflexivity|exact Hrest].
Qed.

End AnnotationSetFacts.

Lemma anns_in_ms_first_set_witness :
  anns_in_ms decimal_float rhythm_empty_set = Raise KeyError
  /\ exists ann,
       In ann [relative_qrs; offtopic_ann]
       /\ contains "MDC_ECG_WAVC" (wavecomponent ann) = true
       /\ row_of decimal_float [ann]
                 (mklead_ann 1 (Some 0) "II" "QON" "MDC_ECG_WAVC_QRSWAVE"
                             (Some (140 # 1)%Q) "MDC_ECG_LEAD_II").
Proof.
  split.
  - exact (proj1 (proj2 (anns_in_ms_first_set decimal_float rhythm_empty_set))
             [[p_wave_ann]] eq_refl).
  - exact (proj2 (proj2 (anns_in_ms_first_set decimal_float rhythm_anns))
             [relative_qrs; offtopic_ann] [[p_wave_ann]] _ eq_refl eq_refl
             _ (or_introl eq_refl)).
Defined.

(** X13: when no rule matches and the code the fallback picks has fewer
    than four underscore-delimited tokens, the classification raises
    [IndexError].  This is the case of every such annotation whose
    component is one of the two generic codes and whose secondary
    component is empty: the empty string is picked, not the code type. *)
Theorem fallback_label_short_code (ann : annotation) (p : param) :
  falls_through ann = true ->
  (nth_error (split "_" (fallback_code ann)) 3 = None ->
   ecglibanntype ann p = Raise IndexError)
  /\ (generic (wavecomponent ann) = true -> wavecomponent2 ann = "" ->
      fallback_code ann = "" /\ ecglibanntype ann p = Raise IndexError).
Proof.
  intros Hf. rewrite (ecglibanntype_falls_through ann p Hf).
  unfold fallback_label, index. split.
  - intros ->. reflexivity.
  - intros Hg Hw. unfold fallback_code. rewrite Hg, Hw. simpl.
    split; reflexivity.
Qed.

Lemma fallback_label_short_code_witness :
  fallback_code generic_u_wave = ""
  /\ ecglibanntype generic_u_wave Plow = Raise IndexError.
Proof.
  exact (proj2 (fallback_label_short_code generic_u_wave Plow eq_refl)
           eq_refl eq_refl).
Defined.

(** ** The engine: what each row holds *)

Lemma is_type_true (a : ann_ms) (t : string) :
  is_type a t = true <-> ECGLIBANNTYPE a = t.
Proof. unfold is_type. apply String.eqb_eq. Qed.

Lemma qt_at_toff_cells (df : list ann_ms) (a : ann_ms) (s : state) (r r' : trow)
    (q : option Q) :
  qt_at_toff df a s r = Ok (q, r') ->
  RR r' = RR r /\ PR r' = PR r /\ QRS r' = QRS r.
Proof.
  unfold qt_at_toff, group_fallback.
  repeat (first [case_if
                |match goal with
                 | |- context [bind ?m _] => destruct m; cbn [bind]
                 end]);
    intros H; try discriminate H; inversion H; subst; auto.
Qed.

Lemma before_toff_cells (a : ann_ms) (s s1 : state) (r1 : trow) :
  on_qoff a (on_qon a (on_pon a (on_rpeak a (s, init_row a)))) = (s1, r1) ->
  (RR r1 <> None -> ECGLIBANNTYPE a = "RPEAK")
  /\ (PR r1 <> None -> ECGLIBANNTYPE a = "QON" \/ ECGLIBANNTYPE a = "RON")
  /\ (QRS r1 <> None -> ECGLIBANNTYPE a = "QOFF" \/ ECGLIBANNTYPE a = "STJPEAK")
  /\ (forall rr, RR r1 = Some rr -> (0 < rr)%Q).
Proof.
  unfold on_rpeak.
  destruct (is_type a "RPEAK") eqn:TR;
    [destruct (isnan (current_R s) || ngt (Some (TIME a)) (current_R s)) eqn:C|];
    unfold on_pon; destruct (is_type a "PON") eqn:TP;
    unfold on_qon;
    match goal with
    | |- context [if ?c then _ else _] => destruct c eqn:TQ
    end;
    unfold on_qoff;
    destruct (is_type a "QOFF" || is_type a "STJPEAK") eqn:TF;
    unfold init_row; cbn; intros H; inversion H; subst; cbn;
    (split; [|split; [|split]]);
    try (intros F; exfalso; apply F; reflexivity);
    try (intros rr F; discriminate F);
    try (intros _; apply is_type_true; exact TR);
    try (intros _; apply orb_true_iff in TF;
         rewrite !is_type_true in TF; exact TF);
    try (intros _; apply orb_true_iff in TQ as [TQ|TQ];
         [left; apply is_type_true; exact TQ
         |right; apply andb_true_iff in TQ as [TQ _];
          apply is_type_true; exact TQ]);
    try (intros rr Hr; destruct (current_R s) as [c|]; cbn in Hr, C;
         [injection Hr as <-; apply fgt_spec in C;
          unfold fsub; rewrite Qred_correct; lra
         |discriminate Hr]).
Qed.

Section EngineRows.

Variable pypow : Q -> Q -> Q.

Lemma step_own_cells (df : list ann_ms) (s s' : state) (a : ann_ms) (r : trow) :
  rr_positive s ->
  step pypow df s a = Ok (s', r) ->
  own_cells a r.
Proof.
  intros Hrr Hstep.
  destruct (step_row_ok pypow df s s' a r Hrr Hstep)
    as ((_ & Hf & Hnt & Hpos) & _).
  revert Hstep. unfold step.
  destruct (on_qoff a (on_qon a (on_pon a (on_rpeak a (reset_lead a s, init_row a)))))
    as [s1 r1] eqn:E.
  destruct (before_toff_cells a _ s1 r1 E) as (C1 & C2 & C3 & C4).
  unfold on_toff. destruct (is_type a "TOFF") eqn:T.
  - destruct (qt_at_toff df a s1 r1) as [[q r2]|] eqn:Q; cbn [bind];
      [|discriminate].
    destruct (qt_at_toff_cells _ _ _ _ _ _ Q) as (K1 & K2 & K3).
    intros H; inversion H; subst; clear H. unfold own_cells. cbn.
    rewrite K1, K2, K3.
    repeat split; try assumption.
    intros _. apply is_type_true. exact T.
  - intros H; inversion H; subst; clear H. unfold own_cells.
    destruct (Hnt eq_refl) as (N1 & N2 & N3).
    repeat split; try assumption.
    intros [F|[F|F]]; exfalso; apply F; assumption.
Qed.

Lemma scan_own_cells (df : list ann_ms) (rows : list ann_ms) :
  forall (s : state) (tbl : list trow),
  rr_positive s ->
  scan pypow df s rows = Ok tbl ->
  Forall2 (fun a r => t_TIME r = TIME a /\ own_cells a r) rows tbl.
Proof.
  induction rows as [|a rows IH]; intros s tbl Hrr H; simpl in H.
  - inversion H. constructor.
  - apply bind_Ok in H as ([s1 r1] & Hstep & H).
    apply bind_Ok in H as (rs & Hscan & H). inversion H; subst.
    destruct (step_row_ok _ _ _ _ _ _ Hrr Hstep) as [(Ht & _) Hrr1].
    constructor; [|exact (IH _ _ Hrr1 Hscan)].
    split; [exact Ht|exact (step_own_cells _ _ _ _ _ Hrr Hstep)].
Qed.

Lemma interval_table_rows (anns : list ann_ms) (tbl : list trow) :
  interval_table pypow anns = Ok tbl ->
  Forall2 (fun a r => t_TIME r = TIME a /\ own_cells a r)
          (sort_by ann_le anns) tbl.
Proof.
  unfold interval_table. intros H.
  destruct (0 <? List.length anns)%nat eqn:L.
  - assert (Hi : rr_positive initial_state) by (intros rr F; discriminate F).
    exact (scan_own_cells _ _ _ _ Hi H).
  - apply Nat.ltb_ge in L. destruct anns; [|simpl in L; lia].
    inversion H. constructor.
Qed.

(** X14: the table of the engine has one row per annotation, at the time
    of its annotation, taken in the order of [LEADNAM], [HL7LEADNAM],
    [TIME]; a row holds an RR only if its annotation is an [RPEAK], a PR
    only for a [QON] or [RON], a QRS only for a [QOFF] or [STJPEAK], and a
    QT, QTRR or QTCF only for a [TOFF]. *)
Theorem interval_table_own_cells (anns : list ann_ms) (tbl : list trow) :
  interval_table pypow anns = Ok tbl ->
  List.length tbl = List.length anns
  /\ Forall2 (fun a r => t_TIME r = TIME a /\ own_cells a r)
             (sort_by ann_le anns) tbl.
Proof.
  intros H. pose proof (interval_table_rows anns tbl H) as HF.
  split; [|exact HF].
  rewrite <- (Forall2_length HF). apply sort_by_length.
Qed.

(** X15: every RR and every QTRR the engine emits is strictly positive:
    an R peak that does not come after the current one is ignored. *)
Theorem derived_rr_positive (anns : list ann_ms) (tbl : list trow)
    (i : interval) (v : Q) :
  interval_table pypow anns = Ok tbl ->
  In i (derived_intervals tbl) ->
  PARAMCD i = "RR" \/ PARAMCD i = "QTRR" ->
  AVAL i = Some v ->
  (0 < v)%Q.
Proof.
  intros Htbl Hi Hp Hv.
  apply derived_intervals_In in Hi as [Hm _].
  apply melt_In in Hm as (r & c & Hr & Hc & ->). simpl in *.
  pose proof (interval_table_rows anns tbl Htbl) as HF.
  destruct (Forall2_In_r _ _ _ HF r Hr) as (a & _ & _ & Hown).
  destruct Hown as (_ & _ & _ & _ & Prr & Pqtrr).
  unfold value_vars in Hc. simpl in Hc.
  destruct Hc as [<-|[<-|[<-|[<-|[<-|[<-|[]]]]]]]; simpl in *;
    destruct Hp as [Hp|Hp]; try discriminate Hp.
  - exact (Prr v Hv).
  - exact (Pqtrr v Hv).
Qed.

End EngineRows.

Lemma interval_table_own_cells_witness :
  exists tbl,
    interval_table cbrt_pow beat_after_rr = Ok tbl
    /\ List.length tbl = 6%nat.
Proof.
  destruct (interval_table cbrt_pow beat_after_rr) as [tbl|] eqn:E;
    [|vm_compute in E; discriminate E].
  exists tbl. split; [reflexivity|].
  exact (proj1 (interval_table_own_cells cbrt_pow beat_after_rr tbl E)).
Defined.

Lemma derived_rr_positive_witness : (0 < 800 # 1)%Q.
Proof.
  destruct (interval_table cbrt_pow beat_after_rr) as [tbl|] eqn:E;
    [|vm_compute in E; discriminate E].
  apply (derived_rr_positive cbrt_pow beat_after_rr tbl
           (II_interval (160 # 1) "RR" (800 # 1)) (800 # 1) E).
  - vm_compute in E. inversion E. vm_compute. tauto.
  - left. reflexivity.
  - reflexivity.
Defined.

(** ** The engine: beats, runs of R peaks and the fallbacks of QT *)

Lemma reset_lead_current (a : ann_ms) (s : state) :
  current_lead (reset_lead a s) = LEADNAM a.
Proof.
  unfold reset_lead.
  destruct (String.eqb (current_lead s) "") eqn:E1; simpl; [reflexivity|].
  destruct (String.eqb_spec (current_lead s) (LEADNAM a)); simpl;
    [assumption|reflexivity].
Qed.

Lemma reset_lead_same (a : ann_ms) (s : state) :
  current_lead s = LEADNAM a -> LEADNAM a <> "" -> reset_lead a s = s.
Proof.
  intros H N. unfold reset_lead. rewrite H, String.eqb_refl.
  destruct (String.eqb_spec (LEADNAM a) ""); [contradiction|reflexivity].
Qed.

Lemma reset_lead_other (a : ann_ms) (s : state) :
  current_lead s <> LEADNAM a ->
  reset_lead a s = mkstate (LEADNAM a) None None None None None None None None.
Proof.
  intros H. unfold reset_lead.
  destruct (String.eqb_spec (current_lead s) (LEADNAM a)); [contradiction|].
  rewrite orb_true_r. reflexivity.
Qed.

Ltac step_of_type H :=
  unfold step, on_toff, on_qoff, on_qon, on_pon, on_rpeak, is_type;
  rewrite H; cbn [String.eqb Ascii.eqb Bool.eqb orb andb negb].

Section EngineBeats.

Variable pypow : Q -> Q -> Q.

(** X16: the state is scoped to the lead.  From two states whose current
    lead is not that of the first annotation, the scan of the same rows
    builds the same table: what was seen in other leads has no effect
    (but through the GLOBAL onsets of the input frame, which the scan
    reads in the frame itself). *)
Theorem scan_lead_scoped (df : list ann_ms) (s1 s2 : state) (a : ann_ms)
    (rest : list ann_ms) :
  current_lead s1 <> LEADNAM a ->
  current_lead s2 <> LEADNAM a ->
  scan pypow df s1 (a :: rest) = scan pypow df s2 (a :: rest).
Proof.
  intros H1 H2. simpl. unfold step.
  rewrite (reset_lead_other a s1 H1), (reset_lead_other a s2 H2). reflexivity.
Qed.

(** The step at a [TOFF] outside the GLOBAL lead, without GLOBAL onset
    in the frame. *)
Lemma step_toff_plain (df : list ann_ms) (s : state) (a : ann_ms) :
  ECGLIBANNTYPE a = "TOFF" -> LEADNAM a <> "GLOBAL" -> global_qons df = [] ->
  step pypow df s a =
  let s0 := reset_lead a s in
  let q := if isnan (last_qon s0) then last_qt s0
           else nsub (Some (TIME a)) (last_qon s0) in
  Ok (mkstate (current_lead s0) (preceeding_R s0) (current_R s0) (last_rr s0)
              None None None None q,
      mktrow (LEADNAM a) (HL7LEADNAM a) (TIME a) None None None
             q (last_rr s0) (fridericia pypow q (last_rr s0))).
Proof.
  intros Ht Hl Hg. step_of_type Ht.
  unfold qt_at_toff. rewrite Hg.
  destruct (String.eqb_spec (LEADNAM a) "GLOBAL"); [contradiction|].
  destruct (last_qon (reset_lead a s)); reflexivity.
Qed.

(** X17: [last_qt] outlives the beat.  A [TOFF] that follows another
    [TOFF] of its lead (not the GLOBAL one, and without GLOBAL onsets in
    the frame) has no onset to measure from, and its row repeats the QT,
    QTRR and QTCF of the [TOFF] before. *)
Theorem toff_after_toff_repeats_qt (df : list ann_ms) (s s1 : state)
    (a1 a2 : ann_ms) (r1 : trow) :
  ECGLIBANNTYPE a1 = "TOFF" -> ECGLIBANNTYPE a2 = "TOFF" ->
  LEADNAM a2 = LEADNAM a1 -> LEADNAM a1 <> "" -> LEADNAM a1 <> "GLOBAL" ->
  global_qons df = [] ->
  step pypow df s a1 = Ok (s1, r1) ->
  exists s2,
    step pypow df s1 a2
    = Ok (s2, mktrow (LEADNAM a2) (HL7LEADNAM a2) (TIME a2) None None None
                     (QT r1) (QTRR r1) (QTCF r1)).
Proof.
  intros T1 T2 L N G Hg H1.
  rewrite (step_toff_plain df s a1 T1 G Hg) in H1. cbv zeta in H1.
  injection H1 as <- <-.
  rewrite (step_toff_plain df _ a2 T2 (eq_ind_r (fun l => l <> "GLOBAL") G L) Hg).
  cbv zeta. rewrite reset_lead_same.
  - cbn. eexists. reflexivity.
  - cbn. rewrite reset_lead_current. symmetry. exact L.
  - rewrite L. exact N.
Qed.

(** X18: a [TOFF] of the GLOBAL lead, when the frame has no GLOBAL onset
    and the lead has seen none, takes the only [QON] of its annotation
    group if that comes before it: the QT is measured from it and the row
    moves to the lead of that [QON].  If the only [QON] is not before the
    [TOFF], the row stays in the GLOBAL lead with the QT left as it was. *)
Theorem toff_global_group_fallback (df : list ann_ms) (s : state)
    (a src : ann_ms) :
  ECGLIBANNTYPE a = "TOFF" -> LEADNAM a = "GLOBAL" ->
  last_qon s = None ->
  global_qons df = [] ->
  group_qon_rows df (ANNGRPID a) = [src] ->
  exists s' r,
    step pypow df s a = Ok (s', r)
    /\ t_TIME r = TIME a
    /\ ((TIME src < TIME a)%Q ->
        t_LEADNAM r = LEADNAM src /\ t_HL7LEADNAM r = HL7LEADNAM src
        /\ QT r = Some (fsub (TIME a) (TIME src)))
    /\ ((TIME a <= TIME src)%Q ->
        t_LEADNAM r = "GLOBAL" /\ t_HL7LEADNAM r = HL7LEADNAM a
        /\ QT r = last_qt (reset_lead a s)).
Proof.
  intros T L Hq Hg Hsrc. step_of_type T.
  assert (Hq0 : last_qon (reset_lead a s) = None).
  { unfold reset_lead. destruct (_ || _); [reflexivity|exact Hq]. }
  unfold qt_at_toff, group_fallback. rewrite Hq0, Hg, L, Hsrc. cbn.
  destruct (fgt (fsub (TIME a) (TIME src)) 0) eqn:F.
  - assert (E : feq (TIME src) (TIME src) = true)
      by (apply Qeq_bool_iff; reflexivity).
    rewrite E. cbn. eexists; eexists. split; [reflexivity|]. cbn.
    split; [reflexivity|]. split; [auto|].
    intros Hle. apply fgt_fsub_0 in F. lra.
  - cbn. eexists; eexists. split; [reflexivity|]. cbn.
    split; [reflexivity|]. split; [|intros _; rewrite L; auto].
    intros Hlt. apply fgt_fsub_0 in Hlt. congruence.
Qed.

Lemma step_rpeak (df : list ann_ms) (s : state) (a : ann_ms) :
  ECGLIBANNTYPE a = "RPEAK" ->
  step pypow df s a = Ok (on_rpeak a (reset_lead a s, init_row a)).
Proof.
  intros T. unfold step, on_toff, on_qoff, on_qon, on_pon.
  destruct (on_rpeak a (reset_lead a s, init_row a)) as [s1 r1].
  unfold is_type. rewrite T. reflexivity.
Qed.

Lemma scan_r_peaks (df : list ann_ms) (l : string) (rows : list ann_ms) :
  l <> "" ->
  forall (s : state),
  current_lead s = l ->
  r_peaks_after l (current_R s) rows ->
  exists tbl,
    scan pypow df s rows = Ok tbl
    /\ map RR tbl = expected_rr (current_R s) rows.
Proof.
  intros N. induction rows as [|a rows IH]; intros s Hl Hr.
  - exists []. split; reflexivity.
  - destruct Hr as (T & La & Hprev & Hrest).
    simpl. rewrite (step_rpeak df s a T).
    rewrite reset_lead_same; [|rewrite La; exact Hl|rewrite La; exact N].
    unfold on_rpeak, is_type. rewrite T. cbn [String.eqb Ascii.eqb Bool.eqb].
    assert (C : isnan (current_R s) || ngt (Some (TIME a)) (current_R s) = true).
    { destruct (current_R s) as [c|]; [|reflexivity]. simpl.
      apply fgt_spec. exact Hprev. }
    rewrite C. cbn [bind fst snd].
    destruct (IH (mkstate (current_lead s) (current_R s) (Some (TIME a))
                          (nsub (Some (TIME a)) (current_R s))
                          (last_pon s) (last_qon s) (last_qoff s)
                          (last_toff s) (last_qt s)) Hl Hrest)
      as (tbl & Hscan & Hmap).
    rewrite Hscan. cbn [bind]. eexists. split; [reflexivity|].
    cbn [map RR init_row]. cbn [current_R] in Hmap. rewrite Hmap. reflexivity.
Qed.

(** X19: for a lead that holds only R peaks, at strictly increasing
    times, scanned from a state of another lead, the RR column is empty
    on the first peak and is on every later peak its distance to the peak
    before. *)
Theorem scan_r_peaks_rr (df : list ann_ms) (l : string) (s : state)
    (rows : list ann_ms) :
  l <> "" -> current_lead s <> l ->
  r_peaks_after l None rows ->
  exists tbl,
    scan pypow df s rows = Ok tbl
    /\ map RR tbl = expected_rr None rows.
Proof.
  intros N Hs Hr. destruct rows as [|a rows].
  - exists []. split; reflexivity.
  - destruct Hr as (T & La & _ & Hrest).
    simpl. rewrite (step_rpeak df s a T).
    rewrite reset_lead_other; [|rewrite La; exact Hs].
    unfold on_rpeak, is_type. rewrite T. cbn [String.eqb Ascii.eqb Bool.eqb].
    cbn [current_lead preceeding_R current_R last_rr last_pon last_qon
         last_qoff last_toff last_qt isnan orb bind fst snd].
    destruct (scan_r_peaks df l rows N
                (mkstate (LEADNAM a) None (Some (TIME a))
                         (nsub (Some (TIME a)) None) None None None None None)
                La Hrest)
      as (tbl & Hscan & Hmap).
    rewrite Hscan. cbn [bind]. eexists. split; [reflexivity|].
    cbn [map RR init_row]. cbn [current_R] in Hmap. rewrite Hmap. reflexivity.
Qed.

(** X22: one complete beat.  For a [PON], a [QON], a [QOFF] and a [TOFF]
    of one lead scanned in this order, from any state and with any frame,
    the [QON] row holds PR = QON - PON, the [QOFF] row QRS = QOFF - QON and
    the [TOFF] row QT = TOFF - QON. *)
Theorem scan_complete_beat (df : list ann_ms) (s : state)
    (pon qon qoff toff : ann_ms) :
  ECGLIBANNTYPE pon = "PON" -> ECGLIBANNTYPE qon = "QON" ->
  ECGLIBANNTYPE qoff = "QOFF" -> ECGLIBANNTYPE toff = "TOFF" ->
  LEADNAM pon <> "" ->
  LEADNAM qon = LEADNAM pon -> LEADNAM qoff = LEADNAM pon ->
  LEADNAM toff = LEADNAM pon ->
  exists r1 r2 r3 r4,
    scan pypow df s [pon; qon; qoff; toff] = Ok [r1; r2; r3; r4]
    /\ PR r2 = Some (fsub (TIME qon) (TIME pon))
    /\ QRS r3 = Some (fsub (TIME qoff) (TIME qon))
    /\ QT r4 = Some (fsub (TIME toff) (TIME qon))
    /\ QTCF r4 = fridericia pypow (QT r4) (QTRR r4).
Proof.
  intros T1 T2 T3 T4 N L2 L3 L4.
  cbn [scan]. 
  assert (S1 : exists s1, step pypow df s pon = Ok (s1, init_row pon)
                          /\ current_lead s1 = LEADNAM pon
                          /\ last_pon s1 = Some (TIME pon)).
  { step_of_type T1. eexists. split; [reflexivity|].
    cbn. split; [apply reset_lead_current|reflexivity]. }
  destruct S1 as (s1 & E1 & C1 & P1). rewrite E1. cbn [bind fst snd].
  assert (S2 : exists s2 r2, step pypow df s1 qon = Ok (s2, r2)
                 /\ current_lead s2 = LEADNAM pon
                 /\ last_qon s2 = Some (TIME qon)
                 /\ PR r2 = Some (fsub (TIME qon) (TIME pon))).
  { step_of_type T2.
    rewrite reset_lead_same; [|rewrite L2; exact C1|rewrite L2; exact N].
    eexists; eexists. split; [reflexivity|]. cbn.
    rewrite P1. auto. }
  destruct S2 as (s2 & r2 & E2 & C2 & Q2 & PR2). rewrite E2. cbn [bind fst snd].
  assert (S3 : exists s3 r3, step pypow df s2 qoff = Ok (s3, r3)
                 /\ current_lead s3 = LEADNAM pon
                 /\ last_qon s3 = Some (TIME qon)
                 /\ QRS r3 = Some (fsub (TIME qoff) (TIME qon))).
  { step_of_type T3.
    rewrite reset_lead_same; [|rewrite L3; exact C2|rewrite L3; exact N].
    eexists; eexists. split; [reflexivity|]. cbn.
    rewrite Q2. auto. }
  destruct S3 as (s3 & r3 & E3 & C3 & Q3 & QRS3). rewrite E3. cbn [bind fst snd].
  assert (S4 : exists s4 r4, step pypow df s3 toff = Ok (s4, r4)
                 /\ QT r4 = Some (fsub (TIME toff) (TIME qon))
                 /\ QTCF r4 = fridericia pypow (QT r4) (QTRR r4)).
  { step_of_type T4.
    rewrite reset_lead_same; [|rewrite L4; exact C3|rewrite L4; exact N].
    unfold qt_at_toff. rewrite Q3. cbn.
    eexists; eexists. split; [reflexivity|]. cbn. auto. }
  destruct S4 as (s4 & r4 & E4 & QT4 & F4). rewrite E4. cbn [bind fst snd].
  exists (init_row pon), r2, r3, r4. auto.
Qed.

End EngineBeats.

Lemma scan_lead_scoped_witness :
  scan cbrt_pow single_beat initial_state single_beat
  = scan cbrt_pow single_beat state_V5_after_beat single_beat.
Proof.
  apply (scan_lead_scoped cbrt_pow single_beat initial_state
           state_V5_after_beat); discriminate.
Defined.

Lemma toff_after_toff_repeats_qt_witness :
  exists s2,
    step cbrt_pow [V5 1 "TOFF" (380 # 1); V5 2 "TOFF" (700 # 1)]
         (mkstate "V5" None None None None None None None (Some (240 # 1)%Q))
         (V5 2 "TOFF" (700 # 1))
    = Ok (s2, mktrow "V5" "MDC_ECG_LEAD_V5" (700 # 1) None None None
                     (Some (240 # 1)%Q) None None).
Proof.
  apply (toff_after_toff_repeats_qt cbrt_pow
           [V5 1 "TOFF" (380 # 1); V5 2 "TOFF" (700 # 1)]
           state_V5_after_beat
           (mkstate "V5" None None None None None None None (Some (240 # 1)%Q))
           (V5 1 "TOFF" (380 # 1)) (V5 2 "TOFF" (700 # 1))
           (mktrow "V5" "MDC_ECG_LEAD_V5" (380 # 1) None None None
                   (Some (240 # 1)%Q) None None));
    try reflexivity; discriminate.
Defined.

Lemma toff_global_group_fallback_witness :
  exists s' r,
    step cbrt_pow [lead_II "QON" (140 # 1); GLOBAL 0 "TOFF" (380 # 1)]
         state_GLOBAL_fresh (GLOBAL 0 "TOFF" (380 # 1)) = Ok (s', r)
    /\ t_LEADNAM r = "II" /\ t_HL7LEADNAM r = "MDC_ECG_LEAD_II"
    /\ QT r = Some (240 # 1)%Q.
Proof.
  destruct (toff_global_group_fallback cbrt_pow
              [lead_II "QON" (140 # 1); GLOBAL 0 "TOFF" (380 # 1)]
              state_GLOBAL_fresh (GLOBAL 0 "TOFF" (380 # 1))
              (lead_II "QON" (140 # 1))
              eq_refl eq_refl eq_refl eq_refl eq_refl)
    as (s' & r & Hstep & _ & Hlt & _).
  exists s', r. split; [exact Hstep|].
  exact (Hlt eq_refl).
Defined.

Lemma scan_r_peaks_rr_witness :
  exists tbl,
    scan cbrt_pow [] initial_state
         [V5 0 "RPEAK" (0 # 1); V5 1 "RPEAK" (800 # 1); V5 2 "RPEAK" (1600 # 1)]
    = Ok tbl
    /\ map RR tbl = [None; Some (800 # 1)%Q; Some (800 # 1)%Q].
Proof.
  apply (scan_r_peaks_rr cbrt_pow [] "V5" initial_state
           [V5 0 "RPEAK" (0 # 1); V5 1 "RPEAK" (800 # 1);
            V5 2 "RPEAK" (1600 # 1)]).
  - discriminate.
  - discriminate.
  - simpl. repeat split; reflexivity.
Defined.

Lemma scan_complete_beat_witness :
  exists r1 r2 r3 r4,
    scan cbrt_pow single_beat state_V5_after_beat single_beat
    = Ok [r1; r2; r3; r4]
    /\ PR r2 = Some (40 # 1)%Q
    /\ QRS r3 = Some (40 # 1)%Q
    /\ QT r4 = Some (240 # 1)%Q
    /\ QTCF r4 = fridericia cbrt_pow (QT r4) (QTRR r4).
Proof.
  apply (scan_complete_beat cbrt_pow single_beat state_V5_after_beat
           (lead_II "PON" (100 # 1)) (lead_II "QON" (140 # 1))
           (lead_II "QOFF" (180 # 1)) (lead_II "TOFF" (380 # 1)));
    try reflexivity; discriminate.
Defined.

Lemma qt_at_toff_global_last_witness :
  qt_at_toff [GLOBAL 0 "QON" (130 # 1); GLOBAL 1 "QON" (500 # 1);
              V5 2 "TOFF" (370 # 1)]
             (V5 2 "TOFF" (370 # 1)) initial_state
             (init_row (V5 2 "TOFF" (370 # 1)))
  = Ok (Some (240 # 1)%Q, init_row (V5 2 "TOFF" (370 # 1))).
Proof.
  apply (qt_at_toff_global_last
           [GLOBAL 0 "QON" (130 # 1); GLOBAL 1 "QON" (500 # 1);
            V5 2 "TOFF" (370 # 1)]
           (V5 2 "TOFF" (370 # 1)) initial_state
           (init_row (V5 2 "TOFF" (370 # 1))) [] [(500 # 1)%Q] (130 # 1)%Q).
  - reflexivity.
  - reflexivity.
  - reflexivity.
  - intros q' [<-|[]]. discriminate.
Defined.

Lemma qt_at_toff_global_raises_witness :
  qt_at_toff [V5 0 "TOFF" (100 # 1); GLOBAL 1 "QON" (130 # 1)]
             (V5 0 "TOFF" (100 # 1)) initial_state
             (init_row (V5 0 "TOFF" (100 # 1)))
  = Raise IndexError.
Proof.
  apply (qt_at_toff_global_raises
           [V5 0 "TOFF" (100 # 1); GLOBAL 1 "QON" (130 # 1)]
           (V5 0 "TOFF" (100 # 1)) initial_state
           (init_row (V5 0 "TOFF" (100 # 1)))).
  - reflexivity.
  - discriminate.
  - intros q [<-|[]]. discriminate.
Defined.

(** ** The aggregator: one row per group, and nothing counted twice *)

Lemma ascii_compare_lt_trans (a b c : ascii) :
  Ascii.compare a b = Lt -> Ascii.compare b c = Lt -> Ascii.compare a c = Lt.
Proof.
  unfold Ascii.compare. rewrite !N.compare_lt_iff. apply N.lt_trans.
Qed.

Lemma ascii_compare_refl (a : ascii) : Ascii.compare a a = Eq.
Proof. unfold Ascii.compare. apply N.compare_refl. Qed.

Lemma string_compare_lt_trans (a : string) :
  forall b c,
  String.compare a b = Lt -> String.compare b c = Lt -> String.compare a c = Lt.
Proof.
  induction a as [|x a IH]; intros [|y b] [|z c]; simpl; try congruence.
  destruct (Ascii.compare x y) eqn:Exy; try discriminate;
    destruct (Ascii.compare y z) eqn:Eyz; try discriminate.
  - apply Ascii.compare_eq_iff in Exy, Eyz. subst.
    rewrite ascii_compare_refl. apply IH.
  - apply Ascii.compare_eq_iff in Exy. subst. rewrite Eyz. reflexivity.
  - apply Ascii.compare_eq_iff in Eyz. subst. rewrite Exy. reflexivity.
  - rewrite (ascii_compare_lt_trans _ _ _ Exy Eyz). reflexivity.
Qed.

Lemma string_compare_refl (a : string) : String.compare a a = Eq.
Proof.
  induction a as [|x a IH]; simpl; [reflexivity|].
  rewrite ascii_compare_refl. exact IH.
Qed.

Lemma key_lt_trans (a b c : group_key) : key_lt a b -> key_lt b c -> key_lt a c.
Proof.
  destruct a as [[a1 a2] a3], b as [[b1 b2] b3], c as [[c1 c2] c3].
  unfold key_lt, key_compare, lex. simpl.
  destruct (String.compare a1 b1) eqn:E1; try discriminate;
    destruct (String.compare b1 c1) eqn:F1; try discriminate;
    try (apply String.compare_eq_iff in E1; subst b1);
    try (apply String.compare_eq_iff in F1; subst c1);
    rewrite ?string_compare_refl, ?E1, ?F1;
    try (rewrite (string_compare_lt_trans _ _ _ E1 F1)); try reflexivity.
  destruct (String.compare a2 b2) eqn:E2; try discriminate;
    destruct (String.compare b2 c2) eqn:F2; try discriminate;
    try (apply String.compare_eq_iff in E2; subst b2);
    try (apply String.compare_eq_iff in F2; subst c2);
    rewrite ?string_compare_refl, ?E2, ?F2;
    try (rewrite (string_compare_lt_trans _ _ _ E2 F2)); try reflexivity.
  apply string_compare_lt_trans.
Qed.

Lemma key_lt_irrefl (a : group_key) : ~ key_lt a a.
Proof.
  destruct a as [[a1 a2] a3]. unfold key_lt, key_compare, lex. simpl.
  rewrite !string_compare_refl. discriminate.
Qed.

Lemma key_compare_gt (a b : group_key) : key_compare a b = Gt -> key_lt b a.
Proof.
  destruct a as [[a1 a2] a3], b as [[b1 b2] b3].
  unfold key_lt, key_compare, lex. simpl.
  rewrite (String.compare_antisym b1 a1), (String.compare_antisym b2 a2),
    (String.compare_antisym b3 a3).
  destruct (String.compare a1 b1); simpl; try congruence.
  destruct (String.compare a2 b2); simpl; try congruence.
  destruct (String.compare a3 b3); simpl; congruence.
Qed.

Lemma insert_key_sorted (k : group_key) (ks : list group_key) :
  StronglySorted key_lt ks -> StronglySorted key_lt (insert_key k ks).
Proof.
  induction 1 as [|k0 ks Hs IH Hall]; simpl.
  - constructor; [constructor|constructor].
  - destruct (key_compare k k0) eqn:C.
    + constructor; assumption.
    + constructor; [constructor; assumption|].
      constructor; [exact C|].
      rewrite Forall_forall in Hall |- *. intros x Hx.
      exact (key_lt_trans _ _ _ C (Hall x Hx)).
    + constructor; [exact IH|].
      rewrite Forall_forall in Hall |- *. intros x Hx.
      apply insert_key_In in Hx as [->|Hx];
        [apply key_compare_gt; exact C|exact (Hall x Hx)].
Qed.

Lemma group_keys_sorted (rows : list interval) :
  StronglySorted key_lt (group_keys rows).
Proof.
  induction rows as [|i rows IH]; [constructor|].
  unfold group_keys in *. simpl. apply insert_key_sorted. exact IH.
Qed.

Lemma sorted_NoDup (ks : list group_key) :
  StronglySorted key_lt ks -> NoDup ks.
Proof.
  induction 1 as [|k ks Hs IH Hall]; constructor; [|exact IH].
  intros Hin. rewrite Forall_forall in Hall.
  exact (key_lt_irrefl k (Hall k Hin)).
Qed.

(** X23: the summary holds the [COUNT] rows and then the [AVERAGE] rows
    of the groups, in strictly ascending order of (lead, HL7 lead,
    parameter): a group has exactly one row of each kind. *)
Theorem summary_one_row_per_group (anns_df : list interval) :
  let out := get_interval_count_and_avg anns_df false in
  StronglySorted key_lt (map key_of (rows_of_dtype "COUNT" out))
  /\ NoDup (map key_of (rows_of_dtype "COUNT" out))
  /\ map key_of (rows_of_dtype "AVERAGE" out)
     = map key_of (rows_of_dtype "COUNT" out)
  /\ out = (rows_of_dtype "COUNT" out ++ rows_of_dtype "AVERAGE" out)%list.
Proof.
  intros out.
  assert (K : forall (dtype : string) (stat : list interval -> Q) valid ks,
            map key_of (map (summary_row dtype stat valid) ks) = ks).
  { intros dtype stat valid ks. rewrite map_map.
    rewrite <- (map_id ks) at 2. apply map_ext.
    intros k. apply key_of_summary_row. }
  assert (F : forall (dtype d : string) stat valid ks,
            rows_of_dtype d (map (summary_row dtype stat valid) ks)
            = if String.eqb dtype d
              then map (summary_row dtype stat valid) ks else []).
  { intros dtype d stat valid ks. unfold rows_of_dtype.
    induction ks as [|k ks IH]; simpl; [destruct (String.eqb dtype d); reflexivity|].
    rewrite IH. destruct (String.eqb dtype d); reflexivity. }
  subst out. unfold get_interval_count_and_avg.
  destruct (0 <? List.length anns_df)%nat.
  - assert (App : forall d l1 l2,
              rows_of_dtype d (l1 ++ l2)
              = (rows_of_dtype d l1 ++ rows_of_dtype d l2)%list)
      by (intros; apply filter_app).
    rewrite !App, !F. simpl. rewrite !app_nil_r, !K.
    split; [apply group_keys_sorted|].
    split; [apply sorted_NoDup; apply group_keys_sorted|].
    split; reflexivity.
  - simpl. repeat split; constructor.
Qed.

Lemma values_app (l1 l2 : list interval) :
  values (l1 ++ l2) = (values l1 ++ values l2)%list.
Proof. unfold values. apply flat_map_app. Qed.

Lemma values_cons (i : interval) (rows : list interval) :
  values (i :: rows) = (values [i] ++ values rows)%list.
Proof. unfold values. simpl. rewrite app_nil_r. reflexivity. Qed.

Lemma values_filter_notna (rows : list interval) :
  values (filter notna rows) = values rows.
Proof.
  induction rows as [|i rows IH]; [reflexivity|].
  rewrite (values_cons i rows).
  cbn [filter]. unfold notna at 1.
  destruct (AVAL i) as [v|] eqn:E; cbn [isnan negb].
  - rewrite (values_cons i (filter notna rows)), IH. reflexivity.
  - rewrite IH. unfold values at 2. cbn [flat_map]. rewrite E. reflexivity.
Qed.

Lemma list_sum_map_add {A : Type} (f g : A -> nat) (l : list A) :
  list_sum (map (fun k => (f k + g k)%nat) l)
  = (list_sum (map f l) + list_sum (map g l))%nat.
Proof. induction l as [|k l IH]; simpl; [reflexivity|]. rewrite IH. lia. Qed.

Lemma list_sum_indicator_absent (x : group_key) (c : nat) (ks : list group_key) :
  ~ In x ks ->
  list_sum (map (fun k => if key_eqb x k then c else 0%nat) ks) = 0%nat.
Proof.
  induction ks as [|k ks IH]; intros H; simpl; [reflexivity|].
  destruct (key_eqb x k) eqn:E.
  - apply key_eqb_eq in E. exfalso. apply H. left. auto.
  - apply IH. intros F. apply H. right. exact F.
Qed.

Lemma list_sum_indicator (x : group_key) (c : nat) (ks : list group_key) :
  NoDup ks -> In x ks ->
  list_sum (map (fun k => if key_eqb x k then c else 0%nat) ks) = c.
Proof.
  induction 1 as [|k ks Hnot Hnd IH]; intros Hin; [contradiction|]. simpl.
  destruct (key_eqb x k) eqn:E.
  - apply key_eqb_eq in E. subst k.
    rewrite (list_sum_indicator_absent x c ks Hnot). lia.
  - destruct Hin as [Hin|Hin].
    + subst k. rewrite (proj2 (key_eqb_eq x x) eq_refl) in E. discriminate E.
    + rewrite (IH Hin). reflexivity.
Qed.

Lemma group_cons_values (i : interval) (rows : list interval) (k : group_key) :
  List.length (values (group (i :: rows) k))
  = ((if key_eqb (key_of i) k then List.length (values [i]) else 0)
     + List.length (values (group rows k)))%nat.
Proof.
  unfold group. cbn [filter]. destruct (key_eqb (key_of i) k).
  - rewrite values_cons, length_app. reflexivity.
  - reflexivity.
Qed.

(** Over distinct keys that cover the rows, the groups split the
    values. *)
Lemma group_values_partition (rows : list interval) (ks : list group_key) :
  NoDup ks -> (forall i, In i rows -> In (key_of i) ks) ->
  list_sum (map (fun k => List.length (values (group rows k))) ks)
  = List.length (values rows).
Proof.
  intros Hnd. induction rows as [|i rows IH]; intros Hcov.
  - clear. induction ks as [|k ks IHk]; simpl; [reflexivity|exact IHk].
  - rewrite (map_ext _ _ (group_cons_values i rows)).
    rewrite list_sum_map_add.
    rewrite (list_sum_indicator _ _ ks Hnd (Hcov i (or_introl eq_refl))).
    rewrite (IH (fun j Hj => Hcov j (or_intror Hj))).
    rewrite (values_cons i rows), length_app. reflexivity.
Qed.

Lemma sum_avals_counts (valid : list interval) (ks : list group_key) :
  (sum_avals (map (summary_row "COUNT" count valid) ks)
   == inject_Z (Z.of_nat
        (list_sum (map (fun k => List.length (values (group valid k))) ks))))%Q.
Proof.
  induction ks as [|k ks IH]; [reflexivity|].
  cbn [map list_sum fold_right sum_avals AVAL summary_row].
  fold (sum_avals (map (summary_row "COUNT" count valid) ks)).
  fold (list_sum (map (fun k => List.length (values (group valid k))) ks)).
  rewrite IH. unfold count. rewrite Nat2Z.inj_add, inject_Z_plus. reflexivity.
Qed.

(** X24: nothing is counted twice and nothing is left out: the [COUNT]
    rows of the summary add up to the number of defined values of the
    input. *)
Theorem summary_counts_add_up (anns_df : list interval) :
  (sum_avals (rows_of_dtype "COUNT" (get_interval_count_and_avg anns_df false))
   == inject_Z (Z.of_nat (List.length (values anns_df))))%Q.
Proof.
  unfold get_interval_count_and_avg.
  destruct (0 <? List.length anns_df)%nat eqn:L.
  - unfold rows_of_dtype. rewrite filter_app.
    assert (F1 : forall ks,
              filter (fun i => String.eqb (DTYPE i) "COUNT")
                     (map (summary_row "COUNT" count (filter notna anns_df)) ks)
              = map (summary_row "COUNT" count (filter notna anns_df)) ks).
    { induction ks as [|k ks IH]; simpl; [reflexivity|]. rewrite IH. reflexivity. }
    assert (F2 : forall ks,
              filter (fun i => String.eqb (DTYPE i) "COUNT")
                     (map (summary_row "AVERAGE" mean (filter notna anns_df)) ks)
              = []).
    { induction ks as [|k ks IH]; simpl; [reflexivity|]. exact IH. }
    rewrite F1, F2, app_nil_r, sum_avals_counts.
    rewrite group_values_partition.
    + rewrite values_filter_notna. reflexivity.
    + apply sorted_NoDup. apply group_keys_sorted.
    + intros i Hi. apply group_keys_In. exists i. auto.
  - apply Nat.ltb_ge in L. destruct anns_df; [reflexivity|simpl in L; lia].
Qed.

(** ** Validation rows *)

Import Validation.

(** X25: [validate_xpath] records the query and reports [PASSED] exactly
    when the query returns one element and that element has the text or
    the attribute asked for, which is then the [VALUE]; otherwise the
    outcome is the failure category, the [VALUE] is empty when one
    element was found, and it is left as it was in the row passed in when
    none or several were. *)
Theorem validate_xpath_outcome (xmlnode : string -> string -> list node)
    (xpath ns attr : string) (valrow : validation_row) (failcat : string) :
  failcat <> "PASSED" ->
  let out := validate_xpath xmlnode xpath ns attr valrow failcat in
  XPATH out = xpath
  /\ (VALIOUT out = "PASSED" <->
      exists n txt, queried xmlnode xpath ns = [n]
                    /\ node_value attr n = Some txt)
  /\ (forall n txt, queried xmlnode xpath ns = [n] ->
        node_value attr n = Some txt -> VALUE out = txt)
  /\ (VALIOUT out <> "PASSED" ->
      VALIOUT out = failcat
      /\ VALUE out = match queried xmlnode xpath ns with
                     | [_] => ""
                     | _ => VALUE valrow
                     end).
Proof.
  intros Hf out. subst out.
  assert (E : validate_xpath xmlnode xpath ns attr valrow failcat =
              let row (value valiout valimsg : string) :=
                mkvalidation_row (EGXFN valrow) xpath (VALIGRP valrow)
                                 (PARAM valrow) value valiout valimsg in
              match queried xmlnode xpath ns with
              | [valnode] =>
                  match node_value attr valnode with
                  | Some txt => row txt "PASSED" ""
                  | None =>
                      row "" failcat
                          (if String.eqb attr ""
                           then "Node found but value is missing or empty string"
                           else "Node found but attribute is missing")
                  end
              | _ :: _ :: _ => row (VALUE valrow) failcat "Multiple nodes in XML"
              | [] => row (VALUE valrow) failcat "Node not found"
              end).
  { unfold validate_xpath, queried, node_value.
    destruct (String.eqb ns ""); cbn [negb];
      match goal with
      | |- context [match ?l with [] => _ | _ :: _ => _ end] =>
          destruct l as [|n [|n' rest]]
      end; try reflexivity;
      destruct (String.eqb attr "");
      match goal with
      | |- context [match ?v with Some _ => _ | None => _ end] => destruct v
      end; reflexivity. }
  rewrite E. clear E. cbv zeta.
  destruct (queried xmlnode xpath ns) as [|n [|n' rest]].
  - cbn. split; [reflexivity|]. split; [split|split].
    + intros H. congruence.
    + intros (m & t & H1 & _). discriminate H1.
    + intros m t H1 _. discriminate H1.
    + intros _. split; reflexivity.
  - destruct (node_value attr n) as [txt|] eqn:V; cbn.
    + split; [reflexivity|]. split; [split|split].
      * intros _. exists n, txt. split; [reflexivity|exact V].
      * reflexivity.
      * intros m t H1 H2. injection H1 as <-. congruence.
      * intros H. exfalso. apply H. reflexivity.
    + split; [reflexivity|]. split; [split|split].
      * intros H. congruence.
      * intros (m & t & H1 & H2). injection H1 as <-. congruence.
      * intros m t H1 H2. injection H1 as <-. congruence.
      * intros _. split; reflexivity.
  - cbn. split; [reflexivity|]. split; [split|split].
    + intros H. congruence.
    + intros (m & t & H1 & _). discriminate H1.
    + intros m t H1 _. discriminate H1.
    + intros _. split; reflexivity.
Qed.

Lemma validate_xpath_outcome_witness :
  let out := validate_xpath one_id_element "/AnnotatedECG/id" "urn:hl7-org:v3"
               "root" (new_validation_row "a.xml" "GENERAL" "UUID") "ERROR" in
  VALIOUT out = "PASSED" /\ VALUE out = "61d1a24f".
Proof.
  intros out.
  destruct (validate_xpath_outcome one_id_element "/AnnotatedECG/id"
              "urn:hl7-org:v3" "root"
              (new_validation_row "a.xml" "GENERAL" "UUID") "ERROR")
    as (_ & Hp & Hv & _); [discriminate|].
  split.
  - apply (proj2 Hp). eexists; eexists. split; reflexivity.
  - apply (Hv (mknode None [("root", "61d1a24f")])); reflexivity.
Defined.

(** ** Missing samples *)

Import Utils.

Lemma column_count_bounds (col : list (option Q)) :
  0 <= column_count col <= Z.of_nat (List.length col)
  /\ (column_count col = Z.of_nat (List.length col) <->
      forall x, In x col -> x <> None).
Proof.
  unfold column_count. induction col as [|c col IH]; simpl.
  - split; [lia|]. split; [intros _ x []|reflexivity].
  - destruct IH as [B E].
    pose proof (filter_length_le (fun c => negb (isnan c)) col) as Hle.
    destruct c as [v|]; simpl.
    + split; [lia|]. split.
      * intros H x [<-|Hx]; [discriminate|]. apply (proj1 E); [lia|exact Hx].
      * intros H. assert (column_count col = Z.of_nat (List.length col)).
        { apply (proj2 E). intros x Hx. apply H. right; exact Hx. }
        unfold column_count in *. lia.
    + split; [lia|]. split.
      * intros H. lia.
      * intros H. exfalso. apply (H None); [left|]; reflexivity.
Qed.

Lemma fold_left_count (leads : list (string * list (option Q))) (n : nat) :
  (forall c, In c leads -> List.length (snd c) = n) ->
  forall acc,
  acc <= fold_left Z.add (map (fun c => column_count (snd c)) leads) acc
      <= acc + Z.of_nat (List.length leads) * Z.of_nat n
  /\ (fold_left Z.add (map (fun c => column_count (snd c)) leads) acc
      = acc + Z.of_nat (List.length leads) * Z.of_nat n <->
      forall c, In c leads -> forall x, In x (snd c) -> x <> None).
Proof.
  induction leads as [|c leads IH]; intros Hlen acc.
  - simpl. split; [lia|]. split; [intros _ c []|lia].
  - assert (Hc : List.length (snd c) = n) by (apply Hlen; left; reflexivity).
    specialize (IH (fun c' H => Hlen c' (or_intror H)) (acc + column_count (snd c))).
    destruct IH as [B E].
    destruct (column_count_bounds (snd c)) as [Bc Ec]. rewrite Hc in Bc, Ec.
    cbn [map fold_left List.length]. rewrite Nat2Z.inj_succ.
    split; [lia|]. split.
    + intros H c' [<-|Hc'].
      * apply (proj1 Ec). lia.
      * apply (proj1 E); [lia|exact Hc'].
    + intros H.
      assert (E1 : column_count (snd c) = Z.of_nat n).
      { apply (proj2 Ec). apply H. left; reflexivity. }
      assert (E2 := proj2 E (fun c' Hc' => H c' (or_intror Hc'))).
      lia.
Qed.

(** X26: on a frame with at least one lead and one sample the ratio of
    missing samples is a number between 0 and 1, and it is 0 exactly when
    no sample is missing; a frame without samples gives [nan], and the
    frame without columns raises [KeyError]. *)
Theorem ratio_of_missing_samples_bounds (time : list Q)
    (leads : list (string * list (option Q))) :
  (time <> [] -> leads <> [] ->
   (forall c, In c leads -> List.length (snd c) = List.length time) ->
   exists q,
     ratio_of_missing_samples (WaveformFrame time leads) = Ok (Some q)
     /\ (0 <= q <= 1)%Q
     /\ (q == 0 <-> forall c, In c leads -> forall x, In x (snd c) -> x <> None)%Q)
  /\ ratio_of_missing_samples (WaveformFrame [] leads) = Ok None
  /\ ratio_of_missing_samples NoWaveform = Raise KeyError.
Proof.
  split; [|split; [|reflexivity]].
  - intros Ht Hl Hlen. unfold ratio_of_missing_samples.
    destruct (fold_left_count leads (List.length time) Hlen 0) as [B E].
    set (not_nans := fold_left Z.add (map (fun c => column_count (snd c)) leads) 0) in *.
    set (total := (Z.of_nat (1 + List.length leads) - 1) * Z.of_nat (List.length time)).
    assert (Ht' : 0 < Z.of_nat (List.length time))
      by (destruct time; [contradiction|simpl; lia]).
    assert (Hl' : 0 < Z.of_nat (List.length leads))
      by (destruct leads; [contradiction|simpl List.length; lia]).
    assert (Etot : total = Z.of_nat (List.length leads) * Z.of_nat (List.length time))
      by (unfold total; lia).
    assert (Hpos : 0 < total) by (rewrite Etot; lia).
    destruct (total =? 0) eqn:Z0; [apply Z.eqb_eq in Z0; lia|].
    eexists. split; [reflexivity|].
    unfold fdiv. rewrite Qred_correct.
    assert (Hq : (0 < inject_Z total)%Q)
      by (unfold Qlt; simpl; lia).
    assert (Hnum : 0 <= total - not_nans <= total) by lia.
    split; [split|].
    + apply Qle_shift_div_l; [exact Hq|]. rewrite Qmult_0_l.
      unfold Qle; simpl; lia.
    + apply Qle_shift_div_r; [exact Hq|]. rewrite Qmult_1_l.
      unfold Qle; simpl; lia.
    + rewrite <- E, <- Etot. split.
      * intros H0.
        assert (Hz : (inject_Z (total - not_nans) == 0)%Q).
        { rewrite <- (Qmult_div_r (inject_Z (total - not_nans)) (inject_Z total));
            [|intros F; rewrite F in Hq; discriminate Hq].
          rewrite H0. ring. }
        unfold Qeq in Hz. simpl in Hz. lia.
      * intros H0. replace (total - not_nans) with 0 by lia.
        unfold Qdiv. rewrite Qmult_0_l. reflexivity.
  - unfold ratio_of_missing_samples. simpl List.length.
    rewrite Z.mul_0_r. reflexivity.
Qed.

Lemma ratio_of_missing_samples_bounds_witness :
  exists q,
    ratio_of_missing_samples frame_with_gap = Ok (Some q)
    /\ (0 <= q <= 1)%Q.
Proof.
  destruct (proj1 (ratio_of_missing_samples_bounds [0; 2; 4]%Q
              [("I", [Some (1 # 10); None; Some (3 # 10)]%Q);
               ("II", [Some (1 # 5); Some (1 # 5); Some (2 # 5)]%Q)]))
    as (q & Hq & Hb & _).
  - discriminate.
  - discriminate.
  - intros c [<-|[<-|[]]]; reflexivity.
  - exists q. split; [exact Hq|exact Hb].
Defined.

(** ** Precision and offsets of HL7 time stamps *)

Lemma string_app_assoc (a b c : string) : ((a ++ b) ++ c = a ++ (b ++ c))%string.
Proof. induction a as [|x a IH]; simpl; [reflexivity|rewrite IH; reflexivity]. Qed.

Lemma string_app_length (a b : string) :
  String.length (a ++ b) = (String.length a + String.length b)%nat.
Proof. induction a as [|x a IH]; simpl; [reflexivity|rewrite IH; reflexivity]. Qed.

Lemma substring_length (s : string) :
  forall a n, String.length (substring a n s) = Nat.min n (String.length s - a).
Proof.
  induction s as [|c s IH]; intros a n.
  - destruct a, n; reflexivity.
  - destruct a as [|a]; simpl.
    + destruct n as [|n]; simpl; [reflexivity|]. rewrite IH. rewrite Nat.sub_0_r. reflexivity.
    + apply IH.
Qed.


Lemma substring_whole (d : string) : substring 0 (String.length d) d = d.
Proof. induction d as [|c d IH]; simpl; [reflexivity|rewrite IH; reflexivity]. Qed.


Lemma split_aux_head (sep : ascii) (t : string) :
  forall cur, exists r tl, split_aux sep cur t = (cur ++ r) :: tl.
Proof.
  induction t as [|c t IH]; intros cur; simpl.
  - exists "", []. f_equal.
    clear. induction cur as [|x cur IH]; simpl; [reflexivity|rewrite <- IH; reflexivity].
  - destruct (Ascii.eqb c sep).
    + exists "", (split_aux sep "" t). f_equal.
      clear. induction cur as [|x cur IH]; simpl; [reflexivity|rewrite <- IH; reflexivity].
    + destruct (IH (cur ++ String c "")) as (r & tl & E).
      exists (String c r), tl. rewrite E, string_app_assoc. reflexivity.
Qed.

Lemma fromisoformat_lt_10 (s : string) :
  (String.length s < 10)%nat -> fromisoformat s = Raise ValueError.
Proof.
  intros H. unfold fromisoformat, parse_isoformat_date.
  assert (N : ndigits 2 (drop 8 s) = None).
  { unfold ndigits, slice, drop.
    replace (String.length (substring 0 (2 - 0) (substring 8 (String.length s - 8) s)) =? 2)%nat
      with false; [reflexivity|].
    symmetry. apply Nat.eqb_neq. rewrite !substring_length. lia. }
  rewrite N.
  destruct (ndigits 4 s); [|reflexivity].
  destruct (String.get 4 s) as [c|]; [|reflexivity].
  destruct (ndigits 2 (drop 5 s)); [|destruct (Ascii.eqb_spec c "-"); [subst|]; try reflexivity].
  2:{ destruct c as [[] [] [] [] [] [] [] []]; reflexivity. }
  destruct (String.get 7 s) as [c'|].
  - destruct c as [[] [] [] [] [] [] [] []]; try reflexivity;
    destruct c' as [[] [] [] [] [] [] [] []]; reflexivity.
  - destruct c as [[] [] [] [] [] [] [] []]; reflexivity.
Qed.

(** X1: a time stamp whose part before the first dot has fewer than
    eight characters, that is, one with the precision of a year or of a
    month, never parses: [parse_hl7_datetime] raises [ValueError]. *)
Theorem parse_hl7_datetime_reduced_precision (hl7time : string) :
  (String.length (datatime_part hl7time) < 8)%nat ->
  parse_hl7_datetime hl7time = Raise ValueError.
Proof.
  unfold datatime_part, parse_hl7_datetime. intros H.
  destruct (split_aux_head "." hl7time "") as (d & tl & E).
  unfold split in *. rewrite E in *. simpl in H. cbn [index nth_error bind].
  set (m := if (1 <? List.length (("" ++ d) :: tl))%nat then index (("" ++ d) :: tl) 1 else Ok "").
  destruct m as [mstz|e] eqn:Em.
  2:{ exfalso. subst m. destruct tl; simpl in Em; discriminate Em. }
  cbn [bind]. simpl append in *.
  apply fromisoformat_lt_10.
  unfold slice.
  repeat match goal with
  | |- context [(?a <? ?b)%nat] => destruct (Nat.ltb_spec a b)
  end;
  repeat (rewrite ?string_app_length, ?substring_length; cbn [String.length]);
  lia.
Qed.






Lemma parse_hl7_datetime_reduced_precision_witness :
  parse_hl7_datetime "200211" = Raise ValueError.
Proof.
  apply (parse_hl7_datetime_reduced_precision "200211"). simpl. lia.
Defined.

